(** * News portal: subscription notification and digest pipeline

    A shallow embedding of the Django application's models
    ([news/models.py]), services ([news/services/email_service.py]),
    Celery tasks ([news/tasks.py]), signal receivers ([news/signals.py])
    and the two views that touch subscriptions and activation tokens
    ([news/views.py]).

    Python code that reads or writes the database, the clock, the mail
    transport, the Celery broker or the cache is written in a small
    state-and-exception monad over a [World]; an exception leaves the
    world as it was when it was raised.  Logging and [print] calls are
    dropped. *)

From Stdlib Require Import ZArith List Ascii String Bool Lia Arith Sorted.
Import ListNotations.
Open Scope Z_scope.

(** ** Time

    An aware [datetime] is the number of microseconds since the epoch
    (an instant); a naive [datetime] is the same count on the wall
    clock of some zone.  [timedelta(days=n)] is a number of
    microseconds. *)

Definition datetime := Z.
Definition naive_datetime := Z.

Definition MICROSECONDS_PER_DAY : Z := 86400000000.
Definition MICROSECONDS_PER_HOUR : Z := 3600000000.

Definition timedelta_days (n : Z) : Z := n * MICROSECONDS_PER_DAY.

(** [settings.TIME_ZONE = 'Europe/Moscow'], [USE_TZ = True]: the current
    zone is three hours ahead of UTC (no daylight saving since 2014). *)
Definition TIME_ZONE_utcoffset : Z := 3 * MICROSECONDS_PER_HOUR.

(** [aware.date()] for a [datetime] whose [tzinfo] is UTC, which is what
    [timezone.now()] returns under [USE_TZ = True]: the day number of
    the UTC calendar date. *)
Definition datetime_date (d : datetime) : Z := d / MICROSECONDS_PER_DAY.

(** [datetime.combine(date, datetime.min.time())]: naive midnight. *)
Definition datetime_combine_min (date : Z) : naive_datetime :=
  date * MICROSECONDS_PER_DAY.

(** [timezone.make_aware(value)]: reads the naive value as wall-clock
    time in the current zone. *)
Definition make_aware (value : naive_datetime) : datetime :=
  value - TIME_ZONE_utcoffset.

(** [timezone.localtime(d)] as a naive wall-clock value. *)
Definition localtime (d : datetime) : naive_datetime :=
  d + TIME_ZONE_utcoffset.

(** ** Entities ([news/models.py])

    A foreign key holds the row it refers to, as the ORM hands it to
    the Python code. *)

Inductive PostType := ARTICLE | NEWS.

Definition PostType_eqb (a b : PostType) : bool :=
  match a, b with
  | ARTICLE, ARTICLE | NEWS, NEWS => true
  | _, _ => false
  end.

Record User := mkUser {
  user_id : Z;
  username : string;
  email : string
}.

Record Author := mkAuthor {
  author_id : Z;
  author_user : User;
  author_rating : Z
}.

Record Category := mkCategory {
  category_id : Z;
  category_name : string
}.

Record Subscription := mkSubscription {
  subscription_id : option Z;
  subscription_user : User;
  subscription_category : Category;
  subscribed_at : datetime;
  last_weekly_sent : option datetime
}.

Record Post := mkPost {
  pk : option Z;
  author : Author;
  post_type : PostType;
  title : string;
  content : string;
  rating : Z;
  created_at : datetime;
  updated_at : datetime;
  notifications_sent : bool
}.

Record PostCategory := mkPostCategory {
  pc_post : Z;
  pc_category : Category
}.

Record ActivationToken := mkActivationToken {
  token_id : option Z;
  token_user : User;
  token : string;
  token_created_at : datetime;
  activated : bool
}.

Definition Post_set_pk (p : Post) (k : option Z) : Post :=
  mkPost k (author p) (post_type p) (title p) (content p) (rating p)
         (created_at p) (updated_at p) (notifications_sent p).

Definition Post_set_created_at (p : Post) (t : datetime) : Post :=
  mkPost (pk p) (author p) (post_type p) (title p) (content p) (rating p)
         t (updated_at p) (notifications_sent p).

Definition Post_set_updated_at (p : Post) (t : datetime) : Post :=
  mkPost (pk p) (author p) (post_type p) (title p) (content p) (rating p)
         (created_at p) t (notifications_sent p).

Definition Post_set_notifications_sent (p : Post) (b : bool) : Post :=
  mkPost (pk p) (author p) (post_type p) (title p) (content p) (rating p)
         (created_at p) (updated_at p) b.

Definition Subscription_set_last_weekly_sent
  (s : Subscription) (t : option datetime) : Subscription :=
  mkSubscription (subscription_id s) (subscription_user s)
                 (subscription_category s) (subscribed_at s) t.

Definition Subscription_set_id (s : Subscription) (k : option Z) : Subscription :=
  mkSubscription k (subscription_user s) (subscription_category s)
                 (subscribed_at s) (last_weekly_sent s).

(** ** Mail, jobs, flash messages, cache keys *)

(** Subjects are f-strings around a category name; the fixed text is
    kept as a tag. *)
Inductive Subject :=
| SubjectNewNews (category : string)
| SubjectNewArticle (category : string)
| SubjectWeeklyDigest (category : string)
| SubjectWelcome.

(** Template contexts.  URLs built from [settings.SITE_URL] and an id
    are kept as the id; dates passed through [strftime] are kept as the
    instant. *)
Inductive Context :=
| NotificationContext
    (ctx_username post_title post_preview ctx_category_name : string)
    (post_url : option Z) (author_name : string) (post_date : datetime)
    (unsubscribe_url : Z)
| DigestContext
    (ctx_username ctx_category_name : string) (new_posts : list Post)
    (week_start week_end : datetime) (unsubscribe_url : Z)
| WelcomeContext (user : User) (activation_url : string).

Record Message := mkMessage {
  subject : Subject;
  message : string;
  recipient_list : list string;
  html_message : string
}.

(** What becomes of a message handed to [send]: accepted by the
    transport; not handed over because no address of it is non-empty
    (no error); refused by the transport; or never built because a
    template raised. *)
Inductive Delivery :=
| delivered (m : Message)
| no_recipient
| refused_by_transport (m : Message)
| not_built.

Definition delivered_mail (d : Delivery) : list Message :=
  match d with delivered m => [m] | _ => [] end.

Definition refused_mail (d : Delivery) : list Message :=
  match d with refused_by_transport m => [m] | _ => [] end.

(** The outcomes that are an exception in the code that sends. *)
Definition delivery_failed (d : Delivery) : bool :=
  match d with
  | refused_by_transport _ | not_built => true
  | delivered _ | no_recipient => false
  end.

Inductive Job :=
| send_weekly_digest_job
| send_immediate_notification_job (post_id : Z)
| send_welcome_email_job (uid : Z) (activation_url : string)
| send_activation_success_job (uid : Z).

Inductive Flash :=
| FlashSubscribed (category : string)
| FlashAlreadySubscribed (category : string)
| FlashAlreadyActivated
| FlashNewActivationSent
| FlashActivationSent.

Inductive CacheKey :=
| key_latest_news
| key_news_list
| key_post (id : option Z)
| key_categories_list
| key_user_subscriptions (uid : Z)
| key_category_subscribers_count (cid : Z).

Definition CacheKey_eqb (a b : CacheKey) : bool :=
  match a, b with
  | key_latest_news, key_latest_news => true
  | key_news_list, key_news_list => true
  | key_post (Some i), key_post (Some j) => i =? j
  | key_post None, key_post None => true
  | key_categories_list, key_categories_list => true
  | key_user_subscriptions i, key_user_subscriptions j => i =? j
  | key_category_subscribers_count i, key_category_subscribers_count j => i =? j
  | _, _ => false
  end.

(** ** Exceptions *)

Inductive Exn :=
| ValidationError (news_count : nat)
| DoesNotExist
| MultipleObjectsReturned
| IntegrityError
| Http404
| SMTPException
| TemplateDoesNotExist
| RuntimeError
| OverflowError.

Inductive Result (A : Type) :=
| Ok (a : A)
| Raise (e : Exn).

Arguments Ok {A} a.
Arguments Raise {A} e.

(** ** The world *)

Record DB := mkDB {
  posts : list Post;
  post_categories : list PostCategory;
  categories : list Category;
  subscriptions : list Subscription;
  tokens : list ActivationToken;
  next_pk : Z
}.

(** A callback registered with [transaction.on_commit]; the only lambda
    in the code base is [lambda: process_post_notifications(instance)]. *)
Inductive Hook :=
| hook_process_post_notifications (instance : Post).

Record World := mkWorld {
  db : DB;
  (** inside [transaction.atomic]: the state to roll back to and the
      pending [on_commit] callbacks *)
  txn : option (DB * list Hook);
  (** how many times [timezone.now()] has been called *)
  ticks : nat;
  (** how many times [get_random_string] has been called *)
  rng : nat;
  (** mail accepted by the transport, oldest first *)
  outbox : list Message;
  (** mail the transport refused, oldest first *)
  refused : list Message;
  (** jobs handed to the Celery broker, oldest first *)
  queue : list Job;
  flash : list Flash;
  cache : list CacheKey
}.

Definition set_db (w : World) (x : DB) : World :=
  mkWorld x (txn w) (ticks w) (rng w) (outbox w) (refused w) (queue w) (flash w) (cache w).
Definition set_txn (w : World) (x : option (DB * list Hook)) : World :=
  mkWorld (db w) x (ticks w) (rng w) (outbox w) (refused w) (queue w) (flash w) (cache w).
Definition set_ticks (w : World) (x : nat) : World :=
  mkWorld (db w) (txn w) x (rng w) (outbox w) (refused w) (queue w) (flash w) (cache w).
Definition set_rng (w : World) (x : nat) : World :=
  mkWorld (db w) (txn w) (ticks w) x (outbox w) (refused w) (queue w) (flash w) (cache w).
Definition set_outbox (w : World) (x : list Message) : World :=
  mkWorld (db w) (txn w) (ticks w) (rng w) x (refused w) (queue w) (flash w) (cache w).
Definition set_refused (w : World) (x : list Message) : World :=
  mkWorld (db w) (txn w) (ticks w) (rng w) (outbox w) x (queue w) (flash w) (cache w).
Definition set_queue (w : World) (x : list Job) : World :=
  mkWorld (db w) (txn w) (ticks w) (rng w) (outbox w) (refused w) x (flash w) (cache w).
Definition set_flash (w : World) (x : list Flash) : World :=
  mkWorld (db w) (txn w) (ticks w) (rng w) (outbox w) (refused w) (queue w) x (cache w).
Definition set_cache (w : World) (x : list CacheKey) : World :=
  mkWorld (db w) (txn w) (ticks w) (rng w) (outbox w) (refused w) (queue w) (flash w) x.

Definition set_posts (d : DB) (l : list Post) : DB :=
  mkDB l (post_categories d) (categories d) (subscriptions d) (tokens d) (next_pk d).
Definition set_post_categories (d : DB) (l : list PostCategory) : DB :=
  mkDB (posts d) l (categories d) (subscriptions d) (tokens d) (next_pk d).
Definition set_subscriptions (d : DB) (l : list Subscription) : DB :=
  mkDB (posts d) (post_categories d) (categories d) l (tokens d) (next_pk d).
Definition set_tokens (d : DB) (l : list ActivationToken) : DB :=
  mkDB (posts d) (post_categories d) (categories d) (subscriptions d) l (next_pk d).
Definition set_next_pk (d : DB) (n : Z) : DB :=
  mkDB (posts d) (post_categories d) (categories d) (subscriptions d) (tokens d) n.

(** ** The monad *)

Definition M (A : Type) : Type := World -> Result A * World.

Definition ret {A} (a : A) : M A := fun w => (Ok a, w).

Definition bind {A B} (m : M A) (k : A -> M B) : M B :=
  fun w =>
    match m w with
    | (Ok a, w') => k a w'
    | (Raise e, w') => (Raise e, w')
    end.

Definition raise {A} (e : Exn) : M A := fun w => (Raise e, w).

(** [try: body  except Exception as e: handler(e)] *)
Definition try_except {A} (body : M A) (handler : Exn -> M A) : M A :=
  fun w =>
    match body w with
    | (Ok a, w') => (Ok a, w')
    | (Raise e, w') => handler e w'
    end.

Definition gets {A} (f : World -> A) : M A := fun w => (Ok (f w), w).
Definition modify (f : World -> World) : M unit := fun w => (Ok tt, f w).
Definition modify_db (f : DB -> DB) : M unit :=
  modify (fun w => set_db w (f (db w))).

Declare Scope py_scope.
Delimit Scope py_scope with py.
Notation "x <- c ;; k" := (bind c (fun x => k))
  (at level 61, c at next level, right associativity) : py_scope.
Notation "c ;; k" := (bind c (fun _ => k))
  (at level 61, right associativity) : py_scope.
Open Scope py_scope.

(** [for x in l: body(x)] *)
Fixpoint for_each {A} (l : list A) (body : A -> M unit) : M unit :=
  match l with
  | [] => ret tt
  | x :: rest => body x ;; for_each rest body
  end.

(** A computation that returns normally from every world. *)
Definition returns {A} (m : M A) : Prop :=
  forall w, exists a w', m w = (Ok a, w').

(** A computation that leaves the database as it is. *)
Definition keeps_db {A} (m : M A) : Prop :=
  forall w r w', m w = (r, w') -> db w' = db w.

Definition option_Z_eqb (a b : option Z) : bool :=
  match a, b with
  | Some x, Some y => x =? y
  | None, None => true
  | _, _ => false
  end.

Definition SITE_URL : string := "http://127.0.0.1:8000".

(** ** Python strings

    A [string] holds the UTF-8 encoding of a Python [str].  [len] and
    slices count characters: a character is a byte that is not a
    continuation byte (one of the form 10xxxxxx), together with the
    continuation bytes that follow it. *)

Definition is_continuation_byte (c : ascii) : bool :=
  match c with
  | Ascii _ _ _ _ _ _ b6 b7 => b7 && negb b6
  end.

(** [len(s)] *)
Fixpoint py_len (s : string) : nat :=
  match s with
  | EmptyString => 0%nat
  | String c rest =>
      if is_continuation_byte c then py_len rest else S (py_len rest)
  end.

(** [s[:n]] *)
Fixpoint py_prefix (n : nat) (s : string) : string :=
  match s with
  | EmptyString => EmptyString
  | String c rest =>
      if is_continuation_byte c then String c (py_prefix n rest)
      else
        match n with
        | O => EmptyString
        | S m => String c (py_prefix m rest)
        end
  end.

(** ** Integer columns

    The database is SQLite ([settings.DATABASES]): an integer column
    holds a signed 64-bit value, and the driver raises [OverflowError]
    for a parameter outside that range. *)

Definition INTEGER_MIN : Z := - 2 ^ 63.
Definition INTEGER_MAX : Z := 2 ^ 63 - 1.

Definition fits_integer_column (n : Z) : bool :=
  (INTEGER_MIN <=? n) && (n <=? INTEGER_MAX).

Inductive HttpResponse :=
| redirect_category_posts (category_id : Z)
| redirect_profile.

(** The dictionary returned by [EmailService.send_weekly_digest]. *)
Record DigestResult := mkDigestResult {
  sent : nat;
  errors : nat;
  total : nat
}.

(** [QuerySet.order_by('-created_at')]: newest first, ties in table order. *)
Fixpoint insert_by_created_at_desc (p : Post) (l : list Post) : list Post :=
  match l with
  | [] => [p]
  | q :: rest =>
      if created_at q <? created_at p then p :: q :: rest
      else q :: insert_by_created_at_desc p rest
  end.

Definition order_by_created_at_desc (l : list Post) : list Post :=
  fold_right insert_by_created_at_desc [] l.

(** ** The environment of a run

    What the code reaches through Django rather than through the
    database: the clock, the random source, the template engine and
    the mail transport. *)

Class Env := {
  (** [clock i] is what the [i]-th call of [timezone.now()] returns *)
  clock : nat -> datetime;
  (** [random_string i] is what the [i]-th call of
      [get_random_string(64)] returns *)
  random_string : nat -> string;
  (** the template engine; [None] when rendering raises *)
  template : string -> Context -> option string;
  (** whether the transport accepts a message handed to it; when it
      does not, sending with [fail_silently=False] raises *)
  transport_up : Message -> bool
}.

Section Pipeline.

Context {env : Env}.

(** ** Framework primitives *)

Definition timezone_now : M datetime :=
  fun w => (Ok (clock (ticks w)), set_ticks w (S (ticks w))).

Definition get_random_string : M string :=
  fun w => (Ok (random_string (rng w)), set_rng w (S (rng w))).

Definition render_to_string (name : string) (ctx : Context) : M string :=
  match template name ctx with
  | Some s => ret s
  | None => raise TemplateDoesNotExist
  end.

(** [EmailMessage.recipients()]: the addresses that are not empty. *)
Definition EmailMessage_recipients (m : Message) : list string :=
  filter (fun address => negb (String.eqb address "")) (recipient_list m).

(** [EmailMessage.send(fail_silently=False)]: without a recipient
    nothing is handed to the transport and 0 is returned; otherwise the
    transport accepts the message, and 1 is returned, or it raises. *)
Definition EmailMessage_send (m : Message) : M nat :=
  match EmailMessage_recipients m with
  | [] => ret 0%nat
  | _ :: _ =>
      if transport_up m
      then modify (fun w => set_outbox w (outbox w ++ [m])) ;;
           ret 1%nat
      else modify (fun w => set_refused w (refused w ++ [m])) ;;
           raise SMTPException
  end.

(** [send_mail(..., html_message=..., fail_silently=False)] builds the
    message and returns [mail.send()]. *)
Definition send_mail (m : Message) : M nat :=
  EmailMessage_send m.

Definition cache_delete (k : CacheKey) : M unit :=
  modify (fun w =>
    set_cache w (filter (fun k' => negb (CacheKey_eqb k k')) (cache w))).

Definition messages_add (f : Flash) : M unit :=
  modify (fun w => set_flash w (flash w ++ [f])).

(** [task.delay(...)]: hands the job to the broker and returns. *)
Definition delay (j : Job) : M unit :=
  modify (fun w => set_queue w (queue w ++ [j])).

(** The next value of the primary-key sequence. *)
Definition fresh_pk : M Z :=
  fun w => (Ok (next_pk (db w)),
            set_db w (set_next_pk (db w) (next_pk (db w) + 1))).

(** ** [Post.objects.get(pk=...)] *)

Definition Post_objects_get (id : option Z) : M Post :=
  match id with
  | None => raise DoesNotExist
  | Some k =>
      ps <- gets (fun w => posts (db w)) ;;
      match find (fun p => option_Z_eqb (pk p) (Some k)) ps with
      | Some p => ret p
      | None => raise DoesNotExist
      end
  end.

(** ** Signals for posts ([news/signals.py]) *)

Definition process_post_notifications (post : Post) : M unit :=
  try_except
    (refreshed_post <- Post_objects_get (pk post) ;;
     match pk refreshed_post with
     | Some id => delay (send_immediate_notification_job id)
     | None => ret tt
     end)
    (fun _ => ret tt).

Definition run_hook (h : Hook) : M unit :=
  match h with
  | hook_process_post_notifications instance =>
      process_post_notifications instance
  end.

(** [transaction.on_commit(func)]: inside an atomic block the callback
    waits for the commit; in autocommit mode it runs at once. *)
Definition transaction_on_commit (h : Hook) : M unit :=
  fun w =>
    match txn w with
    | Some (snapshot, hooks) =>
        (Ok tt, set_txn w (Some (snapshot, hooks ++ [h])))
    | None => run_hook h w
    end.

(** [with transaction.atomic(): body].  An exception leaving the
    outermost block rolls the database back and drops the pending
    callbacks; a normal exit commits and then runs them in order.  An
    inner block joins the transaction of the outer one. *)
Definition transaction_atomic {A} (body : M A) : M A :=
  fun w =>
    match txn w with
    | Some _ => body w
    | None =>
        match body (set_txn w (Some (db w, []))) with
        | (Ok a, w') =>
            let hooks := match txn w' with
                         | Some (_, hs) => hs
                         | None => []
                         end in
            match for_each hooks run_hook (set_txn w' None) with
            | (Ok _, w'') => (Ok a, w'')
            | (Raise e, w'') => (Raise e, w'')
            end
        | (Raise e, w') => (Raise e, set_txn (set_db w' (db w)) None)
        end
    end.

Definition Post_categories_all (self : Post) : M (list Category) :=
  gets (fun w =>
    map pc_category
        (filter (fun pc => option_Z_eqb (Some (pc_post pc)) (pk self))
                (post_categories (db w)))).

Definition Post_categories_exists (self : Post) : M bool :=
  cs <- Post_categories_all self ;;
  ret (match cs with [] => false | _ :: _ => true end).

Definition handle_post_categories_changed
  (instance : Post) (action : string) : M unit :=
  if String.eqb action "post_add"
  then transaction_on_commit (hook_process_post_notifications instance)
  else ret tt.

Definition handle_post_save (instance : Post) (created : bool) : M unit :=
  if created then
    (has_categories <- Post_categories_exists instance ;;
     if created && has_categories
     then transaction_on_commit (hook_process_post_notifications instance)
     else ret tt) ;;
    for_each [key_latest_news; key_news_list; key_post (pk instance);
              key_categories_list]
             cache_delete
  else ret tt.

Definition notify_subscribers_on_new_post
  (instance : Post) (created : bool) : M unit :=
  if created then
    match pk instance with
    | Some id => delay (send_immediate_notification_job id)
    | None => ret tt
    end
  else ret tt.

(** The [post_save] receivers of [Post] in the order they are
    connected; [handle_new_article_for_weekly_digest] only logs. *)
Definition post_save_Post (instance : Post) (created : bool) : M unit :=
  handle_post_save instance created ;;
  notify_subscribers_on_new_post instance created.

(** ** [Author] and [Post] ([news/models.py]) *)

Definition is_news_since (self : Author) (since : datetime) (p : Post) : bool :=
  (author_id (author p) =? author_id self)
  && PostType_eqb (post_type p) NEWS
  && (since <=? created_at p).

Definition Author_get_news_count_today (self : Author) : M nat :=
  now <- timezone_now ;;
  let today_start := make_aware (datetime_combine_min (datetime_date now)) in
  ps <- gets (fun w => posts (db w)) ;;
  ret (List.length (filter (is_news_since self today_start) ps)).

Definition Author_can_publish_news (self : Author) : M bool :=
  n <- Author_get_news_count_today self ;;
  ret (n <? 3)%nat.

Definition Post_clean (self : Post) : M unit :=
  if PostType_eqb (post_type self) NEWS
     && match pk self with None => true | Some _ => false end
  then
    allowed <- Author_can_publish_news (author self) ;;
    if negb allowed then
      news_count <- Author_get_news_count_today (author self) ;;
      raise (ValidationError news_count)
    else ret tt
  else ret tt.

(** [models.Model.save] for a post: INSERT when the object has no
    primary key or no row carries it, UPDATE otherwise.  [created_at]
    is [auto_now_add], [updated_at] is [auto_now].  The [post_save]
    signal follows.  Returns the object as [self] is left. *)
Definition Model_save_Post (self : Post) : M Post :=
  match pk self with
  | None =>
      t_created <- timezone_now ;;
      t_updated <- timezone_now ;;
      id <- fresh_pk ;;
      let obj := Post_set_pk
                   (Post_set_updated_at
                      (Post_set_created_at self t_created) t_updated)
                   (Some id) in
      modify_db (fun d => set_posts d (posts d ++ [obj])) ;;
      post_save_Post obj true ;;
      ret obj
  | Some k =>
      t_updated <- timezone_now ;;
      let obj := Post_set_updated_at self t_updated in
      ps <- gets (fun w => posts (db w)) ;;
      if existsb (fun p => option_Z_eqb (pk p) (Some k)) ps then
        modify_db (fun d =>
          set_posts d
            (map (fun p => if option_Z_eqb (pk p) (Some k) then obj else p)
                 (posts d))) ;;
        post_save_Post obj false ;;
        ret obj
      else
        t_created <- timezone_now ;;
        t_updated' <- timezone_now ;;
        let obj' := Post_set_updated_at
                      (Post_set_created_at self t_created) t_updated' in
        modify_db (fun d => set_posts d (posts d ++ [obj'])) ;;
        post_save_Post obj' true ;;
        ret obj'
  end.

Definition Post_save (self : Post) : M Post :=
  Post_clean self ;;
  Model_save_Post self.

(** [self.content[:124] + '...' if len(self.content) > 124 else
    self.content] *)
Definition Post_preview (self : Post) : string :=
  if (124 <? py_len (content self))%nat
  then String.append (py_prefix 124 (content self)) "..."
  else content self.

Definition Category_subscribers_all (self : Category) : M (list User) :=
  gets (fun w =>
    map subscription_user
        (filter (fun s => category_id (subscription_category s)
                          =? category_id self)
                (subscriptions (db w)))).

Definition Post__send_single_notification
  (self : Post) (subscriber : User) (category : Category) : M unit :=
  try_except
    (let '(subject, template, text_template) :=
       if PostType_eqb (post_type self) NEWS
       then (SubjectNewNews (category_name category),
             "emails/new_post_notification.html"%string,
             "emails/new_post_notification.txt"%string)
       else (SubjectNewArticle (category_name category),
             "emails/new_article_notification.html"%string,
             "emails/new_article_notification.txt"%string) in
     let context :=
       NotificationContext
         (username subscriber) (title self) (Post_preview self)
         (category_name category) (pk self)
         (username (author_user (author self))) (created_at self)
         (category_id category) in
     message <- render_to_string text_template context ;;
     html_message <- render_to_string template context ;;
     send_mail (mkMessage subject message [email subscriber] html_message) ;;
     ret tt)
    (fun _ => ret tt).

Definition Post_send_notifications_to_subscribers (self : Post) : M unit :=
  if notifications_sent self then ret tt
  else
    categories <- Post_categories_all self ;;
    for_each categories (fun category =>
      subscribers <- Category_subscribers_all category ;;
      for_each subscribers (fun subscriber =>
        Post__send_single_notification self subscriber category)) ;;
    Post_save (Post_set_notifications_sent self true) ;;
    ret tt.

(** [post.categories.add] with a list of categories: the manager inserts the
    missing through rows inside an atomic block and sends
    [m2m_changed] before and after. *)
Definition Post_categories_add (self : Post) (cats : list Category) : M unit :=
  match pk self with
  | None => raise RuntimeError
  | Some k =>
      transaction_atomic
        (handle_post_categories_changed self "pre_add" ;;
         present <- Post_categories_all self ;;
         let missing :=
           filter (fun c =>
                     negb (existsb (fun c' => category_id c' =? category_id c)
                                   present))
                  cats in
         modify_db (fun d =>
           set_post_categories d
             (post_categories d ++ map (mkPostCategory k) missing)) ;;
         handle_post_categories_changed self "post_add")
  end.

(** ** [Subscription] *)

Definition Subscription_needs_weekly_digest (self : Subscription) : M bool :=
  match last_weekly_sent self with
  | None => ret true
  | Some last =>
      now <- timezone_now ;;
      ret (now - last >? timedelta_days 7)
  end.

Definition same_pair (user : User) (category : Category) (s : Subscription) : bool :=
  (user_id (subscription_user s) =? user_id user)
  && (category_id (subscription_category s) =? category_id category).

(** [post_save] receiver of [Subscription]. *)
Definition handle_new_subscription
  (instance : Subscription) (created : bool) : M unit :=
  if created then
    cache_delete (key_user_subscriptions (user_id (subscription_user instance))) ;;
    cache_delete (key_category_subscribers_count
                    (category_id (subscription_category instance)))
  else ret tt.

(** [Subscription.objects.create(user=..., category=...)]: the INSERT
    is refused when [unique_together = ['user', 'category']] would be
    broken. *)
Definition Subscription_objects_create
  (user : User) (category : Category) : M Subscription :=
  t <- timezone_now ;;
  subs <- gets (fun w => subscriptions (db w)) ;;
  if existsb (same_pair user category) subs then raise IntegrityError
  else
    id <- fresh_pk ;;
    let obj := mkSubscription (Some id) user category t None in
    modify_db (fun d => set_subscriptions d (subscriptions d ++ [obj])) ;;
    handle_new_subscription obj true ;;
    ret obj.

Definition Subscription_objects_get
  (user : User) (category : Category) : M Subscription :=
  subs <- gets (fun w => subscriptions (db w)) ;;
  match filter (same_pair user category) subs with
  | [] => raise DoesNotExist
  | [s] => ret s
  | _ :: _ :: _ => raise MultipleObjectsReturned
  end.

(** [QuerySet.get_or_create]: [get]; on [DoesNotExist], [create] inside
    an atomic block; on [IntegrityError], [get] once more. *)
Definition Subscription_objects_get_or_create
  (user : User) (category : Category) : M (Subscription * bool) :=
  try_except
    (s <- Subscription_objects_get user category ;; ret (s, false))
    (fun e =>
       match e with
       | DoesNotExist =>
           try_except
             (s <- transaction_atomic (Subscription_objects_create user category) ;;
              ret (s, true))
             (fun e' =>
                match e' with
                | IntegrityError =>
                    try_except
                      (s <- Subscription_objects_get user category ;;
                       ret (s, false))
                      (fun e'' =>
                         match e'' with
                         | DoesNotExist => raise IntegrityError
                         | _ => raise e''
                         end)
                | _ => raise e'
                end)
       | _ => raise e
       end).

(** [subscription.save()] on a loaded row: UPDATE by primary key, INSERT
    when no row carries it.  No UPDATE in the code base changes the
    user or the category of a row. *)
Definition Model_save_Subscription (self : Subscription) : M unit :=
  subs <- gets (fun w => subscriptions (db w)) ;;
  if existsb (fun r => option_Z_eqb (subscription_id r) (subscription_id self)) subs
  then
    modify_db (fun d =>
      set_subscriptions d
        (map (fun r => if option_Z_eqb (subscription_id r) (subscription_id self)
                       then self else r)
             (subscriptions d))) ;;
    handle_new_subscription self false
  else
    id <- match subscription_id self with
          | Some k => ret k
          | None => fresh_pk
          end ;;
    let obj := Subscription_set_id self (Some id) in
    modify_db (fun d => set_subscriptions d (subscriptions d ++ [obj])) ;;
    handle_new_subscription obj true.

(** [get_object_or_404(Category, id=category_id)] *)
Definition get_category_or_404 (id : Z) : M Category :=
  cs <- gets (fun w => categories (db w)) ;;
  match find (fun c => category_id c =? id) cs with
  | Some c => ret c
  | None => raise Http404
  end.

(** [views.subscribe_to_category] for a logged-in user. *)
Definition subscribe_to_category (request_user : User) (category_id : Z)
  : M HttpResponse :=
  category <- get_category_or_404 category_id ;;
  r <- Subscription_objects_get_or_create request_user category ;;
  let '(subscription, created) := r in
  (if created
   then messages_add (FlashSubscribed (category_name category))
   else messages_add (FlashAlreadySubscribed (category_name category))) ;;
  ret (redirect_category_posts category_id).

(** ** [EmailService] ([news/services/email_service.py]) *)

Definition EmailService_send_welcome_email
  (user : User) (activation_url : string) : M unit :=
  let context := WelcomeContext user activation_url in
  text_content <- render_to_string "emails/welcome_email.txt" context ;;
  html_content <- render_to_string "emails/welcome_email.html" context ;;
  EmailMessage_send
    (mkMessage SubjectWelcome text_content [email user] html_content) ;;
  ret tt.

Definition EmailService_send_new_post_notification (post : Post) : M unit :=
  Post_send_notifications_to_subscribers post.

(** The join behind
    [Post.objects.filter(categories=category, post_type=ARTICLE,
    created_at__gte=week_ago).order_by('-created_at')]: one result per
    matching through row. *)
Definition weekly_articles
  (category : Category) (week_ago : datetime) (d : DB) : list Post :=
  order_by_created_at_desc
    (flat_map
       (fun p =>
          if PostType_eqb (post_type p) ARTICLE && (week_ago <=? created_at p)
          then map (fun _ => p)
                   (filter (fun pc =>
                              option_Z_eqb (Some (pc_post pc)) (pk p)
                              && (category_id (pc_category pc)
                                  =? category_id category))
                           (post_categories d))
          else [])
       (posts d)).

(** The body of the [for] loop of [send_weekly_digest]; the two
    counters are threaded through. *)
Definition send_weekly_digest_body
  (week_ago : datetime) (counts : nat * nat) (subscription : Subscription)
  : M (nat * nat) :=
  let '(sent_count, error_count) := counts in
  needs <- Subscription_needs_weekly_digest subscription ;;
  if needs then
    try_except
      (let category := subscription_category subscription in
       let user := subscription_user subscription in
       new_posts <- gets (fun w => weekly_articles category week_ago (db w)) ;;
       match new_posts with
       | _ :: _ =>
           let subject := SubjectWeeklyDigest (category_name category) in
           t_start <- timezone_now ;;
           t_end <- timezone_now ;;
           let context :=
             DigestContext (username user) (category_name category) new_posts
                           (t_start - timedelta_days 7) t_end
                           (category_id category) in
           text_content <- render_to_string "emails/weekly_digest.txt" context ;;
           html_content <- render_to_string "emails/weekly_digest.html" context ;;
           send_mail (mkMessage subject text_content [email user] html_content) ;;
           t_sent <- timezone_now ;;
           Model_save_Subscription
             (Subscription_set_last_weekly_sent subscription (Some t_sent)) ;;
           ret (S sent_count, error_count)
       | [] => ret (sent_count, error_count)
       end)
      (fun _ => ret (sent_count, S error_count))
  else ret (sent_count, error_count).

Fixpoint send_weekly_digest_loop
  (week_ago : datetime) (counts : nat * nat) (subs : list Subscription)
  : M (nat * nat) :=
  match subs with
  | [] => ret counts
  | subscription :: rest =>
      counts' <- send_weekly_digest_body week_ago counts subscription ;;
      send_weekly_digest_loop week_ago counts' rest
  end.

Definition EmailService_send_weekly_digest : M DigestResult :=
  now <- timezone_now ;;
  let week_ago := now - timedelta_days 7 in
  subs <- gets (fun w => subscriptions (db w)) ;;
  counts <- send_weekly_digest_loop week_ago (0%nat, 0%nat) subs ;;
  let '(sent_count, error_count) := counts in
  ret (mkDigestResult sent_count error_count (sent_count + error_count)).

Definition EmailService_send_immediate_article_notification (post : Post)
  : M unit :=
  if negb (PostType_eqb (post_type post) ARTICLE) then ret tt
  else
    categories <- Post_categories_all post ;;
    for_each categories (fun category =>
      subscribers <- Category_subscribers_all category ;;
      for_each subscribers (fun subscriber =>
        if negb (String.eqb (email subscriber) "") then
          try_except
            (let subject := SubjectNewArticle (category_name category) in
             let context :=
               NotificationContext
                 (username subscriber) (title post) (Post_preview post)
                 (category_name category) (pk post)
                 (username (author_user (author post))) (created_at post)
                 (category_id category) in
             text_content <-
               render_to_string "emails/new_article_notification.txt" context ;;
             html_content <-
               render_to_string "emails/new_article_notification.html" context ;;
             send_mail (mkMessage subject text_content [email subscriber]
                                  html_content) ;;
             ret tt)
            (fun _ => ret tt)
        else ret tt)).

(** ** Celery tasks ([news/tasks.py]); each logs and re-raises. *)

Definition send_weekly_digest_task : M DigestResult :=
  try_except EmailService_send_weekly_digest (fun e => raise e).

Definition send_immediate_notification_task (post_id : Z) : M string :=
  try_except
    (post <- Post_objects_get (Some post_id) ;;
     (if PostType_eqb (post_type post) NEWS
      then EmailService_send_new_post_notification post
      else EmailService_send_immediate_article_notification post) ;;
     ret (title post))
    (fun e => raise e).

(** ** [ActivationToken] *)

Definition ActivationToken_is_expired (self : ActivationToken) : M bool :=
  let expiration_days := 7 in
  now <- timezone_now ;;
  ret (now >? token_created_at self + timedelta_days expiration_days).

Definition ActivationToken_is_valid (self : ActivationToken) : M bool :=
  if negb (activated self) then
    expired <- ActivationToken_is_expired self ;;
    ret (negb expired)
  else ret false.

(** [post_save] receiver of [ActivationToken]; the promotion to the
    authors group lives in the auth tables, outside this store. *)
Definition handle_activation_token_save
  (instance : ActivationToken) (created : bool) : M unit :=
  if activated instance && negb created then
    try_except
      (delay (send_activation_success_job (user_id (token_user instance))))
      (fun _ => ret tt)
  else ret tt.

(** [ActivationToken.create_token(user)]: the INSERT is refused when the
    user already has a token (one-to-one) or the token string is taken
    ([unique=True]). *)
Definition ActivationToken_create_token (user : User) : M ActivationToken :=
  token_string <- get_random_string ;;
  t <- timezone_now ;;
  toks <- gets (fun w => tokens (db w)) ;;
  if existsb (fun r => (user_id (token_user r) =? user_id user)
                       || String.eqb (token r) token_string) toks
  then raise IntegrityError
  else
    id <- fresh_pk ;;
    let obj := mkActivationToken (Some id) user token_string t false in
    modify_db (fun d => set_tokens d (tokens d ++ [obj])) ;;
    handle_activation_token_save obj true ;;
    ret obj.

Definition ActivationToken_objects_get (user : User) : M ActivationToken :=
  toks <- gets (fun w => tokens (db w)) ;;
  match filter (fun r => user_id (token_user r) =? user_id user) toks with
  | [] => raise DoesNotExist
  | [r] => ret r
  | _ :: _ :: _ => raise MultipleObjectsReturned
  end.

Definition ActivationToken_delete (self : ActivationToken) : M unit :=
  modify_db (fun d =>
    set_tokens d
      (filter (fun r => negb (option_Z_eqb (token_id r) (token_id self)))
              (tokens d))).

Definition activation_url_for (tok : ActivationToken) : string :=
  String.append SITE_URL
    (String.append "/accounts/activate/" (String.append (token tok) "/")).

(** [views.resend_activation_email] for a logged-in user. *)
Definition resend_activation_email (request_user : User) : M HttpResponse :=
  try_except
    (activation_token <- ActivationToken_objects_get request_user ;;
     if activated activation_token then
       messages_add FlashAlreadyActivated
     else
       expired <- ActivationToken_is_expired activation_token ;;
       if expired then
         ActivationToken_delete activation_token ;;
         new_token <- ActivationToken_create_token request_user ;;
         let activation_url := activation_url_for new_token in
         EmailService_send_welcome_email request_user activation_url ;;
         messages_add FlashNewActivationSent
       else
         let activation_url := activation_url_for activation_token in
         EmailService_send_welcome_email request_user activation_url ;;
         messages_add FlashActivationSent)
    (fun e =>
       match e with
       | DoesNotExist =>
           new_token <- ActivationToken_create_token request_user ;;
           let activation_url := activation_url_for new_token in
           EmailService_send_welcome_email request_user activation_url ;;
           messages_add FlashActivationSent
       | _ => raise e
       end) ;;
  ret redirect_profile.

(** ** Notions used to state the properties *)

(** The instant [Author.get_news_count_today] counts from when the
    clock reads [now]. *)
Definition today_start (now : datetime) : datetime :=
  make_aware (datetime_combine_min (datetime_date now)).

(** Start of the local calendar day that contains [now]: midnight, in
    the zone of the deployment, of the local date of [now]. *)
Definition start_of_local_day (now : datetime) : datetime :=
  make_aware (datetime_combine_min (datetime_date (localtime now))).

(** Number of NEWS posts of an author created at or after [since]. *)
Definition news_count_since (a : Author) (since : datetime) (d : DB) : nat :=
  List.length (filter (is_news_since a since) (posts d)).

(** At most one subscription row per (user, category) pair. *)
Definition at_most_one_per_pair (subs : list Subscription) : Prop :=
  forall user category,
    (List.length (filter (same_pair user category) subs) <= 1)%nat.

(** [p] is an ARTICLE attached to [category] and created at or after
    [since]. *)
Definition qualifying_article
  (category : Category) (since : datetime) (d : DB) (p : Post) : Prop :=
  In p (posts d)
  /\ post_type p = ARTICLE
  /\ since <= created_at p
  /\ exists pc, In pc (post_categories d)
               /\ Some (pc_post pc) = pk p
               /\ category_id (pc_category pc) = category_id category.

(** The subscription is due when the clock reads [now]. *)
Definition digest_due (now : datetime) (s : Subscription) : Prop :=
  match last_weekly_sent s with
  | None => True
  | Some last => now - last > timedelta_days 7
  end.

(** What becomes of a built message: [EmailMessage.send] as a
    function of the message. *)
Definition message_delivery (m : Message) : Delivery :=
  match EmailMessage_recipients m with
  | [] => no_recipient
  | _ :: _ => if transport_up m then delivered m else refused_by_transport m
  end.

(** The welcome mail for [user] with the activation link of [tok]:
    both templates render, the user has an address and the transport
    accepts the message. *)
Definition welcome_mail_sent
  (user : User) (tok : ActivationToken) (m : Message) : Prop :=
  exists text html,
    template "emails/welcome_email.txt"
             (WelcomeContext user (activation_url_for tok)) = Some text
    /\ template "emails/welcome_email.html"
                (WelcomeContext user (activation_url_for tok)) = Some html
    /\ email user <> ""%string
    /\ transport_up (mkMessage SubjectWelcome text [email user] html) = true
    /\ m = mkMessage SubjectWelcome text [email user] html.

(** The token rows left after [tok.delete()]. *)
Definition tokens_without (tok : ActivationToken) (d : DB) : list ActivationToken :=
  filter (fun r => negb (option_Z_eqb (token_id r) (token_id tok))) (tokens d).

(** The row [create_token] writes from world [w]. *)
Definition token_created_from (user : User) (w : World) : ActivationToken :=
  mkActivationToken (Some (next_pk (db w))) user (random_string (rng w))
                    (clock (S (ticks w))) false.

(** What [needs_weekly_digest] answers in world [w]. *)
Definition digest_due_at (s : Subscription) (w : World) : bool :=
  match last_weekly_sent s with
  | None => true
  | Some last => clock (ticks w) - last >? timedelta_days 7
  end.

(** The world once [needs_weekly_digest] has answered: the clock has
    been read when there is a cursor to compare with. *)
Definition due_check_world (s : Subscription) (w : World) : World :=
  match last_weekly_sent s with
  | None => w
  | Some _ => set_ticks w (S (ticks w))
  end.

(** What becomes of the digest for [s] listing [new_posts] from world
    [w], the world in which [needs_weekly_digest] has answered. *)
Definition digest_delivery
  (s : Subscription) (new_posts : list Post) (w : World) : Delivery :=
  let context :=
    DigestContext (username (subscription_user s))
                  (category_name (subscription_category s)) new_posts
                  (clock (ticks w) - timedelta_days 7) (clock (S (ticks w)))
                  (category_id (subscription_category s)) in
  match template "emails/weekly_digest.txt" context,
        template "emails/weekly_digest.html" context with
  | Some text_content, Some html_content =>
      message_delivery
        (mkMessage (SubjectWeeklyDigest
                      (category_name (subscription_category s)))
                   text_content [email (subscription_user s)]
                   html_content)
  | _, _ => not_built
  end.

(** The reading of the clock that is written to the cursor of [s] when
    its digest has been handed over: the third one after
    [needs_weekly_digest] has answered in [w], two having gone into the
    context of the templates. *)
Definition cursor_reading (s : Subscription) (w : World) : datetime :=
  clock (S (S (ticks (due_check_world s w)))).

(** The table after [s.save()] with the cursor set to [t]. *)
Definition cursor_written
  (s : Subscription) (t : datetime) (subs : list Subscription)
  : list Subscription :=
  map (fun r => if option_Z_eqb (subscription_id r) (subscription_id s)
                then Subscription_set_last_weekly_sent s (Some t) else r)
      subs.

(** ** More of the application

    Functions of the same files that the properties above do not
    reach. *)

Definition Post_set_rating (p : Post) (r : Z) : Post :=
  mkPost (pk p) (author p) (post_type p) (title p) (content p) r
         (created_at p) (updated_at p) (notifications_sent p).

(** [self.save()] as [like] and [dislike] call it.  They are the only
    code that computes a value for an integer column, so it is here
    that the driver can refuse one: [clean] has run and the fields with
    [auto_now_add] and [auto_now] have read the clock when the
    statement is executed and [OverflowError] is raised; nothing is
    written and no signal is sent. *)
Definition Post_save_rating (self : Post) : M Post :=
  Post_clean self ;;
  if fits_integer_column (rating self) then Model_save_Post self
  else
    match pk self with
    | None => timezone_now ;; timezone_now ;; raise OverflowError
    | Some _ => timezone_now ;; raise OverflowError
    end.

(** [Post.like] and [Post.dislike]: [self.rating += 1; self.save()].
    The object is returned as [self] is left. *)
Definition Post_like (self : Post) : M Post :=
  Post_save_rating (Post_set_rating self (rating self + 1)).

Definition Post_dislike (self : Post) : M Post :=
  Post_save_rating (Post_set_rating self (rating self - 1)).

(** [Category.get_subscribers_count] *)
Definition Category_get_subscribers_count (self : Category) : M nat :=
  subscribers <- Category_subscribers_all self ;;
  ret (List.length subscribers).

(** [Category.get_weekly_posts]: the reverse many-to-many manager
    joins through the same rows as the query of the digest, and the
    default ordering of [Post] is [-created_at].  The queryset is
    evaluated where it is built. *)
Definition Category_get_weekly_posts (self : Category) : M (list Post) :=
  now <- timezone_now ;;
  let week_ago := now - timedelta_days 7 in
  gets (fun w => weekly_articles self week_ago (db w)).

(** [ActivationToken.__str__] *)
Definition ActivationToken_str (self : ActivationToken) : M string :=
  status <- (if activated self then ret "Activated"%string
             else
               expired <- ActivationToken_is_expired self ;;
               ret (if expired then "Expired"%string else "Pending"%string)) ;;
  ret (String.append "Token for "
         (String.append (username (token_user self))
            (String.append " - " status))).

(** [signals.cleanup_expired_tokens].  The queryset is built once, with
    one reading of the clock; [count()] and [delete()] both run it.  No
    receiver listens to the deletion of a token. *)
Definition cleanup_expired_tokens : M unit :=
  try_except
    (now <- timezone_now ;;
     let cutoff := now - timedelta_days 7 in
     let is_doomed := fun r : ActivationToken =>
       negb (activated r) && (token_created_at r <? cutoff) in
     count <- gets (fun w => List.length (filter is_doomed (tokens (db w)))) ;;
     if (0 <? count)%nat then
       modify_db (fun d =>
         set_tokens d (filter (fun r => negb (is_doomed r)) (tokens d)))
     else ret tt)
    (fun _ => ret tt).

(** [ActivationToken.objects.get(token=token)] *)
Definition ActivationToken_objects_get_by_token (t : string)
  : M ActivationToken :=
  toks <- gets (fun w => tokens (db w)) ;;
  match filter (fun r => String.eqb (token r) t) toks with
  | [] => raise DoesNotExist
  | [r] => ret r
  | _ :: _ :: _ => raise MultipleObjectsReturned
  end.

Definition ActivationToken_set_activated
  (tok : ActivationToken) (b : bool) : ActivationToken :=
  mkActivationToken (token_id tok) (token_user tok) (token tok)
                    (token_created_at tok) b.

(** [activation_token.save()] on a loaded row: UPDATE by primary key,
    then the [post_save] signal with [created = False].  (When no row
    carries the key Django inserts; the views only save rows they have
    just loaded, and that path is the one of [create_token].) *)
Definition Model_save_ActivationToken (self : ActivationToken) : M unit :=
  toks <- gets (fun w => tokens (db w)) ;;
  if existsb (fun r => option_Z_eqb (token_id r) (token_id self)) toks then
    modify_db (fun d =>
      set_tokens d
        (map (fun r => if option_Z_eqb (token_id r) (token_id self)
                       then self else r)
             (tokens d))) ;;
    handle_activation_token_save self false
  else
    t <- timezone_now ;;
    if existsb (fun r => (user_id (token_user r) =? user_id (token_user self))
                         || String.eqb (token r) (token self)) toks
    then raise IntegrityError
    else
      id <- match token_id self with
            | Some k => ret k
            | None => fresh_pk
            end ;;
      let obj := mkActivationToken (Some id) (token_user self) (token self)
                                   t (activated self) in
      modify_db (fun d => set_tokens d (tokens d ++ [obj])) ;;
      handle_activation_token_save obj true.

(** What [ActivationView.get] puts in the template context, and the
    user it switched to active: [user.is_active = True; user.save()]
    writes the auth table, which is not part of [DB], so the write is
    reported with the result. *)
Inductive ActivationStatus :=
| status_expired
| status_already_activated
| status_success (username : string)
| status_invalid.

Definition ActivationView_get (t : string)
  : M (ActivationStatus * option User) :=
  try_except
    (activation_token <- ActivationToken_objects_get_by_token t ;;
     expired <- ActivationToken_is_expired activation_token ;;
     if expired then ret (status_expired, None)
     else if activated activation_token
     then ret (status_already_activated, None)
     else
       let activation_token := ActivationToken_set_activated activation_token true in
       Model_save_ActivationToken activation_token ;;
       let user := token_user activation_token in
       ret (status_success (username user), Some user))
    (fun e =>
       match e with
       | DoesNotExist => ret (status_invalid, None)
       | _ => raise e
       end).

(** [post_delete] receiver of [Subscription]. *)
Definition handle_subscription_removed (instance : Subscription) : M unit :=
  cache_delete (key_user_subscriptions (user_id (subscription_user instance))) ;;
  cache_delete (key_category_subscribers_count
                  (category_id (subscription_category instance))).

(** [Subscription.objects.filter(user=..., category=...).delete()[0]]:
    the rows are collected, removed by primary key inside an atomic
    block, and [post_delete] is sent for each. *)
Definition Subscription_objects_filter_delete
  (user : User) (category : Category) : M nat :=
  transaction_atomic
    (subs <- gets (fun w => subscriptions (db w)) ;;
     let collected := filter (same_pair user category) subs in
     modify_db (fun d =>
       set_subscriptions d
         (filter (fun r =>
                    negb (existsb (fun c => option_Z_eqb (subscription_id r)
                                                         (subscription_id c))
                                  collected))
                 (subscriptions d))) ;;
     for_each collected handle_subscription_removed ;;
     ret (List.length collected)).

(** The message [unsubscribe_from_category] adds to the request; it is
    returned together with the response. *)
Inductive UnsubscribeNotice :=
| notice_unsubscribed (category : string)
| notice_not_subscribed (category : string).

(** [views.unsubscribe_from_category] for a logged-in user. *)
Definition unsubscribe_from_category (request_user : User) (category_id : Z)
  : M (HttpResponse * UnsubscribeNotice) :=
  category <- get_category_or_404 category_id ;;
  deleted_count <- Subscription_objects_filter_delete request_user category ;;
  ret (redirect_category_posts category_id,
       if (0 <? deleted_count)%nat
       then notice_unsubscribed (category_name category)
       else notice_not_subscribed (category_name category)).

(** [NewsCreateForm.clean] ([news/forms.py]); [user_author] is the
    author profile of the form's user, [None] when the form has no user
    or the user has no profile.  [forms.ValidationError] is Django's
    [ValidationError]; the exception carries the count, the wording of
    its message is not kept. *)
Definition NewsCreateForm_clean (user_author : option Author) : M unit :=
  match user_author with
  | Some user_author =>
      now <- timezone_now ;;
      let today := datetime_date now in
      let today_start := make_aware (datetime_combine_min today) in
      ps <- gets (fun w => posts (db w)) ;;
      let news_count_today :=
        List.length (filter (is_news_since user_author today_start) ps) in
      if (3 <=? news_count_today)%nat
      then raise (ValidationError news_count_today)
      else ret tt
  | None => ret tt
  end.

(** [PostFilter.filter_rating] ([news/filters.py]); the queryset is a
    list of posts, [rating__range] is inclusive. *)
Definition filter_rating (queryset : list Post) (name value : string)
  : list Post :=
  if String.eqb value "high" then
    filter (fun p => 10 <=? rating p) queryset
  else if String.eqb value "medium" then
    filter (fun p => (5 <=? rating p) && (rating p <=? 9)) queryset
  else if String.eqb value "low" then
    filter (fun p => (1 <=? rating p) && (rating p <=? 4)) queryset
  else if String.eqb value "zero" then
    filter (fun p => rating p =? 0) queryset
  else queryset.

(** [PostFilter.filter_date_range].  The [__date] lookup converts
    [created_at] to the current zone before taking the date;
    [now.date()] is the UTC date. *)
Definition filter_date_range (queryset : list Post) (name value : string)
  : M (list Post) :=
  now <- timezone_now ;;
  if String.eqb value "today" then
    ret (filter (fun p => datetime_date (localtime (created_at p))
                          =? datetime_date now) queryset)
  else if String.eqb value "week" then
    ret (filter (fun p => now - timedelta_days 7 <=? created_at p) queryset)
  else if String.eqb value "month" then
    ret (filter (fun p => now - timedelta_days 30 <=? created_at p) queryset)
  else if String.eqb value "year" then
    ret (filter (fun p => now - timedelta_days 365 <=? created_at p) queryset)
  else ret queryset.

(** *** Notions for the properties of these functions *)

(** What becomes of the attempt [Post._send_single_notification]
    makes for one subscriber. *)
Definition post_notification_delivery
  (self : Post) (subscriber : User) (category : Category) : Delivery :=
  let '(subject, html_name, text_name) :=
    if PostType_eqb (post_type self) NEWS
    then (SubjectNewNews (category_name category),
          "emails/new_post_notification.html"%string,
          "emails/new_post_notification.txt"%string)
    else (SubjectNewArticle (category_name category),
          "emails/new_article_notification.html"%string,
          "emails/new_article_notification.txt"%string) in
  let context :=
    NotificationContext
      (username subscriber) (title self) (Post_preview self)
      (category_name category) (pk self)
      (username (author_user (author self))) (created_at self)
      (category_id category) in
  match template text_name context, template html_name context with
  | Some text, Some html =>
      message_delivery (mkMessage subject text [email subscriber] html)
  | _, _ => not_built
  end.

(** The mail [Post._send_single_notification] gets delivered, if any:
    [None] when a template raises, the subscriber has no address or the
    transport refuses. *)
Definition post_notification_delivered
  (self : Post) (subscriber : User) (category : Category) : option Message :=
  match post_notification_delivery self subscriber category with
  | delivered m => Some m
  | _ => None
  end.

(** What becomes of the attempt [send_immediate_article_notification]
    makes for one subscriber; a subscriber without an address is
    skipped before anything is built. *)
Definition article_notification_delivery
  (post : Post) (subscriber : User) (category : Category) : Delivery :=
  if String.eqb (email subscriber) "" then no_recipient
  else
    let context :=
      NotificationContext
        (username subscriber) (title post) (Post_preview post)
        (category_name category) (pk post)
        (username (author_user (author post))) (created_at post)
        (category_id category) in
    match template "emails/new_article_notification.txt" context,
          template "emails/new_article_notification.html" context with
    | Some text, Some html =>
        message_delivery (mkMessage (SubjectNewArticle (category_name category))
                                    text [email subscriber] html)
    | _, _ => not_built
    end.

(** The mail [send_immediate_article_notification] gets delivered to
    one subscriber, if any. *)
Definition article_notification_delivered
  (post : Post) (subscriber : User) (category : Category) : option Message :=
  if String.eqb (email subscriber) "" then None
  else
    let context :=
      NotificationContext
        (username subscriber) (title post) (Post_preview post)
        (category_name category) (pk post)
        (username (author_user (author post))) (created_at post)
        (category_id category) in
    match template "emails/new_article_notification.txt" context,
          template "emails/new_article_notification.html" context with
    | Some text, Some html =>
        let m := mkMessage (SubjectNewArticle (category_name category))
                           text [email subscriber] html in
        if transport_up m then Some m else None
    | _, _ => None
    end.

(** What becomes of the attempt the notification task makes for one
    subscriber of one category of [post]: NEWS go through
    [Post._send_single_notification], everything else through
    [send_immediate_article_notification]. *)
Definition notification_delivery
  (post : Post) (subscriber : User) (category : Category) : Delivery :=
  if PostType_eqb (post_type post) NEWS
  then post_notification_delivery post subscriber category
  else article_notification_delivery post subscriber category.

Definition option_to_list {A} (o : option A) : list A :=
  match o with Some a => [a] | None => [] end.

(** The categories of a post and the subscribers of a category, as the
    database has them. *)
Definition categories_of (self : Post) (d : DB) : list Category :=
  map pc_category
      (filter (fun pc => option_Z_eqb (Some (pc_post pc)) (pk self))
              (post_categories d)).

Definition subscribers_of (category : Category) (d : DB) : list User :=
  map subscription_user
      (filter (fun s => category_id (subscription_category s)
                        =? category_id category)
              (subscriptions d)).

(** One entry per category of the post and subscriber of the category,
    in the order of the two loops. *)
Definition fan_out {A} (self : Post) (d : DB)
  (per : User -> Category -> list A) : list A :=
  flat_map (fun category =>
              flat_map (fun subscriber => per subscriber category)
                       (subscribers_of category d))
           (categories_of self d).

(** At most one token row per user, and no two rows with one token
    string. *)
Definition one_token_per_user (toks : list ActivationToken) : Prop :=
  forall user,
    (List.length
       (filter (fun r => (user_id (token_user r) =? user_id user)%Z) toks)
     <= 1)%nat.

Definition token_strings_distinct (toks : list ActivationToken) : Prop :=
  NoDup (map token toks).

(** A computation that leaves one component of the world as it is. *)
Definition keeps {A B} (field : World -> B) (m : M A) : Prop :=
  forall w r w', m w = (r, w') -> field w' = field w.

(** The four cache keys [handle_post_save] evicts for a post. *)
Definition post_cache_keys (id : option Z) : list CacheKey :=
  [key_latest_news; key_news_list; key_post id; key_categories_list].

End Pipeline.

(** ** Scenarios

    Concrete users, rows, environments and worlds on which the code is
    run.  Day 19723 of the epoch is 1 January 2024. *)

Definition at_utc (day hour minute : Z) : datetime :=
  day * MICROSECONDS_PER_DAY + hour * MICROSECONDS_PER_HOUR
  + minute * 60000000.

Definition anna : User := mkUser 1 "anna" "anna@example.com".
Definition boris : User := mkUser 2 "boris" "boris@example.com".
Definition anna_author : Author := mkAuthor 1 anna 0.
Definition tech : Category := mkCategory 1 "Tech".

Definition world_of (d : DB) : World := mkWorld d None 0 0 [] [] [] [] [].

(** A clock that always shows the same instant. *)
Definition clock_at (t : datetime) : nat -> datetime := fun _ => t.
(** A template engine that renders every template to its own name. *)
Definition template_name : string -> Context -> option string :=
  fun name _ => Some name.
Definition transport_working : Message -> bool := fun _ => true.
Definition transport_down : Message -> bool := fun _ => false.
Definition random_abc : nat -> string := fun _ => "abc"%string.

Definition noon_1_jan : datetime := at_utc 19723 9 0.

(** The environment of the scenarios: a clock standing at [t] and the
    given transport. *)
Definition scenario (t : datetime) (transport : Message -> bool) : Env :=
  {| clock := clock_at t;
     random_string := random_abc;
     template := template_name;
     transport_up := transport |}.

(** Scenario A, after midnight: anna published three news on 1 January
    at 10:00, 11:00 and 12:00 Moscow time and writes a fourth at 00:30
    on 2 January Moscow time (21:30 UTC on 1 January). *)
Definition news_at (id : Z) (t : datetime) : Post :=
  mkPost (Some id) anna_author NEWS "news" "text" 0 t t false.

Definition db_three_news : DB :=
  mkDB [news_at 1 (at_utc 19723 7 0); news_at 2 (at_utc 19723 8 0);
        news_at 3 (at_utc 19723 9 0)]
       [] [tech] [] [] 4.

Definition half_past_midnight_2_jan : datetime := at_utc 19723 21 30.

Definition fourth_news : Post :=
  mkPost None anna_author NEWS "fourth" "text" 0 0 0 false.

(** An article in Tech, boris subscribed to Tech. *)
Definition article (id : Z) (t : datetime) (flag : bool) : Post :=
  mkPost (Some id) anna_author ARTICLE "article" "text" 0 t t flag.

Definition boris_tech (cursor : option datetime) : Subscription :=
  mkSubscription (Some 1) boris tech (at_utc 19700 0 0) cursor.

Definition db_article (flag : bool) (cursor : option datetime) : DB :=
  mkDB [article 1 (at_utc 19722 9 0) flag]
       [mkPostCategory 1 tech] [tech] [boris_tech cursor] [] 2.

Definition article_mail : Message :=
  mkMessage (SubjectNewArticle "Tech") "emails/new_article_notification.txt"
            ["boris@example.com"%string]
            "emails/new_article_notification.html".

Definition digest_mail : Message :=
  mkMessage (SubjectWeeklyDigest "Tech") "emails/weekly_digest.txt"
            ["boris@example.com"%string] "emails/weekly_digest.html".

Definition new_article : Post :=
  mkPost None anna_author ARTICLE "draft" "text" 0 0 0 false.

(** boris and his activation token. *)
Definition boris_token (created : datetime) (is_activated : bool)
  : ActivationToken :=
  mkActivationToken (Some 1) boris "old" created is_activated.

Definition db_token (created : datetime) (is_activated : bool) : DB :=
  mkDB [] [] [tech] [] [boris_token created is_activated] 2.

Definition welcome_mail : Message :=
  mkMessage SubjectWelcome "emails/welcome_email.txt"
            ["boris@example.com"%string] "emails/welcome_email.html".

(** The notification task as the worker runs it in the scenarios. *)
Definition dispatch (transport : Message -> bool) (post_id : Z) : M string :=
  send_immediate_notification_task (env := scenario noon_1_jan transport)
                                   post_id.

Definition db_no_posts : DB := mkDB [] [] [tech] [] [] 1.

(** What the admin's add view does when saving the related objects
    fails: the post is saved inside the atomic block, then an exception
    leaves the block. *)
Definition create_then_fail : M Post :=
  transaction_atomic
    (post <- Post_save (env := scenario noon_1_jan transport_working)
                       new_article ;;
     raise RuntimeError).

(** Attaching a category inside an atomic block that then fails. *)
Definition attach_then_fail : M unit :=
  transaction_atomic
    (Post_categories_add (article 1 (at_utc 19722 9 0) false) [tech] ;;
     raise RuntimeError).

(** A transport that refuses mail for boris only. *)
Definition transport_refusing_boris : Message -> bool :=
  fun m =>
    match recipient_list m with
    | [r] => negb (String.eqb r "boris@example.com")
    | _ => true
    end.

Definition anna_tech : Subscription :=
  mkSubscription (Some 2) anna tech (at_utc 19700 0 0) None.

(** Two subscribers of Tech, one recent article. *)
Definition db_two_subscribers : DB :=
  mkDB [article 1 (at_utc 19722 9 0) false]
       [mkPostCategory 1 tech] [tech] [boris_tech None; anna_tech] [] 3.

(** A news in Tech, not yet announced, boris subscribed to Tech. *)
Definition db_news : DB :=
  mkDB [news_at 1 (at_utc 19722 9 0)]
       [mkPostCategory 1 tech] [tech] [boris_tech None] [] 2.

Definition news_mail : Message :=
  mkMessage (SubjectNewNews "Tech") "emails/new_post_notification.txt"
            ["boris@example.com"%string]
            "emails/new_post_notification.html".

(** A content of one hundred Cyrillic letters: two hundred bytes. *)
Definition letter_ya : string :=
  String (ascii_of_nat 209) (String (ascii_of_nat 143) EmptyString).

Definition hundred_letters : string :=
  String.concat "" (repeat letter_ya 100).

Definition russian_article : Post :=
  mkPost None anna_author ARTICLE "draft" hundred_letters 0 0 0 false.

(** A stored article whose rating is the largest the column holds. *)
Definition top_rated_article : Post :=
  mkPost (Some 1) anna_author ARTICLE "article" "text" INTEGER_MAX
         (at_utc 19722 9 0) (at_utc 19722 9 0) false.

Definition db_top_rated : DB :=
  mkDB [top_rated_article] [mkPostCategory 1 tech] [tech] [] [] 2.

(** A user without an address, subscribed to Tech. *)
Definition nobody : User := mkUser 3 "nobody" "".

Definition nobody_tech : Subscription :=
  mkSubscription (Some 1) nobody tech (at_utc 19700 0 0) None.

(** One recent article and one recent news in Tech, the only
    subscriber being the user without an address. *)
Definition db_blank_address : DB :=
  mkDB [article 1 (at_utc 19722 9 0) false; news_at 2 (at_utc 19722 9 0)]
       [mkPostCategory 1 tech; mkPostCategory 2 tech] [tech]
       [nobody_tech] [] 3.

(** * Properties *)

Section Properties.

Context {env : Env}.


(** ** Reasoning about monadic code *)

Lemma bind_Ok {A B} (m : M A) (k : A -> M B) w a w' :
  m w = (Ok a, w') -> bind m k w = k a w'.
Proof. intros H. unfold bind. rewrite H. reflexivity. Qed.

Lemma bind_Raise {A B} (m : M A) (k : A -> M B) w e w' :
  m w = (Raise e, w') -> bind m k w = (Raise e, w').
Proof. intros H. unfold bind. rewrite H. reflexivity. Qed.

(** Sending, as a function of what becomes of the message. *)
Lemma EmailMessage_send_eq (m : Message) (w : World) :
  EmailMessage_send m w
  = match message_delivery m with
    | delivered _ => (Ok 1%nat, set_outbox w (outbox w ++ [m]))
    | refused_by_transport _ =>
        (Raise SMTPException, set_refused w (refused w ++ [m]))
    | no_recipient | not_built => (Ok 0%nat, w)
    end.
Proof.
  unfold EmailMessage_send, message_delivery.
  destruct (EmailMessage_recipients m); [reflexivity |].
  destruct (transport_up m); reflexivity.
Qed.

Lemma message_delivery_one subject text address html :
  message_delivery (mkMessage subject text [address] html)
  = if String.eqb address ""
    then no_recipient
    else if transport_up (mkMessage subject text [address] html)
         then delivered (mkMessage subject text [address] html)
         else refused_by_transport (mkMessage subject text [address] html).
Proof.
  unfold message_delivery, EmailMessage_recipients. cbn [recipient_list filter].
  destruct (String.eqb address ""); reflexivity.
Qed.

Lemma message_delivery_built (m : Message) : message_delivery m <> not_built.
Proof.
  unfold message_delivery. destruct (EmailMessage_recipients m);
    [discriminate |].
  destruct (transport_up m); discriminate.
Qed.

Lemma message_delivery_same (m m' : Message) :
  message_delivery m = delivered m' \/ message_delivery m = refused_by_transport m' ->
  m' = m.
Proof.
  unfold message_delivery. destruct (EmailMessage_recipients m).
  - intros [H | H]; discriminate.
  - destruct (transport_up m); intros [H | H]; inversion H; reflexivity.
Qed.

Lemma returns_ret {A} (a : A) : returns (ret a).
Proof. intros w. exists a, w. reflexivity. Qed.

Lemma returns_gets {A} (f : World -> A) : returns (gets f).
Proof. intros w. exists (f w), w. reflexivity. Qed.

Lemma returns_modify f : returns (modify f).
Proof. intros w. exists tt, (f w). reflexivity. Qed.

Lemma returns_bind {A B} (m : M A) (k : A -> M B) :
  returns m -> (forall a, returns (k a)) -> returns (bind m k).
Proof.
  intros Hm Hk w. destruct (Hm w) as (a & w1 & E).
  destruct (Hk a w1) as (b & w2 & E2).
  exists b, w2. rewrite (bind_Ok _ _ _ _ _ E). exact E2.
Qed.

Lemma returns_try_except {A} (body : M A) handler :
  (forall e, returns (handler e)) -> returns (try_except body handler).
Proof.
  intros Hh w. unfold try_except.
  destruct (body w) as [[a | e] w1].
  - exists a, w1. reflexivity.
  - apply Hh.
Qed.

Lemma returns_for_each {A} (l : list A) (body : A -> M unit) :
  (forall x, returns (body x)) -> returns (for_each l body).
Proof.
  intros Hb. induction l as [| x rest IH]; simpl.
  - apply returns_ret.
  - apply returns_bind; [apply Hb | intros _; exact IH].
Qed.

Lemma returns_modify_db f : returns (modify_db f).
Proof. apply returns_modify. Qed.

Lemma returns_timezone_now : returns timezone_now.
Proof. intros w. eexists _, _. reflexivity. Qed.

Lemma returns_fresh_pk : returns fresh_pk.
Proof. intros w. eexists _, _. reflexivity. Qed.

Lemma returns_delay j : returns (delay j).
Proof. apply returns_modify. Qed.

Lemma returns_cache_delete k : returns (cache_delete k).
Proof. apply returns_modify. Qed.

Create HintDb returns.

#[local] Hint Resolve returns_ret returns_gets returns_modify
  returns_modify_db returns_timezone_now returns_fresh_pk returns_delay
  returns_cache_delete : returns.

(** Walks down a computation built from [bind], [try_except],
    [for_each] and tests, leaving the calls the hints do not know. *)
Ltac returns_steps :=
  repeat (intros;
    lazymatch goal with
    | |- returns (bind _ _) => apply returns_bind
    | |- returns (try_except _ _) => apply returns_try_except
    | |- returns (for_each _ _) => apply returns_for_each
    | |- returns (if ?b then _ else _) => destruct b
    | |- returns (match ?x with _ => _ end) => destruct x
    | |- returns _ => solve [auto with returns]
    end).

Lemma returns_process_post_notifications p :
  returns (process_post_notifications p).
Proof. unfold process_post_notifications. returns_steps. Qed.

Lemma returns_transaction_on_commit h : returns (transaction_on_commit h).
Proof.
  intros w. unfold transaction_on_commit.
  destruct (txn w) as [[snapshot hooks] |].
  - eexists _, _. reflexivity.
  - destruct h. apply returns_process_post_notifications.
Qed.

#[local] Hint Resolve returns_process_post_notifications
  returns_transaction_on_commit : returns.

Lemma returns_post_save_Post p created : returns (post_save_Post p created).
Proof.
  unfold post_save_Post, handle_post_save, notify_subscribers_on_new_post,
    Post_categories_exists, Post_categories_all.
  returns_steps.
Qed.

#[local] Hint Resolve returns_post_save_Post : returns.

Lemma returns_Model_save_Post p : returns (Model_save_Post p).
Proof. unfold Model_save_Post. returns_steps. Qed.

#[local] Hint Resolve returns_Model_save_Post : returns.

(** ** Activation tokens *)

(** C7.  [is_expired()] is true exactly when the clock reads strictly
    more than [created_at] plus seven days; [is_valid()] is false
    whenever the token is activated or expired, and true otherwise. *)
Theorem ActivationToken_expiry_and_validity (self : ActivationToken) (w : World) :
  exists expired valid w1 w2,
    ActivationToken_is_expired self w = (Ok expired, w1)
    /\ ActivationToken_is_valid self w = (Ok valid, w2)
    /\ (expired = true <->
        clock (ticks w) > token_created_at self + 7 * MICROSECONDS_PER_DAY)
    /\ (expired = false <->
        clock (ticks w) <= token_created_at self + 7 * MICROSECONDS_PER_DAY)
    /\ (valid = false <-> activated self = true \/ expired = true)
    /\ (valid = true <-> activated self = false /\ expired = false).
Proof.
  exists (clock (ticks w) >? token_created_at self + timedelta_days 7).
  unfold ActivationToken_is_valid, ActivationToken_is_expired.
  unfold bind, ret, timezone_now, timedelta_days.
  set (deadline := token_created_at self + 7 * MICROSECONDS_PER_DAY).
  destruct (activated self); simpl; eexists _, _, _;
    (split; [reflexivity |]); (split; [reflexivity |]);
    destruct (Z.gtb_spec (clock (ticks w)) deadline) as [Hgt | Hle];
    simpl; repeat split; intros; try lia; try discriminate; auto;
    try (intuition (lia || discriminate)).
Qed.

(** ** The daily limit does not apply to saved posts *)

(** C9.  For a post that already has a primary key, [clean] passes
    without reading the clock or the store, whatever its type and
    however many news its author published, and [save] returns
    normally. *)
Theorem Post_clean_skips_persisted_posts (self : Post) (k : Z) (w : World) :
  Post_clean (Post_set_pk self (Some k)) w = (Ok tt, w)
  /\ exists saved w',
       Post_save (Post_set_pk self (Some k)) w = (Ok saved, w').
Proof.
  assert (Hclean : Post_clean (Post_set_pk self (Some k)) w = (Ok tt, w)).
  { unfold Post_clean. simpl. rewrite andb_false_r. reflexivity. }
  split; [exact Hclean |].
  unfold Post_save. rewrite (bind_Ok _ _ _ _ _ Hclean).
  apply returns_Model_save_Post.
Qed.

(** ** The daily limit on news *)

Lemma Author_get_news_count_today_eq (a : Author) (w : World) :
  Author_get_news_count_today a w
  = (Ok (news_count_since a (today_start (clock (ticks w))) (db w)),
     set_ticks w (S (ticks w))).
Proof. reflexivity. Qed.

(** What [clean] does for a new NEWS post: one count decides, a second
    count (a second reading of the clock) is reported. *)
Lemma Post_clean_new_news (self : Post) (w : World) :
  post_type self = NEWS -> pk self = None ->
  Post_clean self w =
    if (news_count_since (author self) (today_start (clock (ticks w))) (db w)
        <? 3)%nat
    then (Ok tt, set_ticks w (S (ticks w)))
    else (Raise (ValidationError
                   (news_count_since (author self)
                      (today_start (clock (S (ticks w)))) (db w))),
          set_ticks w (S (S (ticks w)))).
Proof.
  intros Ht Hpk. unfold Post_clean. rewrite Ht, Hpk. simpl.
  unfold Author_can_publish_news.
  unfold bind. rewrite Author_get_news_count_today_eq. unfold ret.
  destruct (_ <? 3)%nat; simpl; reflexivity.
Qed.

(** A post that is not NEWS is never checked. *)
Lemma Post_clean_not_news (self : Post) (w : World) :
  post_type self = ARTICLE -> Post_clean self w = (Ok tt, w).
Proof. intros Ht. unfold Post_clean. rewrite Ht. reflexivity. Qed.

(** A rejected post is not written: [save] stops at [clean]. *)
Lemma Post_save_rejected_not_persisted (self : Post) (w : World) e w' :
  Post_clean self w = (Raise e, w') ->
  Post_save self w = (Raise e, w') /\ db w' = db w /\ queue w' = queue w.
Proof.
  intros H. split.
  - unfold Post_save. apply bind_Raise. exact H.
  - unfold Post_clean in H.
    destruct (PostType_eqb (post_type self) NEWS
              && match pk self with None => true | Some _ => false end).
    + unfold Author_can_publish_news, bind in H.
      rewrite Author_get_news_count_today_eq in H. unfold ret in H.
      destruct (_ <? 3)%nat; simpl in H; [discriminate |].
      inversion H; subst. split; reflexivity.
    + discriminate.
Qed.

(** The instant the code counts from is local midnight of the UTC date:
    the start of the local day, except during the first three hours of
    the local day, when it is the start of the previous local day. *)
Lemma today_start_vs_local_day (now : datetime) :
  (now mod MICROSECONDS_PER_DAY < 21 * MICROSECONDS_PER_HOUR ->
   today_start now = start_of_local_day now)
  /\ (21 * MICROSECONDS_PER_HOUR <= now mod MICROSECONDS_PER_DAY ->
      today_start now = start_of_local_day now - MICROSECONDS_PER_DAY).
Proof.
  unfold today_start, start_of_local_day, make_aware, datetime_combine_min,
    datetime_date, localtime, TIME_ZONE_utcoffset,
    MICROSECONDS_PER_HOUR, MICROSECONDS_PER_DAY.
  pose proof (Z.div_mod now 86400000000 ltac:(lia)) as Hdm.
  pose proof (Z.mod_pos_bound now 86400000000 ltac:(lia)) as Hb.
  set (q := now / 86400000000) in *. set (r := now mod 86400000000) in *.
  split; intros Hr.
  - assert (E : (now + 3 * 3600000000) / 86400000000 = q).
    { symmetry. apply (Z.div_unique _ _ q (r + 10800000000)); lia. }
    rewrite E. reflexivity.
  - assert (E : (now + 3 * 3600000000) / 86400000000 = q + 1).
    { symmetry. apply (Z.div_unique _ _ (q + 1) (r - 75600000000)); lia. }
    rewrite E. lia.
Qed.

(** ** Subscriptions *)

Lemma filter_singleton_of_In {A} (f : A -> bool) (l : list A) (x : A) :
  In x l -> f x = true -> (List.length (filter f l) <= 1)%nat ->
  filter f l = [x].
Proof.
  intros Hin Hf Hlen.
  assert (Hx : In x (filter f l)) by (apply filter_In; auto).
  destruct (filter f l) as [| y [| z rest]]; simpl in *.
  - contradiction.
  - destruct Hx as [-> | []]. reflexivity.
  - lia.
Qed.

Lemma existsb_false_of_filter_nil {A} (f : A -> bool) (l : list A) :
  filter f l = [] -> existsb f l = false.
Proof.
  induction l as [| x rest IH]; simpl; [reflexivity |].
  destruct (f x); [discriminate | exact IH].
Qed.

Lemma same_pair_ids user category user' category' s :
  user_id user = user_id user' ->
  category_id category = category_id category' ->
  same_pair user category s = same_pair user' category' s.
Proof. intros Hu Hc. unfold same_pair. rewrite Hu, Hc. reflexivity. Qed.

Lemma same_pair_true user category s :
  same_pair user category s = true <->
  user_id (subscription_user s) = user_id user
  /\ category_id (subscription_category s) = category_id category.
Proof.
  unfold same_pair. rewrite andb_true_iff, !Z.eqb_eq. reflexivity.
Qed.

Lemma at_most_one_per_pair_snoc subs obj :
  at_most_one_per_pair subs ->
  filter (same_pair (subscription_user obj) (subscription_category obj)) subs = [] ->
  at_most_one_per_pair (subs ++ [obj]).
Proof.
  intros Hinv Hnone user category.
  rewrite filter_app, length_app. simpl.
  destruct (same_pair user category obj) eqn:E; simpl.
  - apply same_pair_true in E. destruct E as [Eu Ec].
    assert (Hext : filter (same_pair user category) subs = []).
    { rewrite <- Hnone. apply filter_ext. intros s.
      apply same_pair_ids; congruence. }
    rewrite Hext. simpl. lia.
  - specialize (Hinv user category). lia.
Qed.

(** A first subscription: the row is appended. *)
Lemma Subscription_objects_get_or_create_new user category w :
  filter (same_pair user category) (subscriptions (db w)) = [] ->
  exists obj w',
    Subscription_objects_get_or_create user category w = (Ok (obj, true), w')
    /\ subscriptions (db w') = subscriptions (db w) ++ [obj]
    /\ subscription_user obj = user
    /\ subscription_category obj = category
    /\ flash w' = flash w.
Proof.
  intros Hnone.
  pose proof (existsb_false_of_filter_nil _ _ Hnone) as Hex.
  unfold Subscription_objects_get_or_create, try_except,
    Subscription_objects_get, bind, gets.
  rewrite Hnone. unfold raise.
  unfold transaction_atomic, Subscription_objects_create, bind, gets,
    timezone_now, fresh_pk, modify_db, modify, handle_new_subscription,
    cache_delete, modify, ret.
  destruct (txn w) as [[snapshot hooks] |] eqn:Etxn; simpl;
    rewrite Hex; simpl; eexists _, _; repeat split.
Qed.

(** A repeated subscription: the existing row comes back and nothing
    is written. *)
Lemma Subscription_objects_get_or_create_existing user category w existing :
  filter (same_pair user category) (subscriptions (db w)) = [existing] ->
  Subscription_objects_get_or_create user category w = (Ok (existing, false), w).
Proof.
  intros Hone.
  unfold Subscription_objects_get_or_create, try_except,
    Subscription_objects_get, bind, gets.
  rewrite Hone. reflexivity.
Qed.

Lemma Subscription_objects_get_or_create_many user category w a b rest :
  filter (same_pair user category) (subscriptions (db w)) = a :: b :: rest ->
  Subscription_objects_get_or_create user category w
  = (Raise MultipleObjectsReturned, w).
Proof.
  intros Hmany.
  unfold Subscription_objects_get_or_create, try_except,
    Subscription_objects_get, bind, gets.
  rewrite Hmany. reflexivity.
Qed.

(** C6.  If the table holds at most one subscription per (user,
    category) pair, it still does after a subscribe request; and a
    request for a pair that is already subscribed gets the existing row
    back ([created] is false), reports that the subscription exists,
    writes nothing and raises nothing. *)
Theorem subscribe_to_category_unique_pair
  (request_user : User) (category_id : Z) (w : World) :
  at_most_one_per_pair (subscriptions (db w)) ->
  at_most_one_per_pair
    (subscriptions (db (snd (subscribe_to_category request_user category_id w))))
  /\ forall category existing,
       get_category_or_404 category_id w = (Ok category, w) ->
       In existing (subscriptions (db w)) ->
       same_pair request_user category existing = true ->
       Subscription_objects_get_or_create request_user category w
       = (Ok (existing, false), w)
       /\ subscribe_to_category request_user category_id w
          = (Ok (redirect_category_posts category_id),
             set_flash w (flash w ++
                          [FlashAlreadySubscribed (category_name category)])).
Proof.
  intros Hinv. split.
  - unfold subscribe_to_category, get_category_or_404.
    unfold bind at 1. unfold bind at 1. unfold gets at 1.
    destruct (find _ (categories (db w))) as [category |]; [| exact Hinv].
    unfold ret at 1. unfold bind at 1.
    destruct (filter (same_pair request_user category) (subscriptions (db w)))
      as [| a [| b rest]] eqn:Hf.
    + destruct (Subscription_objects_get_or_create_new _ _ _ Hf)
        as (obj & w' & E & Hsubs & Hu & Hc & _).
      rewrite E. simpl. rewrite Hsubs.
      apply at_most_one_per_pair_snoc; [exact Hinv |].
      rewrite Hu, Hc. exact Hf.
    + rewrite (Subscription_objects_get_or_create_existing _ _ _ _ Hf).
      simpl. exact Hinv.
    + rewrite (Subscription_objects_get_or_create_many _ _ _ _ _ _ Hf).
      simpl. exact Hinv.
  - intros category existing Hcat Hin Hpair.
    pose proof (filter_singleton_of_In _ _ _ Hin Hpair
                  (Hinv request_user category)) as Hone.
    pose proof (Subscription_objects_get_or_create_existing _ _ _ _ Hone) as E.
    split; [exact E |].
    unfold subscribe_to_category.
    rewrite (bind_Ok _ _ _ _ _ Hcat).
    rewrite (bind_Ok _ _ _ _ _ E).
    reflexivity.
Qed.

(** ** Resending the activation mail *)

Lemma EmailService_send_welcome_email_ok user tok m w :
  welcome_mail_sent user tok m ->
  EmailService_send_welcome_email user (activation_url_for tok) w
  = (Ok tt, set_outbox w (outbox w ++ [m])).
Proof.
  intros (text & html & Ht & Hh & Haddress & Hup & ->).
  unfold EmailService_send_welcome_email, bind, render_to_string.
  rewrite Ht. unfold ret at 1. rewrite Hh. unfold ret at 1.
  rewrite EmailMessage_send_eq, message_delivery_one.
  destruct (String.eqb_spec (email user) ""); [contradiction |].
  rewrite Hup. reflexivity.
Qed.

Lemma ActivationToken_objects_get_one user tok w :
  filter (fun r => user_id (token_user r) =? user_id user) (tokens (db w)) = [tok] ->
  ActivationToken_objects_get user w = (Ok tok, w).
Proof.
  intros H. unfold ActivationToken_objects_get, bind, gets. rewrite H.
  reflexivity.
Qed.

Lemma EmailService_send_welcome_email_outcome user url w :
  exists r w',
    EmailService_send_welcome_email user url w = (r, w')
    /\ db w' = db w
    /\ (r = Ok tt \/ r = Raise TemplateDoesNotExist \/ r = Raise SMTPException).
Proof.
  unfold EmailService_send_welcome_email, bind, render_to_string.
  destruct (template "emails/welcome_email.txt" _) as [text |];
    [| eexists _, _; repeat split; auto].
  unfold ret at 1.
  destruct (template "emails/welcome_email.html" _) as [html |];
    [| eexists _, _; repeat split; auto].
  unfold ret at 1. rewrite EmailMessage_send_eq.
  destruct (message_delivery _); eexists _, _; repeat split; auto.
Qed.

(** Deleting the user's only token and creating a new one. *)
Lemma ActivationToken_replace user tok w :
  filter (fun r => user_id (token_user r) =? user_id user) (tokens (db w)) = [tok] ->
  (forall r, In r (tokens_without tok (db w)) ->
             token r <> random_string (rng w)) ->
  exists w2,
    tokens (db w2) = tokens_without tok (db w) ++ [token_created_from user w]
    /\ outbox w2 = outbox w
    /\ flash w2 = flash w
    /\ forall B (k : ActivationToken -> M B),
         bind (ActivationToken_delete tok)
              (fun _ => bind (ActivationToken_create_token user) k)
              (set_ticks w (S (ticks w)))
         = k (token_created_from user w) w2.
Proof.
  intros Htok Hfresh.
  assert (Hex : existsb (fun r => (user_id (token_user r) =? user_id user)
                                  || String.eqb (token r) (random_string (rng w)))
                        (tokens_without tok (db w)) = false).
  { apply not_true_is_false. intros Hex.
    apply existsb_exists in Hex. destruct Hex as (r & Hin & Hr).
    apply orb_true_iff in Hr. destruct Hr as [Hu | Ht].
    - unfold tokens_without in Hin. apply filter_In in Hin.
      destruct Hin as [Hin Hid].
      assert (Hr : In r [tok]).
      { rewrite <- Htok. apply filter_In. split; assumption. }
      destruct Hr as [<- | []].
      destruct (token_id tok) as [k |]; simpl in Hid.
      + rewrite Z.eqb_refl in Hid. discriminate.
      + discriminate.
    - apply String.eqb_eq in Ht. exact (Hfresh r Hin Ht). }
  unfold ActivationToken_delete, ActivationToken_create_token, bind,
    modify_db, modify, get_random_string, timezone_now, gets, fresh_pk,
    handle_activation_token_save, ret.
  simpl. unfold tokens_without in Hex. rewrite Hex. simpl.
  eexists. split; [| split; [| split]]; [| | | intros B k; reflexivity];
    reflexivity.
Qed.

(** C8.  A logged-in user whose token row is [tok] asks for a resend.
    (1) Activated token: only the informational message is added; no
    mail, no change to the tokens.  (2) Expired token: the old row is
    deleted and a fresh row is created, whatever happens to the mail;
    and the mail that goes out carries the new token's link.  (3)
    Otherwise the mail goes out with the existing token's link and the
    tokens are untouched.  A mail goes out when both templates render,
    the user has an address and the transport accepts the message
    ([welcome_mail_sent]). *)
Theorem resend_activation_email_cases
  (request_user : User) (tok : ActivationToken) (w : World) :
  filter (fun r => user_id (token_user r) =? user_id request_user)
         (tokens (db w)) = [tok] ->
  (activated tok = true ->
   resend_activation_email request_user w
   = (Ok redirect_profile, set_flash w (flash w ++ [FlashAlreadyActivated])))
  /\ (activated tok = false ->
      clock (ticks w) > token_created_at tok + 7 * MICROSECONDS_PER_DAY ->
      (forall r, In r (tokens_without tok (db w)) ->
                 token r <> random_string (rng w)) ->
      tokens (db (snd (resend_activation_email request_user w)))
      = tokens_without tok (db w) ++ [token_created_from request_user w]
      /\ forall m,
           welcome_mail_sent request_user (token_created_from request_user w) m ->
           exists w',
             resend_activation_email request_user w = (Ok redirect_profile, w')
             /\ outbox w' = outbox w ++ [m]
             /\ flash w' = flash w ++ [FlashNewActivationSent])
  /\ (activated tok = false ->
      clock (ticks w) <= token_created_at tok + 7 * MICROSECONDS_PER_DAY ->
      forall m,
        welcome_mail_sent request_user tok m ->
        exists w',
          resend_activation_email request_user w = (Ok redirect_profile, w')
          /\ tokens (db w') = tokens (db w)
          /\ outbox w' = outbox w ++ [m]
          /\ flash w' = flash w ++ [FlashActivationSent]).
Proof.
  intros Htok.
  pose proof (ActivationToken_objects_get_one _ _ _ Htok) as Hget.
  split; [| split].
  - intros Hact. unfold resend_activation_email.
    unfold bind at 1. unfold try_except.
    rewrite (bind_Ok _ _ _ _ _ Hget). rewrite Hact. reflexivity.
  - intros Hact Hexp Hfresh.
    destruct (ActivationToken_replace _ _ _ Htok Hfresh)
      as (w2 & Htoks & Hout & Hflash & Hk).
    assert (Hexp_eq : ActivationToken_is_expired tok w
                      = (Ok true, set_ticks w (S (ticks w)))).
    { unfold ActivationToken_is_expired, bind, timezone_now, ret.
      replace (clock (ticks w) >? _) with true; [reflexivity |].
      symmetry. apply Z.gtb_lt. unfold timedelta_days. lia. }
    destruct (EmailService_send_welcome_email_outcome request_user
                (activation_url_for (token_created_from request_user w)) w2)
      as (r & w3 & Esend & Hdb & Hr).
    assert (Hrun : resend_activation_email request_user w
                   = match r with
                     | Ok _ => (Ok redirect_profile,
                                set_flash w3 (flash w3 ++ [FlashNewActivationSent]))
                     | Raise e => (Raise e, w3)
                     end).
    { unfold resend_activation_email. unfold bind at 1. unfold try_except.
      rewrite (bind_Ok _ _ _ _ _ Hget). rewrite Hact.
      rewrite (bind_Ok _ _ _ _ _ Hexp_eq). cbv beta iota.
      rewrite Hk. unfold bind at 1. rewrite Esend.
      destruct Hr as [-> | [-> | ->]]; reflexivity. }
    split.
    + rewrite Hrun, <- Htoks, <- Hdb.
      destruct Hr as [-> | [-> | ->]]; reflexivity.
    + intros m Hm.
      rewrite (EmailService_send_welcome_email_ok _ _ _ _ Hm) in Esend.
      inversion Esend; subst r w3. rewrite Hrun.
      eexists. split; [reflexivity |]. simpl. rewrite Hout, Hflash.
      split; reflexivity.
  - intros Hact Hexp m Hm.
    assert (Hexp_eq : ActivationToken_is_expired tok w
                      = (Ok false, set_ticks w (S (ticks w)))).
    { unfold ActivationToken_is_expired, bind, timezone_now, ret.
      replace (clock (ticks w) >? _) with false; [reflexivity |].
      symmetry. rewrite Z.gtb_ltb. apply Z.ltb_ge. unfold timedelta_days. lia. }
    unfold resend_activation_email. unfold bind at 1. unfold try_except.
    rewrite (bind_Ok _ _ _ _ _ Hget). rewrite Hact.
    rewrite (bind_Ok _ _ _ _ _ Hexp_eq). cbv beta iota.
    unfold bind at 1.
    rewrite (EmailService_send_welcome_email_ok _ _ _ _ Hm).
    eexists. split; [reflexivity |]. repeat split.
Qed.

(** ** The weekly digest *)

Lemma In_insert_by_created_at_desc p q l :
  In p (insert_by_created_at_desc q l) <-> p = q \/ In p l.
Proof.
  induction l as [| x rest IH]; simpl.
  - intuition.
  - destruct (created_at x <? created_at q); simpl.
    + intuition.
    + rewrite IH. intuition.
Qed.

Lemma In_order_by_created_at_desc p l :
  In p (order_by_created_at_desc l) <-> In p l.
Proof.
  induction l as [| x rest IH]; simpl.
  - reflexivity.
  - rewrite In_insert_by_created_at_desc, IH. intuition.
Qed.

Lemma option_Z_eqb_eq a b : option_Z_eqb a b = true <-> a = b.
Proof.
  destruct a, b; simpl; try rewrite Z.eqb_eq;
    split; intros H; try discriminate; try congruence; reflexivity.
Qed.

(** The query of the digest returns exactly the qualifying articles. *)
Lemma weekly_articles_In category week_ago d p :
  In p (weekly_articles category week_ago d)
  <-> qualifying_article category week_ago d p.
Proof.
  unfold weekly_articles, qualifying_article.
  rewrite In_order_by_created_at_desc, in_flat_map. split.
  - intros (x & Hx & Hp).
    destruct (PostType_eqb (post_type x) ARTICLE && (week_ago <=? created_at x))
      eqn:Hc; [| contradiction].
    apply in_map_iff in Hp. destruct Hp as (pc & -> & Hpc).
    apply filter_In in Hpc. destruct Hpc as [Hin Hm].
    apply andb_true_iff in Hc. destruct Hc as [Ht Hw].
    apply andb_true_iff in Hm. destruct Hm as [Hk Hcat].
    repeat split.
    + exact Hx.
    + destruct (post_type p); [reflexivity | discriminate].
    + apply Z.leb_le. exact Hw.
    + exists pc. repeat split; [exact Hin | | apply Z.eqb_eq; exact Hcat].
      apply option_Z_eqb_eq. exact Hk.
  - intros (Hin & Ht & Hw & pc & Hpc & Hk & Hcat).
    exists p. split; [exact Hin |].
    rewrite Ht. simpl. apply Z.leb_le in Hw. rewrite Hw.
    apply in_map_iff. exists pc. split; [reflexivity |].
    apply filter_In. split; [exact Hpc |].
    apply andb_true_iff. split.
    + apply (proj2 (option_Z_eqb_eq (Some (pc_post pc)) (pk p))). exact Hk.
    + apply Z.eqb_eq. exact Hcat.
Qed.

Lemma weekly_articles_nil category week_ago d :
  weekly_articles category week_ago d = []
  <-> forall p, ~ qualifying_article category week_ago d p.
Proof.
  split.
  - intros H p Hq. apply weekly_articles_In in Hq. rewrite H in Hq.
    contradiction.
  - intros H. destruct (weekly_articles category week_ago d) as [| p ps] eqn:E;
      [reflexivity |].
    exfalso. apply (H p). apply weekly_articles_In. rewrite E. left.
    reflexivity.
Qed.

Lemma Subscription_needs_weekly_digest_eq s w :
  Subscription_needs_weekly_digest s w
  = (Ok (digest_due_at s w), due_check_world s w).
Proof.
  unfold Subscription_needs_weekly_digest, digest_due_at, due_check_world.
  destruct (last_weekly_sent s); reflexivity.
Qed.

(** Not due: the subscription is skipped. *)
Lemma send_weekly_digest_body_not_due week_ago counts s w :
  digest_due_at s w = false ->
  send_weekly_digest_body week_ago counts s w
  = (Ok counts, due_check_world s w).
Proof.
  intros Hdue. unfold send_weekly_digest_body. destruct counts as [sc ec].
  rewrite (bind_Ok _ _ _ _ _ (Subscription_needs_weekly_digest_eq s w)).
  rewrite Hdue. reflexivity.
Qed.

(** Due, but nothing to list: the subscription is skipped. *)
Lemma send_weekly_digest_body_quiet week_ago counts s w :
  digest_due_at s w = true ->
  weekly_articles (subscription_category s) week_ago (db w) = [] ->
  send_weekly_digest_body week_ago counts s w
  = (Ok counts, due_check_world s w).
Proof.
  intros Hdue Hnil. unfold send_weekly_digest_body. destruct counts as [sc ec].
  rewrite (bind_Ok _ _ _ _ _ (Subscription_needs_weekly_digest_eq s w)).
  rewrite Hdue. unfold try_except, bind, gets.
  replace (db (due_check_world s w)) with (db w)
    by (unfold due_check_world; destruct (last_weekly_sent s); reflexivity).
  rewrite Hnil. reflexivity.
Qed.

Lemma db_due_check_world s w : db (due_check_world s w) = db w.
Proof. unfold due_check_world. destruct (last_weekly_sent s); reflexivity. Qed.

Lemma outbox_due_check_world s w : outbox (due_check_world s w) = outbox w.
Proof. unfold due_check_world. destruct (last_weekly_sent s); reflexivity. Qed.

Lemma refused_due_check_world s w : refused (due_check_world s w) = refused w.
Proof. unfold due_check_world. destruct (last_weekly_sent s); reflexivity. Qed.

(** Due, with articles, but the digest cannot be built or the transport
    refuses it: the error is counted and nothing is written. *)
Lemma send_weekly_digest_body_failed week_ago counts s w p ps :
  digest_due_at s w = true ->
  weekly_articles (subscription_category s) week_ago (db w) = p :: ps ->
  delivery_failed (digest_delivery s (p :: ps) (due_check_world s w)) = true ->
  exists w',
    send_weekly_digest_body week_ago counts s w
    = (Ok (fst counts, S (snd counts)), w')
    /\ db w' = db w /\ outbox w' = outbox w
    /\ refused w'
       = refused w
         ++ refused_mail (digest_delivery s (p :: ps) (due_check_world s w)).
Proof.
  intros Hdue Hposts Hfail. unfold send_weekly_digest_body.
  destruct counts as [sc ec].
  rewrite (bind_Ok _ _ _ _ _ (Subscription_needs_weekly_digest_eq s w)).
  rewrite Hdue. unfold try_except. unfold bind at 1. unfold gets at 1.
  rewrite db_due_check_world, Hposts.
  unfold bind at 1. unfold timezone_now at 1.
  unfold bind at 1. unfold timezone_now at 1.
  unfold digest_delivery in Hfail |- *. simpl ticks.
  unfold bind at 1. unfold render_to_string at 1.
  destruct (template "emails/weekly_digest.txt" _) as [text |].
  - unfold ret at 1. unfold bind at 1. unfold render_to_string at 1.
    destruct (template "emails/weekly_digest.html" _) as [html |].
    + unfold ret at 1. unfold bind at 1. unfold send_mail at 1.
      rewrite EmailMessage_send_eq.
      destruct (message_delivery _) as [m | | m |] eqn:Hmd;
        try discriminate.
      * pose proof (message_delivery_same _ _ (or_intror Hmd)) as ->.
        eexists. split; [reflexivity |]. simpl.
        rewrite db_due_check_world, outbox_due_check_world,
          refused_due_check_world.
        repeat split.
      * destruct (message_delivery_built _ Hmd).
    + eexists. split; [reflexivity |]. simpl.
      rewrite db_due_check_world, outbox_due_check_world,
        refused_due_check_world, app_nil_r.
      repeat split.
  - eexists. split; [reflexivity |]. simpl.
    rewrite db_due_check_world, outbox_due_check_world,
      refused_due_check_world, app_nil_r.
    repeat split.
Qed.

Lemma option_Z_eqb_refl a : option_Z_eqb a a = true.
Proof. apply option_Z_eqb_eq. reflexivity. Qed.

Lemma Model_save_Subscription_update self w :
  (exists r, In r (subscriptions (db w))
             /\ subscription_id r = subscription_id self) ->
  Model_save_Subscription self w
  = (Ok tt,
     set_db w (set_subscriptions (db w)
       (map (fun r => if option_Z_eqb (subscription_id r) (subscription_id self)
                      then self else r)
            (subscriptions (db w))))).
Proof.
  intros (r & Hin & Hid).
  unfold Model_save_Subscription, bind, gets.
  replace (existsb _ (subscriptions (db w))) with true; [reflexivity |].
  symmetry. apply existsb_exists. exists r. split; [exact Hin |].
  rewrite Hid. apply option_Z_eqb_refl.
Qed.

(** Due, with articles, built and handed over without an exception:
    the digest goes out when the subscriber has an address, the cursor
    is written with the reading of the clock that follows, and the
    subscription is counted as sent. *)
Lemma send_weekly_digest_body_sent week_ago counts s w p ps :
  digest_due_at s w = true ->
  weekly_articles (subscription_category s) week_ago (db w) = p :: ps ->
  delivery_failed (digest_delivery s (p :: ps) (due_check_world s w)) = false ->
  In s (subscriptions (db w)) ->
  exists w',
    send_weekly_digest_body week_ago counts s w
    = (Ok (S (fst counts), snd counts), w')
    /\ outbox w'
       = outbox w
         ++ delivered_mail (digest_delivery s (p :: ps) (due_check_world s w))
    /\ refused w' = refused w
    /\ subscriptions (db w')
       = cursor_written s (cursor_reading s w) (subscriptions (db w))
    /\ posts (db w') = posts (db w)
    /\ post_categories (db w') = post_categories (db w).
Proof.
  intros Hdue Hposts Hsent Hin. unfold send_weekly_digest_body.
  destruct counts as [sc ec].
  rewrite (bind_Ok _ _ _ _ _ (Subscription_needs_weekly_digest_eq s w)).
  rewrite Hdue. unfold try_except. unfold bind at 1. unfold gets at 1.
  rewrite db_due_check_world, Hposts.
  unfold bind at 1. unfold timezone_now at 1.
  unfold bind at 1. unfold timezone_now at 1.
  unfold digest_delivery in Hsent |- *. unfold cursor_reading. simpl ticks.
  unfold bind at 1. unfold render_to_string at 1.
  destruct (template "emails/weekly_digest.txt" _) as [text |];
    [| discriminate].
  unfold ret at 1. unfold bind at 1. unfold render_to_string at 1.
  destruct (template "emails/weekly_digest.html" _) as [html |];
    [| discriminate].
  unfold ret at 1. unfold bind at 1. unfold send_mail at 1.
  rewrite EmailMessage_send_eq.
  destruct (message_delivery _) as [m | | m |] eqn:Hmd; try discriminate.
  - pose proof (message_delivery_same _ _ (or_introl Hmd)) as ->.
    unfold bind at 1. unfold timezone_now at 1.
    unfold bind at 1.
    rewrite Model_save_Subscription_update.
    + eexists. split; [reflexivity |]. simpl.
      rewrite db_due_check_world, outbox_due_check_world,
        refused_due_check_world.
      repeat split.
    + exists s. simpl. rewrite db_due_check_world.
      split; [exact Hin | reflexivity].
  - unfold bind at 1. unfold timezone_now at 1.
    unfold bind at 1.
    rewrite Model_save_Subscription_update.
    + eexists. split; [reflexivity |]. simpl.
      rewrite db_due_check_world, outbox_due_check_world,
        refused_due_check_world, app_nil_r.
      repeat split.
    + exists s. simpl. rewrite db_due_check_world.
      split; [exact Hin | reflexivity].
Qed.

(** The loop body always returns. *)
Lemma returns_send_weekly_digest_body week_ago counts s :
  returns (send_weekly_digest_body week_ago counts s).
Proof.
  unfold send_weekly_digest_body. destruct counts as [sc ec].
  apply returns_bind.
  - intros w. rewrite Subscription_needs_weekly_digest_eq.
    eexists _, _. reflexivity.
  - intros [|]; [| apply returns_ret].
    apply returns_try_except. intros _. apply returns_ret.
Qed.

Lemma returns_send_weekly_digest_loop week_ago subs :
  forall counts, returns (send_weekly_digest_loop week_ago counts subs).
Proof.
  induction subs as [| s rest IH]; intros counts; simpl.
  - apply returns_ret.
  - apply returns_bind; [apply returns_send_weekly_digest_body |].
    intros c. apply IH.
Qed.

(** The loop over [before ++ s :: after] is the loop over [before],
    the body on [s], then the loop over [after]. *)
Lemma send_weekly_digest_loop_app week_ago before s after :
  forall counts w c1 w1 c2 w2,
    send_weekly_digest_loop week_ago counts before w = (Ok c1, w1) ->
    send_weekly_digest_body week_ago c1 s w1 = (Ok c2, w2) ->
    send_weekly_digest_loop week_ago counts (before ++ s :: after) w
    = send_weekly_digest_loop week_ago c2 after w2.
Proof.
  induction before as [| b rest IH]; intros counts w c1 w1 c2 w2 H1 H2; simpl in *.
  - inversion H1; subst. rewrite (bind_Ok _ _ _ _ _ H2). reflexivity.
  - destruct (returns_send_weekly_digest_body week_ago counts b w)
      as (cb & wb & Eb).
    rewrite (bind_Ok _ _ _ _ _ Eb) in H1. rewrite (bind_Ok _ _ _ _ _ Eb).
    apply (IH _ _ _ _ _ _ H1 H2).
Qed.

Lemma EmailService_send_weekly_digest_eq w c w' :
  send_weekly_digest_loop (clock (ticks w) - timedelta_days 7) (0%nat, 0%nat)
    (subscriptions (db w)) (set_ticks w (S (ticks w))) = (Ok c, w') ->
  EmailService_send_weekly_digest w
  = (Ok (mkDigestResult (fst c) (snd c) (fst c + snd c)), w').
Proof.
  intros H. unfold EmailService_send_weekly_digest.
  unfold bind at 1. unfold timezone_now at 1.
  unfold bind at 1. unfold gets at 1. simpl db.
  rewrite (bind_Ok _ _ _ _ _ H). destruct c. reflexivity.
Qed.

(** [needs_weekly_digest] compares the cursor with the reading of the
    clock it takes. *)
Lemma digest_due_at_iff s w :
  digest_due_at s w = true <-> digest_due (clock (ticks w)) s.
Proof.
  unfold digest_due_at, digest_due.
  destruct (last_weekly_sent s) as [last |].
  - rewrite Z.gtb_ltb, Z.ltb_lt. lia.
  - tauto.
Qed.

Lemma In_cursor_written_other s t subs r :
  In r subs -> subscription_id r <> subscription_id s ->
  In r (cursor_written s t subs).
Proof.
  intros Hin Hid. unfold cursor_written. apply in_map_iff. exists r.
  split; [| exact Hin].
  destruct (option_Z_eqb (subscription_id r) (subscription_id s)) eqn:E;
    [| reflexivity].
  apply option_Z_eqb_eq in E. contradiction.
Qed.

(** *** One turn of the loop

    What the body of the loop does for a subscription that is a row of
    the table, from the world in which its turn starts. *)
Lemma send_weekly_digest_body_policy week_ago counts s w :
  In s (subscriptions (db w)) ->
  exists counts' w',
    send_weekly_digest_body week_ago counts s w = (Ok counts', w')
    /\ (forall last,
          last_weekly_sent s = Some last ->
          clock (ticks w) - last <= timedelta_days 7 ->
          counts' = counts /\ db w' = db w /\ outbox w' = outbox w)
    /\ ((forall p, ~ qualifying_article (subscription_category s)
                       week_ago (db w) p) ->
        counts' = counts /\ db w' = db w /\ outbox w' = outbox w)
    /\ (outbox w' <> outbox w \/ db w' <> db w ->
        digest_due (clock (ticks w)) s
        /\ exists p, qualifying_article (subscription_category s)
                       week_ago (db w) p)
    /\ (digest_due (clock (ticks w)) s ->
        (exists p, qualifying_article (subscription_category s)
                     week_ago (db w) p) ->
        forall m,
          digest_delivery s
            (weekly_articles (subscription_category s) week_ago (db w))
            (due_check_world s w) = delivered m ->
          counts' = (S (fst counts), snd counts)
          /\ outbox w' = outbox w ++ [m]
          /\ subscriptions (db w')
             = cursor_written s (cursor_reading s w) (subscriptions (db w)))
    /\ posts (db w') = posts (db w)
    /\ post_categories (db w') = post_categories (db w)
    /\ (forall r, In r (subscriptions (db w)) ->
                  subscription_id r <> subscription_id s ->
                  In r (subscriptions (db w'))).
Proof.
  intros Hin.
  pose proof (digest_due_at_iff s w) as Hdue_iff.
  destruct (digest_due_at s w) eqn:Hdue.
  - assert (Hd : digest_due (clock (ticks w)) s)
      by (apply Hdue_iff; reflexivity).
    assert (Hnot_skipped : forall last,
              last_weekly_sent s = Some last ->
              clock (ticks w) - last <= timedelta_days 7 -> False).
    { intros last Hl Hle. unfold digest_due in Hd. rewrite Hl in Hd. lia. }
    destruct (weekly_articles (subscription_category s) week_ago (db w))
      as [| p ps] eqn:Hposts.
    + exists counts, (due_check_world s w).
      rewrite (send_weekly_digest_body_quiet _ _ _ _ Hdue Hposts).
      rewrite db_due_check_world, outbox_due_check_world.
      split; [reflexivity |].
      split; [intros; repeat split |].
      split; [intros; repeat split |].
      split; [intros [Hc | Hc]; contradiction |].
      split.
      { intros _ (q & Hq). apply weekly_articles_In in Hq.
        rewrite Hposts in Hq. contradiction. }
      split; [reflexivity |]. split; [reflexivity |]. intros r Hr _. exact Hr.
    + assert (Hp : qualifying_article (subscription_category s) week_ago (db w) p).
      { apply weekly_articles_In. rewrite Hposts. left. reflexivity. }
      destruct (delivery_failed
                  (digest_delivery s (p :: ps) (due_check_world s w)))
        eqn:Hdel.
      * destruct (send_weekly_digest_body_failed week_ago counts _ _ _ _
                    Hdue Hposts Hdel)
          as (w' & E & Hdb & Hout & _).
        exists (fst counts, S (snd counts)), w'.
        split; [exact E |].
        split; [intros last Hl Hle; destruct (Hnot_skipped last Hl Hle) |].
        split; [intros Hnone; destruct (Hnone p Hp) |].
        split; [rewrite Hdb; intros [H | H]; contradiction |].
        split.
        { intros _ _ m Hm. rewrite Hm in Hdel. discriminate. }
        rewrite Hdb. split; [reflexivity |]. split; [reflexivity |].
        intros r Hr _. exact Hr.
      * destruct (send_weekly_digest_body_sent week_ago counts _ _ _ _
                    Hdue Hposts Hdel Hin)
          as (w' & E & Hout & _ & Hsubs & Hposts' & Hpcs').
        exists (S (fst counts), snd counts), w'.
        split; [exact E |].
        split; [intros last Hl Hle; destruct (Hnot_skipped last Hl Hle) |].
        split; [intros Hnone; destruct (Hnone p Hp) |].
        split; [intros _; split; [exact Hd | exists p; exact Hp] |].
        split.
        { intros _ _ m Hm. rewrite Hm in Hout.
          split; [reflexivity |]. split; [exact Hout | exact Hsubs]. }
        split; [exact Hposts' |]. split; [exact Hpcs' |].
        intros r Hr Hid. rewrite Hsubs.
        apply In_cursor_written_other; assumption.
  - exists counts, (due_check_world s w).
    rewrite (send_weekly_digest_body_not_due _ _ _ _ Hdue).
    rewrite db_due_check_world, outbox_due_check_world.
    split; [reflexivity |].
    split; [intros; repeat split |].
    split; [intros; repeat split |].
    split; [intros [Hc | Hc]; contradiction |].
    split.
    { intros Hd. apply Hdue_iff in Hd. discriminate. }
    split; [reflexivity |]. split; [reflexivity |]. intros r Hr _. exact Hr.
Qed.

(** *** Every row gets its turn

    In a run over a table with distinct primary keys, each subscription
    is still a row of the table when the loop reaches it, and the posts
    and their categories are those of the start of the run. *)

Lemma send_weekly_digest_body_effect week_ago counts s w :
  In s (subscriptions (db w)) ->
  exists c' w',
    send_weekly_digest_body week_ago counts s w = (Ok c', w')
    /\ posts (db w') = posts (db w)
    /\ post_categories (db w') = post_categories (db w)
    /\ forall r, In r (subscriptions (db w)) ->
                 subscription_id r <> subscription_id s ->
                 In r (subscriptions (db w')).
Proof.
  intros Hin.
  destruct (send_weekly_digest_body_policy week_ago counts s w Hin)
    as (c' & w' & E & _ & _ & _ & _ & Hp & Hpc & Hkeep).
  exists c', w'. repeat split; assumption.
Qed.

Lemma send_weekly_digest_loop_keeps week_ago :
  forall l counts w,
    NoDup (map subscription_id l) ->
    (forall x, In x l -> In x (subscriptions (db w))) ->
    exists c' w',
      send_weekly_digest_loop week_ago counts l w = (Ok c', w')
      /\ posts (db w') = posts (db w)
      /\ post_categories (db w') = post_categories (db w)
      /\ forall r, In r (subscriptions (db w)) ->
                   ~ In (subscription_id r) (map subscription_id l) ->
                   In r (subscriptions (db w')).
Proof.
  induction l as [| b rest IH]; intros counts w Hnodup Hrows.
  - exists counts, w. simpl. repeat split; auto.
  - simpl in Hnodup. inversion Hnodup as [| x l Hnotin Hnodup']; subst.
    destruct (send_weekly_digest_body_effect week_ago counts b w)
      as (cb & wb & Eb & Hp & Hpc & Hkeep).
    { apply Hrows. left. reflexivity. }
    destruct (IH cb wb Hnodup') as (c' & w' & E & Hp' & Hpc' & Hkeep').
    { intros x Hx. apply Hkeep.
      - apply Hrows. right. exact Hx.
      - intros Heq. apply Hnotin. rewrite <- Heq. apply in_map. exact Hx. }
    exists c', w'. simpl. rewrite (bind_Ok _ _ _ _ _ Eb).
    split; [exact E |]. split; [congruence |]. split; [congruence |].
    intros r Hr Hid. apply Hkeep'.
    + apply Hkeep; [exact Hr |].
      intros Heq. apply Hid. simpl. left. symmetry. exact Heq.
    + intros Hin. apply Hid. simpl. right. exact Hin.
Qed.

Lemma send_weekly_digest_loop_reaches week_ago :
  forall before counts w s after,
    NoDup (map subscription_id (before ++ s :: after)) ->
    (forall r, In r (before ++ s :: after) -> In r (subscriptions (db w))) ->
    exists c1 w1,
      send_weekly_digest_loop week_ago counts before w = (Ok c1, w1)
      /\ In s (subscriptions (db w1))
      /\ posts (db w1) = posts (db w)
      /\ post_categories (db w1) = post_categories (db w).
Proof.
  induction before as [| b rest IH]; intros counts w s after Hnodup Hrows.
  - exists counts, w. simpl. split; [reflexivity |].
    split; [apply Hrows; left; reflexivity |]. split; reflexivity.
  - simpl in Hnodup. inversion Hnodup as [| x l Hnotin Hnodup']; subst.
    destruct (send_weekly_digest_body_effect week_ago counts b w)
      as (cb & wb & Eb & Hp & Hpc & Hkeep).
    { apply Hrows. left. reflexivity. }
    destruct (IH cb wb s after Hnodup') as (c1 & w1 & E1 & Hs & Hp1 & Hpc1).
    { intros r Hr. apply Hkeep.
      - apply Hrows. right. exact Hr.
      - intros Heq. apply Hnotin. rewrite <- Heq.
        apply in_map. exact Hr. }
    exists c1, w1. simpl. rewrite (bind_Ok _ _ _ _ _ Eb).
    split; [exact E1 |]. split; [exact Hs |].
    split; congruence.
Qed.

Lemma NoDup_app_parts {A} (l1 l2 : list A) :
  NoDup (l1 ++ l2) ->
  NoDup l1 /\ NoDup l2 /\ forall x, In x l1 -> ~ In x l2.
Proof.
  induction l1 as [| a l1 IH]; simpl; intros H.
  - split; [constructor |]. split; [exact H |]. intros x [].
  - inversion H as [| b l Hnotin Hnodup]; subst.
    destruct (IH Hnodup) as (H1 & H2 & Hdisj).
    split.
    { constructor; [| exact H1]. intros Hin. apply Hnotin.
      apply in_or_app. left. exact Hin. }
    split; [exact H2 |].
    intros x [<- | Hx]; [| apply Hdisj; exact Hx].
    intros Hin. apply Hnotin. apply in_or_app. right. exact Hin.
Qed.

Lemma weekly_articles_same_posts category week_ago d d' :
  posts d' = posts d -> post_categories d' = post_categories d ->
  weekly_articles category week_ago d' = weekly_articles category week_ago d.
Proof. intros Hp Hpc. unfold weekly_articles. rewrite Hp, Hpc. reflexivity. Qed.

Lemma qualifying_article_same_posts category week_ago d d' p :
  posts d' = posts d -> post_categories d' = post_categories d ->
  qualifying_article category week_ago d' p
  <-> qualifying_article category week_ago d p.
Proof.
  intros Hp Hpc. rewrite <- !weekly_articles_In.
  rewrite (weekly_articles_same_posts _ _ _ _ Hp Hpc). reflexivity.
Qed.

(** C3.  A digest run over a table of subscriptions with distinct
    primary keys, seen at one subscription [s] of the table.  The run
    is the loop over the rows before [s], the turn of [s] and the loop
    over the rows after it, with the window starting seven days before
    the reading of the clock at the start of the run; when the turn of
    [s] comes, [s] is still the row of the table and the posts are
    those of the start.  In that turn: (1) a cursor at most seven days
    older than the reading of the clock the check takes: skipped,
    nothing written, nothing sent; (2) no ARTICLE of the category in
    the window: nothing written, nothing sent; (3) mail goes out or the
    database changes only for a due subscription with at least one
    qualifying article; (4) for a due subscription with a qualifying
    article whose digest is built and accepted by the transport, that
    digest goes out, the subscription is counted as sent and its cursor
    becomes the reading of the clock taken after the send.  (5) The
    rows and the counters are not touched again for [s]: the row of [s]
    at the end of the run is the one its turn left. *)
Theorem weekly_digest_cursor_policy
  (before : list Subscription) (s : Subscription) (after : list Subscription)
  (w : World) :
  subscriptions (db w) = before ++ s :: after ->
  NoDup (map subscription_id (subscriptions (db w))) ->
  exists c1 w1 c2 w2 c3 w3,
    send_weekly_digest_loop (clock (ticks w) - timedelta_days 7)
      (0%nat, 0%nat) before (set_ticks w (S (ticks w))) = (Ok c1, w1)
    /\ send_weekly_digest_body (clock (ticks w) - timedelta_days 7) c1 s w1
       = (Ok c2, w2)
    /\ send_weekly_digest_loop (clock (ticks w) - timedelta_days 7)
         c2 after w2 = (Ok c3, w3)
    /\ EmailService_send_weekly_digest w
       = (Ok (mkDigestResult (fst c3) (snd c3) (fst c3 + snd c3)), w3)
    /\ In s (subscriptions (db w1))
    /\ (forall last,
          last_weekly_sent s = Some last ->
          clock (ticks w1) - last <= timedelta_days 7 ->
          c2 = c1 /\ db w2 = db w1 /\ outbox w2 = outbox w1)
    /\ ((forall p, ~ qualifying_article (subscription_category s)
                       (clock (ticks w) - timedelta_days 7) (db w) p) ->
        c2 = c1 /\ db w2 = db w1 /\ outbox w2 = outbox w1)
    /\ (outbox w2 <> outbox w1 \/ db w2 <> db w1 ->
        digest_due (clock (ticks w1)) s
        /\ exists p, qualifying_article (subscription_category s)
                       (clock (ticks w) - timedelta_days 7) (db w) p)
    /\ (digest_due (clock (ticks w1)) s ->
        (exists p, qualifying_article (subscription_category s)
                     (clock (ticks w) - timedelta_days 7) (db w) p) ->
        forall m,
          digest_delivery s
            (weekly_articles (subscription_category s)
                             (clock (ticks w) - timedelta_days 7) (db w))
            (due_check_world s w1) = delivered m ->
          c2 = (S (fst c1), snd c1)
          /\ outbox w2 = outbox w1 ++ [m]
          /\ subscriptions (db w2)
             = cursor_written s (cursor_reading s w1) (subscriptions (db w1)))
    /\ (forall r, In r (subscriptions (db w2)) ->
                  subscription_id r = subscription_id s ->
                  In r (subscriptions (db w3))).
Proof.
  intros Htable Hnodup.
  set (week_ago := clock (ticks w) - timedelta_days 7).
  set (w0 := set_ticks w (S (ticks w))).
  rewrite Htable, map_app in Hnodup. cbn [map] in Hnodup.
  destruct (NoDup_app_parts _ _ Hnodup) as (Hnd_before & Hnd_rest & Hdisj).
  inversion Hnd_rest as [| x l Hs_fresh Hnd_after]; subst x l.
  assert (Hrows : forall x, In x (before ++ s :: after) ->
                            In x (subscriptions (db w0))).
  { intros x Hx. unfold w0. cbn [db set_ticks]. rewrite Htable. exact Hx. }
  destruct (send_weekly_digest_loop_keeps week_ago before (0%nat, 0%nat) w0
              Hnd_before)
    as (c1 & w1 & E1 & Hp1 & Hpc1 & Hkeep1).
  { intros x Hx. apply Hrows. apply in_or_app. left. exact Hx. }
  assert (Hrest1 : forall x, In x (s :: after) -> In x (subscriptions (db w1))).
  { intros x Hx. apply Hkeep1.
    - apply Hrows. apply in_or_app. right. exact Hx.
    - intros Hin. apply (Hdisj _ Hin).
      exact (in_map subscription_id (s :: after) x Hx). }
  assert (Hs1 : In s (subscriptions (db w1)))
    by (apply Hrest1; left; reflexivity).
  destruct (send_weekly_digest_body_policy week_ago c1 s w1 Hs1)
    as (c2 & w2 & E2 & Hskip & Hquiet & Honly & Hsent & Hp2 & Hpc2 & Hkeep2).
  destruct (send_weekly_digest_loop_keeps week_ago after c2 w2 Hnd_after)
    as (c3 & w3 & E3 & _ & _ & Hkeep3).
  { intros x Hx. apply Hkeep2.
    - apply Hrest1. right. exact Hx.
    - intros Heq. apply Hs_fresh. rewrite <- Heq. apply in_map. exact Hx. }
  assert (Hposts : posts (db w1) = posts (db w)) by exact Hp1.
  assert (Hpcs : post_categories (db w1) = post_categories (db w))
    by exact Hpc1.
  exists c1, w1, c2, w2, c3, w3.
  split; [exact E1 |]. split; [exact E2 |]. split; [exact E3 |].
  split.
  { apply EmailService_send_weekly_digest_eq. rewrite Htable.
    fold week_ago. fold w0.
    rewrite (send_weekly_digest_loop_app _ _ _ _ _ _ _ _ _ _ E1 E2).
    exact E3. }
  split; [exact Hs1 |].
  split; [exact Hskip |].
  split.
  { intros Hnone. apply Hquiet. intros p Hp.
    apply (Hnone p).
    apply (qualifying_article_same_posts _ _ _ _ _ Hposts Hpcs). exact Hp. }
  split.
  { intros Hchange. destruct (Honly Hchange) as (Hd & p & Hp).
    split; [exact Hd |]. exists p.
    apply (qualifying_article_same_posts _ _ _ _ _ Hposts Hpcs). exact Hp. }
  split.
  { intros Hd (p & Hp) m Hm. apply (Hsent Hd).
    - exists p.
      apply (qualifying_article_same_posts _ _ _ _ _ Hposts Hpcs). exact Hp.
    - rewrite (weekly_articles_same_posts _ _ _ _ Hposts Hpcs). exact Hm. }
  intros r Hr Hid. apply Hkeep3; [exact Hr |].
  rewrite Hid. exact Hs_fresh.
Qed.

(** *** The digest keeps the pairs unique

    Writing the cursor of a row replaces the row by itself with a new
    cursor, so a table with distinct primary keys keeps at most one
    row per (user, category) pair. *)

Lemma NoDup_map_eq {A B} (f : A -> B) (l : list A) x y :
  NoDup (map f l) -> In x l -> In y l -> f x = f y -> x = y.
Proof.
  induction l as [| a rest IH]; simpl; intros Hnd Hx Hy Hf; [contradiction |].
  inversion Hnd as [| b l' Hnotin Hnd']; subst.
  destruct Hx as [-> | Hx], Hy as [-> | Hy].
  - reflexivity.
  - exfalso. apply Hnotin. rewrite Hf. apply in_map. exact Hy.
  - exfalso. apply Hnotin. rewrite <- Hf. apply in_map. exact Hx.
  - apply IH; assumption.
Qed.

Lemma length_filter_map_ext {A} (f : A -> bool) (g : A -> A) (l : list A) :
  (forall x, In x l -> f (g x) = f x) ->
  List.length (filter f (map g l)) = List.length (filter f l).
Proof.
  induction l as [| a rest IH]; simpl; intros H; [reflexivity |].
  rewrite (H a (or_introl eq_refl)).
  destruct (f a); simpl; rewrite IH; auto.
Qed.

Lemma cursor_written_keeps_pairs s t subs :
  NoDup (map subscription_id subs) -> In s subs ->
  at_most_one_per_pair subs ->
  at_most_one_per_pair (cursor_written s t subs).
Proof.
  intros Hnd Hin Hinv user category. unfold cursor_written.
  rewrite length_filter_map_ext; [apply Hinv |].
  intros r Hr.
  destruct (option_Z_eqb (subscription_id r) (subscription_id s)) eqn:E;
    [| reflexivity].
  apply option_Z_eqb_eq in E.
  rewrite (NoDup_map_eq _ _ _ _ Hnd Hr Hin E). reflexivity.
Qed.

Lemma send_weekly_digest_body_keeps_pairs week_ago counts s w :
  NoDup (map subscription_id (subscriptions (db w))) ->
  In s (subscriptions (db w)) ->
  at_most_one_per_pair (subscriptions (db w)) ->
  at_most_one_per_pair
    (subscriptions (db (snd (send_weekly_digest_body week_ago counts s w)))).
Proof.
  intros Hnd Hin Hinv.
  destruct (digest_due_at s w) eqn:Hdue.
  - destruct (weekly_articles (subscription_category s) week_ago (db w))
      as [| p ps] eqn:Hposts.
    + rewrite (send_weekly_digest_body_quiet _ _ _ _ Hdue Hposts).
      simpl. rewrite db_due_check_world. exact Hinv.
    + destruct (delivery_failed
                  (digest_delivery s (p :: ps) (due_check_world s w)))
        eqn:Hdel.
      * destruct (send_weekly_digest_body_failed week_ago counts _ _ _ _
                    Hdue Hposts Hdel)
          as (w' & E & Hdb & _).
        rewrite E. simpl. rewrite Hdb. exact Hinv.
      * destruct (send_weekly_digest_body_sent week_ago counts _ _ _ _
                    Hdue Hposts Hdel Hin)
          as (w' & E & _ & _ & Hsubs & _).
        rewrite E. simpl. rewrite Hsubs.
        apply cursor_written_keeps_pairs; assumption.
  - rewrite (send_weekly_digest_body_not_due _ _ _ _ Hdue).
    simpl. rewrite db_due_check_world. exact Hinv.
Qed.

(** The body leaves the counters alone or adds one to exactly one. *)
Lemma send_weekly_digest_body_counts week_ago counts s w c' w' :
  send_weekly_digest_body week_ago counts s w = (Ok c', w') ->
  c' = counts
  \/ c' = (S (fst counts), snd counts)
  \/ c' = (fst counts, S (snd counts)).
Proof.
  unfold send_weekly_digest_body. destruct counts as [sc ec].
  rewrite (bind_Ok _ _ _ _ _ (Subscription_needs_weekly_digest_eq s w)).
  destruct (digest_due_at s w).
  - unfold try_except.
    match goal with
    | |- context [match ?body ?w0 with _ => _ end] =>
        destruct (body w0) as [[c | e] w1] eqn:E
    end.
    + intros H; inversion H; subst c w1. clear H.
      unfold bind at 1 in E. unfold gets at 1 in E.
      destruct (weekly_articles _ _ _) as [| p ps].
      * inversion E. left. reflexivity.
      * repeat
          (unfold bind at 1 in E;
           match type of E with
           | (match ?m ?w0 with _ => _ end) = _ =>
               destruct (m w0) as [[? | ?] ?]; [| discriminate]
           end).
        inversion E. right. left. reflexivity.
    + intros H; inversion H. right. right. reflexivity.
  - intros H; inversion H. left. reflexivity.
Qed.

Lemma send_weekly_digest_loop_counts week_ago subs :
  forall counts w c' w',
    send_weekly_digest_loop week_ago counts subs w = (Ok c', w') ->
    (fst counts <= fst c')%nat /\ (snd counts <= snd c')%nat.
Proof.
  induction subs as [| s rest IH]; intros counts w c' w' H; simpl in H.
  - inversion H. split; lia.
  - destruct (returns_send_weekly_digest_body week_ago counts s w)
      as (c1 & w1 & E1).
    rewrite (bind_Ok _ _ _ _ _ E1) in H.
    destruct (IH _ _ _ _ H) as [Hs He].
    destruct (send_weekly_digest_body_counts _ _ _ _ _ _ E1)
      as [-> | [-> | ->]]; simpl in *; split; lia.
Qed.

(** The run as the three parts of its loop around one subscription. *)
Lemma EmailService_send_weekly_digest_parts before s after w :
  subscriptions (db w) = before ++ s :: after ->
  exists c1 w1 c2 w2 c3 w3,
    send_weekly_digest_loop (clock (ticks w) - timedelta_days 7)
      (0%nat, 0%nat) before (set_ticks w (S (ticks w))) = (Ok c1, w1)
    /\ send_weekly_digest_body (clock (ticks w) - timedelta_days 7) c1 s w1
       = (Ok c2, w2)
    /\ send_weekly_digest_loop (clock (ticks w) - timedelta_days 7)
         c2 after w2 = (Ok c3, w3)
    /\ EmailService_send_weekly_digest w
       = (Ok (mkDigestResult (fst c3) (snd c3) (fst c3 + snd c3)), w3)
    /\ (snd c2 <= snd c3)%nat.
Proof.
  intros Htable.
  set (week_ago := clock (ticks w) - timedelta_days 7).
  destruct (returns_send_weekly_digest_loop week_ago before (0%nat, 0%nat)
              (set_ticks w (S (ticks w)))) as (c1 & w1 & E1).
  destruct (returns_send_weekly_digest_body week_ago c1 s w1)
    as (c2 & w2 & E2).
  destruct (returns_send_weekly_digest_loop week_ago after c2 w2)
    as (c3 & w3 & E3).
  exists c1, w1, c2, w2, c3, w3.
  split; [exact E1 |]. split; [exact E2 |]. split; [exact E3 |].
  split.
  { apply EmailService_send_weekly_digest_eq. rewrite Htable.
    fold week_ago.
    rewrite (send_weekly_digest_loop_app _ _ _ _ _ _ _ _ _ _ E1 E2).
    exact E3. }
  apply (send_weekly_digest_loop_counts _ _ _ _ _ _ E3).
Qed.

(** C10.  A run over the table [before ++ s :: after].  The run is the
    loop over [before], the body on [s] and the loop over [after], each
    of which returns; it returns the counters with [total] their sum.
    If [s] is due and has articles but a template raises or the
    transport refuses the digest, only the error counter grows, nothing
    is written for [s] (its cursor stays) and nothing is sent for it;
    the subscriptions in [after] are processed all the same and the
    error stays counted in the result. *)
Theorem weekly_digest_failure_is_isolated
  (before : list Subscription) (s : Subscription) (after : list Subscription)
  (w : World) :
  subscriptions (db w) = before ++ s :: after ->
  exists c1 w1 c2 w2 c3 w3,
    send_weekly_digest_loop (clock (ticks w) - timedelta_days 7)
      (0%nat, 0%nat) before (set_ticks w (S (ticks w))) = (Ok c1, w1)
    /\ send_weekly_digest_body (clock (ticks w) - timedelta_days 7) c1 s w1
       = (Ok c2, w2)
    /\ send_weekly_digest_loop (clock (ticks w) - timedelta_days 7)
         c2 after w2 = (Ok c3, w3)
    /\ EmailService_send_weekly_digest w
       = (Ok (mkDigestResult (fst c3) (snd c3) (fst c3 + snd c3)), w3)
    /\ (snd c2 <= snd c3)%nat
    /\ (digest_due_at s w1 = true ->
        weekly_articles (subscription_category s)
          (clock (ticks w) - timedelta_days 7) (db w1) <> [] ->
        delivery_failed
          (digest_delivery s
             (weekly_articles (subscription_category s)
                (clock (ticks w) - timedelta_days 7) (db w1))
             (due_check_world s w1)) = true ->
        c2 = (fst c1, S (snd c1))
        /\ db w2 = db w1
        /\ outbox w2 = outbox w1).
Proof.
  intros Htable.
  destruct (EmailService_send_weekly_digest_parts before s after w Htable)
    as (c1 & w1 & c2 & w2 & c3 & w3 & E1 & E2 & E3 & Erun & Hle).
  exists c1, w1, c2, w2, c3, w3.
  split; [exact E1 |]. split; [exact E2 |]. split; [exact E3 |].
  split; [exact Erun |]. split; [exact Hle |].
  intros Hdue Hposts Hfail.
  destruct (weekly_articles (subscription_category s)
              (clock (ticks w) - timedelta_days 7) (db w1))
    as [| p ps] eqn:Hw; [contradiction |].
  destruct (send_weekly_digest_body_failed _ c1 _ _ _ _ Hdue Hw Hfail)
    as (w' & E & Hdb & Hout & _).
  rewrite E in E2. inversion E2; subst. repeat split; assumption.
Qed.

(** ** Mail failures and the job handlers *)

Lemma returns_Post__send_single_notification self subscriber category :
  returns (Post__send_single_notification self subscriber category).
Proof. apply returns_try_except. intros _. apply returns_ret. Qed.

#[local] Hint Resolve returns_Post__send_single_notification : returns.

Lemma returns_Post_save_persisted self k :
  pk self = Some k -> returns (Post_save self).
Proof.
  intros Hpk. unfold Post_save, Post_clean. rewrite Hpk, andb_false_r.
  returns_steps.
Qed.

Lemma returns_Post_send_notifications_to_subscribers self k :
  pk self = Some k -> returns (Post_send_notifications_to_subscribers self).
Proof.
  intros Hpk. unfold Post_send_notifications_to_subscribers,
    Post_categories_all, Category_subscribers_all.
  returns_steps.
  apply (returns_Post_save_persisted _ k). exact Hpk.
Qed.

Lemma returns_EmailService_send_immediate_article_notification post :
  returns (EmailService_send_immediate_article_notification post).
Proof.
  unfold EmailService_send_immediate_article_notification,
    Post_categories_all, Category_subscribers_all.
  returns_steps.
Qed.

Lemma find_some_pk ps k p :
  find (fun p => option_Z_eqb (pk p) (Some k)) ps = Some p -> pk p = Some k.
Proof.
  intros H. apply find_some in H. destruct H as [_ H].
  apply option_Z_eqb_eq. exact H.
Qed.

(** Outside the first three hours of the local day the check is the
    one the rule describes: with the clock at [now], a new NEWS post
    passes exactly when its author has fewer than three NEWS posts
    since the start of the local day, and the refusal reports that
    count. *)
Lemma Post_clean_after_three_local (now : datetime) (self : Post) (w : World) :
  (forall i, clock i = now) ->
  now mod MICROSECONDS_PER_DAY < 21 * MICROSECONDS_PER_HOUR ->
  post_type self = NEWS -> pk self = None ->
  Post_clean self w =
    if (news_count_since (author self) (start_of_local_day now) (db w) <? 3)%nat
    then (Ok tt, set_ticks w (S (ticks w)))
    else (Raise (ValidationError
                   (news_count_since (author self) (start_of_local_day now)
                                     (db w))),
          set_ticks w (S (S (ticks w)))).
Proof.
  intros Hclock Hday Ht Hpk.
  rewrite (Post_clean_new_news _ _ Ht Hpk), !Hclock.
  rewrite (proj1 (today_start_vs_local_day now) Hday). reflexivity.
Qed.

(** ** The sent flag on the NEWS path *)

Lemma keeps_db_ret {A} (a : A) : keeps_db (ret a).
Proof. intros w r w' H. inversion H. reflexivity. Qed.

Lemma keeps_db_gets {A} (f : World -> A) : keeps_db (gets f).
Proof. intros w r w' H. inversion H. reflexivity. Qed.

Lemma keeps_db_bind {A B} (m : M A) (k : A -> M B) :
  keeps_db m -> (forall a, keeps_db (k a)) -> keeps_db (bind m k).
Proof.
  intros Hm Hk w r w' H. unfold bind in H.
  destruct (m w) as [[a | e] w1] eqn:E.
  - rewrite (Hk a _ _ _ H). apply (Hm _ _ _ E).
  - inversion H; subst. apply (Hm _ _ _ E).
Qed.

Lemma keeps_db_try_except {A} (body : M A) handler :
  keeps_db body -> (forall e, keeps_db (handler e)) ->
  keeps_db (try_except body handler).
Proof.
  intros Hb Hh w r w' H. unfold try_except in H.
  destruct (body w) as [[a | e] w1] eqn:E.
  - inversion H; subst. apply (Hb _ _ _ E).
  - rewrite (Hh e _ _ _ H). apply (Hb _ _ _ E).
Qed.

Lemma keeps_db_for_each {A} (l : list A) (body : A -> M unit) :
  (forall x, keeps_db (body x)) -> keeps_db (for_each l body).
Proof.
  intros Hb. induction l as [| x rest IH]; simpl.
  - apply keeps_db_ret.
  - apply keeps_db_bind; [apply Hb | intros _; exact IH].
Qed.

Lemma keeps_db_render_to_string name ctx : keeps_db (render_to_string name ctx).
Proof.
  unfold render_to_string. destruct (template name ctx).
  - apply keeps_db_ret.
  - intros w r w' H. inversion H. reflexivity.
Qed.

Lemma keeps_db_send_mail m : keeps_db (send_mail m).
Proof.
  intros w r w' H. unfold send_mail in H.
  rewrite EmailMessage_send_eq in H.
  destruct (message_delivery m); inversion H; reflexivity.
Qed.

Lemma keeps_db_Post__send_single_notification self subscriber category :
  keeps_db (Post__send_single_notification self subscriber category).
Proof.
  unfold Post__send_single_notification.
  apply keeps_db_try_except; [| intros _; apply keeps_db_ret].
  destruct (PostType_eqb (post_type self) NEWS);
    (apply keeps_db_bind; [apply keeps_db_render_to_string | intros ?];
     apply keeps_db_bind; [apply keeps_db_render_to_string | intros ?];
     apply keeps_db_bind; [apply keeps_db_send_mail | intros ?];
     apply keeps_db_ret).
Qed.

Lemma find_map_replace (ps : list Post) (k : Z) (obj : Post) :
  pk obj = Some k ->
  existsb (fun p => option_Z_eqb (pk p) (Some k)) ps = true ->
  find (fun p => option_Z_eqb (pk p) (Some k))
       (map (fun p => if option_Z_eqb (pk p) (Some k) then obj else p) ps)
  = Some obj.
Proof.
  intros Hobj. induction ps as [| p rest IH]; simpl; [discriminate |].
  destruct (option_Z_eqb (pk p) (Some k)) eqn:E; simpl.
  - intros _. rewrite Hobj. simpl. rewrite Z.eqb_refl. reflexivity.
  - intros H. rewrite E. apply IH. exact H.
Qed.

(** On the NEWS path the flag works as a guard: a post whose flag is
    set is left alone, and a run on a post whose flag is clear stores
    the flag, so that the next run sends nothing. *)
Lemma news_dispatch_is_guarded_by_flag (post_id : Z) (post : Post) (w : World) :
  Post_objects_get (Some post_id) w = (Ok post, w) ->
  post_type post = NEWS ->
  (notifications_sent post = true ->
   send_immediate_notification_task post_id w = (Ok (title post), w))
  /\ (notifications_sent post = false ->
      exists post' w',
        send_immediate_notification_task post_id w = (Ok (title post), w')
        /\ Post_objects_get (Some post_id) w' = (Ok post', w')
        /\ notifications_sent post' = true
        /\ title post' = title post
        /\ send_immediate_notification_task post_id w'
           = (Ok (title post), w')).
Proof.
  intros Hget Hnews.
  assert (Hguard : forall p w0,
            Post_objects_get (Some post_id) w0 = (Ok p, w0) ->
            post_type p = NEWS -> notifications_sent p = true ->
            send_immediate_notification_task post_id w0 = (Ok (title p), w0)).
  { intros p w0 Hg Hn Hs. unfold send_immediate_notification_task, try_except.
    rewrite (bind_Ok _ _ _ _ _ Hg). rewrite Hn. simpl PostType_eqb. cbv iota.
    unfold EmailService_send_new_post_notification,
      Post_send_notifications_to_subscribers.
    rewrite Hs. reflexivity. }
  split; [apply (Hguard _ _ Hget Hnews) |].
  intros Hflag.
  assert (Hpk : pk post = Some post_id /\
                existsb (fun p => option_Z_eqb (pk p) (Some post_id))
                        (posts (db w)) = true).
  { unfold Post_objects_get, bind, gets in Hget.
    destruct (find _ (posts (db w))) as [p |] eqn:Hfind; [| discriminate].
    inversion Hget; subst p. split; [apply (find_some_pk _ _ _ Hfind) |].
    apply existsb_exists. apply find_some in Hfind. exists post. exact Hfind. }
  destruct Hpk as [Hpk Hex].
  set (cats := map pc_category
                 (filter (fun pc => option_Z_eqb (Some (pc_post pc)) (pk post))
                         (post_categories (db w)))).
  set (loops :=
         for_each cats (fun category =>
           bind (Category_subscribers_all category) (fun subscribers =>
             for_each subscribers (fun subscriber =>
               Post__send_single_notification post subscriber category)))).
  assert (Hloops_keep : keeps_db loops).
  { apply keeps_db_for_each. intros category.
    apply keeps_db_bind; [apply keeps_db_gets | intros subs].
    apply keeps_db_for_each. intros subscriber.
    apply keeps_db_Post__send_single_notification. }
  assert (Hloops_ret : returns loops).
  { apply returns_for_each. intros category.
    apply returns_bind; [apply returns_gets | intros subs].
    apply returns_for_each. intros subscriber.
    apply returns_Post__send_single_notification. }
  destruct (Hloops_ret w) as (u & w1 & Eloops).
  pose proof (Hloops_keep _ _ _ Eloops) as Hdb1.
  set (flagged := Post_set_notifications_sent post true).
  set (obj := Post_set_updated_at flagged (clock (ticks w1))).
  set (w2 := set_db (set_ticks w1 (S (ticks w1)))
               (set_posts (db w1)
                  (map (fun p => if option_Z_eqb (pk p) (Some post_id)
                                 then obj else p)
                       (posts (db w1))))).
  assert (Esave : Post_save flagged w1 = (Ok obj, w2)).
  { assert (Hpkf : pk flagged = Some post_id) by exact Hpk.
    unfold Post_save, Post_clean. rewrite Hpkf, andb_false_r.
    unfold bind at 1. unfold ret at 1.
    unfold Model_save_Post. rewrite Hpkf.
    unfold bind at 1. unfold timezone_now at 1.
    unfold bind at 1. unfold gets at 1.
    change (db (set_ticks w1 (S (ticks w1)))) with (db w1).
    pose proof Hex as Hex1. rewrite <- Hdb1 in Hex1. rewrite Hex1.
    reflexivity. }
  assert (Esend : Post_send_notifications_to_subscribers post w = (Ok tt, w2)).
  { unfold Post_send_notifications_to_subscribers. rewrite Hflag.
    assert (Ecats : Post_categories_all post w = (Ok cats, w)) by reflexivity.
    rewrite (bind_Ok _ _ _ _ _ Ecats).
    fold loops. fold flagged.
    rewrite (bind_Ok _ _ _ _ _ Eloops).
    rewrite (bind_Ok _ _ _ _ _ Esave). reflexivity. }
  assert (Erun : send_immediate_notification_task post_id w
                 = (Ok (title post), w2)).
  { unfold send_immediate_notification_task, try_except.
    rewrite (bind_Ok _ _ _ _ _ Hget). rewrite Hnews. simpl PostType_eqb.
    cbv iota. unfold EmailService_send_new_post_notification.
    rewrite (bind_Ok _ _ _ _ _ Esend). reflexivity. }
  assert (Hget2 : Post_objects_get (Some post_id) w2 = (Ok obj, w2)).
  { unfold Post_objects_get, bind, gets.
    change (posts (db w2))
      with (map (fun p => if option_Z_eqb (pk p) (Some post_id)
                          then obj else p)
                (posts (db w1))).
    rewrite find_map_replace; [reflexivity | exact Hpk |].
    rewrite Hdb1. exact Hex. }
  exists obj, w2. split; [exact Erun |]. split; [exact Hget2 |].
  split; [reflexivity |]. split; [reflexivity |].
  apply (Hguard obj w2 Hget2); [exact Hnews | reflexivity].
Qed.

(** ** Jobs and transactions *)

(** Saving a new post inside an atomic block hands the notification
    job to the broker at once, while the transaction is still open. *)
Lemma Post_save_submits_inside_transaction
  (self : Post) (w : World) (snapshot : DB) (hooks : list Hook) :
  txn w = Some (snapshot, hooks) ->
  post_type self = ARTICLE ->
  pk self = None ->
  exists saved w' hooks',
    Post_save self w = (Ok saved, w')
    /\ pk saved = Some (next_pk (db w))
    /\ In saved (posts (db w'))
    /\ queue w' = queue w ++ [send_immediate_notification_job (next_pk (db w))]
    /\ txn w' = Some (snapshot, hooks').
Proof.
  intros Htxn Htype Hpk.
  unfold Post_save. rewrite (bind_Ok _ _ _ _ _ (Post_clean_not_news _ _ Htype)).
  unfold Model_save_Post. rewrite Hpk.
  unfold bind at 1. unfold timezone_now at 1.
  unfold bind at 1. unfold timezone_now at 1.
  unfold bind at 1. unfold fresh_pk at 1.
  unfold bind at 1. unfold modify_db at 1, modify at 1.
  unfold post_save_Post, handle_post_save, notify_subscribers_on_new_post.
  unfold Post_categories_exists, Post_categories_all.
  unfold bind, gets, ret, transaction_on_commit, for_each, cache_delete,
    delay, modify, bind, ret.
  cbn.
  destruct (map pc_category _); cbn.
  - eexists _, _, _. split; [reflexivity |]. cbn.
    split; [reflexivity |].
    split; [apply in_or_app; right; left; reflexivity |].
    split; [reflexivity | exact Htxn].
  - rewrite Htxn. cbn.
    eexists _, _, _. split; [reflexivity |]. cbn.
    split; [reflexivity |].
    split; [apply in_or_app; right; left; reflexivity |].
    split; reflexivity.
Qed.

(** * More properties *)

(** ** Components of the world a computation leaves alone *)

Lemma keeps_ret {A B} (field : World -> B) (a : A) : keeps field (ret a).
Proof. intros w r w' H. inversion H. reflexivity. Qed.

Lemma keeps_raise {A B} (field : World -> B) e : keeps field (@raise A e).
Proof. intros w r w' H. inversion H. reflexivity. Qed.

Lemma keeps_gets {A B} (field : World -> B) (f : World -> A) :
  keeps field (gets f).
Proof. intros w r w' H. inversion H. reflexivity. Qed.

Lemma keeps_modify {B} (field : World -> B) f :
  (forall w, field (f w) = field w) -> keeps field (modify f).
Proof. intros Hf w r w' H. inversion H. apply Hf. Qed.

Lemma keeps_bind {A B C} (field : World -> C) (m : M A) (k : A -> M B) :
  keeps field m -> (forall a, keeps field (k a)) -> keeps field (bind m k).
Proof.
  intros Hm Hk w r w' H. unfold bind in H.
  destruct (m w) as [[a | e] w1] eqn:E.
  - rewrite (Hk a _ _ _ H). apply (Hm _ _ _ E).
  - inversion H; subst. apply (Hm _ _ _ E).
Qed.

Lemma keeps_try_except {A C} (field : World -> C) (body : M A) handler :
  keeps field body -> (forall e, keeps field (handler e)) ->
  keeps field (try_except body handler).
Proof.
  intros Hb Hh w r w' H. unfold try_except in H.
  destruct (body w) as [[a | e] w1] eqn:E.
  - inversion H; subst. apply (Hb _ _ _ E).
  - rewrite (Hh e _ _ _ H). apply (Hb _ _ _ E).
Qed.

Lemma keeps_for_each {A C} (field : World -> C) (l : list A) body :
  (forall x, keeps field (body x)) -> keeps field (for_each l body).
Proof.
  intros Hb. induction l as [| x rest IH]; simpl.
  - apply keeps_ret.
  - apply keeps_bind; [apply Hb | intros _; exact IH].
Qed.

Lemma keeps_timezone_now {B} (field : World -> B) :
  (forall w n, field (set_ticks w n) = field w) -> keeps field timezone_now.
Proof. intros Hf w r w' H. inversion H. apply Hf. Qed.

Lemma keeps_delay {B} (field : World -> B) j :
  (forall w q, field (set_queue w q) = field w) -> keeps field (delay j).
Proof. intros Hf. apply keeps_modify. intros w. apply Hf. Qed.

Lemma keeps_cache_delete {B} (field : World -> B) k :
  (forall w c, field (set_cache w c) = field w) ->
  keeps field (cache_delete k).
Proof. intros Hf. apply keeps_modify. intros w. apply Hf. Qed.

Lemma keeps_Post_objects_get {B} (field : World -> B) id :
  keeps field (Post_objects_get id).
Proof.
  unfold Post_objects_get. destruct id as [k |]; [| apply keeps_raise].
  apply keeps_bind; [apply keeps_gets | intros ps].
  destruct (find _ ps); [apply keeps_ret | apply keeps_raise].
Qed.

Lemma keeps_process_post_notifications {B} (field : World -> B) post :
  (forall w q, field (set_queue w q) = field w) ->
  keeps field (process_post_notifications post).
Proof.
  intros Hq. unfold process_post_notifications.
  apply keeps_try_except; [| intros _; apply keeps_ret].
  apply keeps_bind; [apply keeps_Post_objects_get | intros p].
  destruct (pk p); [apply keeps_delay; exact Hq | apply keeps_ret].
Qed.

Lemma keeps_transaction_on_commit {B} (field : World -> B) h :
  (forall w q, field (set_queue w q) = field w) ->
  (forall w t, field (set_txn w t) = field w) ->
  keeps field (transaction_on_commit h).
Proof.
  intros Hq Ht w r w' H. unfold transaction_on_commit in H.
  destruct (txn w) as [[snapshot hooks] |].
  - inversion H. apply Ht.
  - destruct h. apply (keeps_process_post_notifications field _ Hq _ _ _ H).
Qed.

Lemma keeps_post_save_Post {B} (field : World -> B) instance created :
  (forall w q, field (set_queue w q) = field w) ->
  (forall w t, field (set_txn w t) = field w) ->
  (forall w c, field (set_cache w c) = field w) ->
  keeps field (post_save_Post instance created).
Proof.
  intros Hq Ht Hc.
  unfold post_save_Post, handle_post_save, notify_subscribers_on_new_post,
    Post_categories_exists, Post_categories_all.
  destruct created.
  - apply keeps_bind.
    + apply keeps_bind.
      * apply keeps_bind.
        { apply keeps_bind; [apply keeps_gets | intros; apply keeps_ret]. }
        intros b. destruct (true && b).
        -- apply keeps_transaction_on_commit; assumption.
        -- apply keeps_ret.
      * intros _. apply keeps_for_each. intros k.
        apply keeps_cache_delete. exact Hc.
    + intros _. destruct (pk instance);
        [apply keeps_delay; exact Hq | apply keeps_ret].
  - apply keeps_bind; intros; apply keeps_ret.
Qed.

(** ** Saving a post *)

(** The row [save] writes for a new post from world [w]. *)
Lemma Model_save_Post_new (self : Post) (w : World) :
  pk self = None ->
  exists w',
    Model_save_Post self w
    = (Ok (Post_set_pk
             (Post_set_updated_at
                (Post_set_created_at self (clock (ticks w)))
                (clock (S (ticks w))))
             (Some (next_pk (db w)))), w')
    /\ db w' = set_posts (set_next_pk (db w) (next_pk (db w) + 1))
                 (posts (db w) ++
                  [Post_set_pk
                     (Post_set_updated_at
                        (Post_set_created_at self (clock (ticks w)))
                        (clock (S (ticks w))))
                     (Some (next_pk (db w)))])
    /\ outbox w' = outbox w
    /\ ticks w' = S (S (ticks w)).
Proof.
  intros Hpk. unfold Model_save_Post. rewrite Hpk.
  unfold bind at 1. unfold timezone_now at 1.
  unfold bind at 1. unfold timezone_now at 1.
  unfold bind at 1. unfold fresh_pk at 1.
  unfold bind at 1. unfold modify_db at 1, modify at 1.
  unfold bind at 1.
  match goal with
  | |- context [post_save_Post ?obj true ?w0] =>
      destruct (returns_post_save_Post obj true w0) as (u & w' & E);
      pose proof (keeps_post_save_Post db obj true
                    ltac:(reflexivity) ltac:(reflexivity) ltac:(reflexivity)
                    _ _ _ E) as Hdb;
      pose proof (keeps_post_save_Post outbox obj true
                    ltac:(reflexivity) ltac:(reflexivity) ltac:(reflexivity)
                    _ _ _ E) as Hout;
      pose proof (keeps_post_save_Post ticks obj true
                    ltac:(reflexivity) ltac:(reflexivity) ltac:(reflexivity)
                    _ _ _ E) as Hticks
  end.
  exists w'. rewrite E. unfold ret.
  split; [reflexivity |]. split; [exact Hdb |]. split; [exact Hout | exact Hticks].
Qed.

(** What [save] does to a stored post: the row is overwritten with the
    object, [updated_at] is set, nothing else changes. *)
Lemma Post_save_stored (self : Post) (k : Z) (w : World) :
  pk self = Some k ->
  existsb (fun p => option_Z_eqb (pk p) (Some k)) (posts (db w)) = true ->
  Post_save self w
  = (Ok (Post_set_updated_at self (clock (ticks w))),
     set_db (set_ticks w (S (ticks w)))
       (set_posts (db w)
          (map (fun p => if option_Z_eqb (pk p) (Some k)
                         then Post_set_updated_at self (clock (ticks w))
                         else p)
               (posts (db w))))).
Proof.
  intros Hpk Hex.
  unfold Post_save, Post_clean. rewrite Hpk, andb_false_r.
  unfold bind at 1. unfold ret at 1.
  unfold Model_save_Post. rewrite Hpk.
  unfold bind at 1. unfold timezone_now at 1.
  unfold bind at 1. unfold gets at 1.
  change (db (set_ticks w (S (ticks w)))) with (db w).
  rewrite Hex. reflexivity.
Qed.


(** ** The preview of a post *)

Lemma py_len_append (s t : string) :
  py_len (String.append s t) = (py_len s + py_len t)%nat.
Proof.
  induction s as [| c s IH]; simpl; [reflexivity |].
  destruct (is_continuation_byte c); rewrite IH; reflexivity.
Qed.

Lemma py_len_prefix (s : string) :
  forall n, py_len (py_prefix n s) = Nat.min n (py_len s).
Proof.
  induction s as [| c s IH]; intros n; simpl.
  - rewrite Nat.min_0_r. reflexivity.
  - destruct (is_continuation_byte c) eqn:E; simpl.
    + rewrite E. apply IH.
    + destruct n as [| m]; simpl; [reflexivity |].
      rewrite E, IH. reflexivity.
Qed.

Lemma py_prefix_all (s : string) :
  forall n, (py_len s <= n)%nat -> py_prefix n s = s.
Proof.
  induction s as [| c s IH]; intros n H; simpl in *; [reflexivity |].
  destruct (is_continuation_byte c).
  - rewrite IH; [reflexivity | exact H].
  - destruct n as [| m]; [lia |]. rewrite IH; [reflexivity | lia].
Qed.

Lemma py_prefix_0_character (t : string) :
  match t with
  | EmptyString => True
  | String c _ => is_continuation_byte c = false
  end ->
  py_prefix 0 t = EmptyString.
Proof. destruct t as [| c t]; simpl; [reflexivity |]. intros ->. reflexivity. Qed.

(** Cutting [s[:n] + t] at [n] gives [s[:n]] back, when [s] has at
    least [n] characters and [t] does not start inside a character. *)
Lemma py_prefix_append (s t : string) :
  match t with
  | EmptyString => True
  | String c _ => is_continuation_byte c = false
  end ->
  forall n, (n <= py_len s)%nat ->
            py_prefix n (String.append (py_prefix n s) t) = py_prefix n s.
Proof.
  intros Ht. induction s as [| c s IH]; intros n H; simpl in *.
  - assert (n = 0%nat) by lia. subst n. apply py_prefix_0_character. exact Ht.
  - destruct (is_continuation_byte c) eqn:E.
    + simpl. rewrite E, IH; [reflexivity | exact H].
    + destruct n as [| m]; simpl.
      * apply py_prefix_0_character. exact Ht.
      * rewrite E, IH; [reflexivity | lia].
Qed.

(** X1.  Counting characters as Python does: a preview is never longer
    than 127 characters; a content of at most 124 characters is its own
    preview; a longer content gives a preview of exactly 127
    characters; and in every case the preview and the content agree on
    their first 124 characters. *)
Theorem Post_preview_bounds (self : Post) :
  (py_len (Post_preview self) <= 127)%nat
  /\ ((py_len (content self) <= 124)%nat ->
      Post_preview self = content self)
  /\ ((124 < py_len (content self))%nat ->
      py_len (Post_preview self) = 127%nat)
  /\ py_prefix 124 (Post_preview self) = py_prefix 124 (content self).
Proof.
  unfold Post_preview.
  destruct (Nat.ltb_spec 124 (py_len (content self))) as [Hlong | Hshort].
  - assert (Hlen : py_len (String.append (py_prefix 124 (content self)) "...")
                   = 127%nat).
    { rewrite py_len_append, py_len_prefix.
      change (py_len "...") with 3%nat. lia. }
    split; [lia |]. split; [lia |]. split; [intros _; exact Hlen |].
    apply py_prefix_append; [reflexivity | lia].
  - split; [lia |]. split; [reflexivity |]. split; [lia | reflexivity].
Qed.

(** ** Likes and dislikes *)

Lemma existsb_map_replace (ps : list Post) (k : Z) (obj : Post) :
  pk obj = Some k ->
  existsb (fun p => option_Z_eqb (pk p) (Some k)) ps = true ->
  existsb (fun p => option_Z_eqb (pk p) (Some k))
          (map (fun p => if option_Z_eqb (pk p) (Some k) then obj else p) ps)
  = true.
Proof.
  intros Hobj Hex. apply existsb_exists. exists obj.
  pose proof (find_map_replace ps k obj Hobj Hex) as Hfind.
  apply find_some in Hfind. exact Hfind.
Qed.

Lemma fits_integer_column_iff (n : Z) :
  fits_integer_column n = true
  <-> - 9223372036854775808 <= n <= 9223372036854775807.
Proof.
  unfold fits_integer_column, INTEGER_MIN, INTEGER_MAX.
  change (- 2 ^ 63) with (- 9223372036854775808).
  change (2 ^ 63 - 1) with 9223372036854775807.
  rewrite andb_true_iff, !Z.leb_le. reflexivity.
Qed.

(** A value the column can hold is saved as by [save] itself. *)
Lemma Post_save_rating_fits (self : Post) (w : World) :
  fits_integer_column (rating self) = true ->
  Post_save_rating self w = Post_save self w.
Proof.
  intros Hfits. unfold Post_save_rating, Post_save. rewrite Hfits.
  reflexivity.
Qed.

(** A value the column cannot hold, on a post with a primary key. *)
Lemma Post_save_rating_overflow (self : Post) (k : Z) (w : World) :
  pk self = Some k ->
  fits_integer_column (rating self) = false ->
  Post_save_rating self w
  = (Raise OverflowError, set_ticks w (S (ticks w))).
Proof.
  intros Hpk Hfits. unfold Post_save_rating, Post_clean.
  rewrite Hpk, andb_false_r, Hfits. reflexivity.
Qed.

(** X2.  A post that is the stored row, with a rating the column can
    hold.  Below the upper bound of the column, [like] raises the
    stored rating by one and [dislike] after it brings it back: the
    stored post is then what it was, except for [updated_at], and
    neither queues a job nor sends mail, whatever the type of the post.
    At the upper bound [like], and at the lower bound [dislike], raises
    [OverflowError] and writes nothing. *)
Theorem Post_like_then_dislike (self : Post) (k : Z) (w : World) :
  Post_objects_get (Some k) w = (Ok self, w) ->
  fits_integer_column (rating self) = true ->
  (rating self < INTEGER_MAX ->
   exists liked w1 restored w2,
     Post_like self w = (Ok liked, w1)
     /\ Post_objects_get (Some k) w1 = (Ok liked, w1)
     /\ rating liked = rating self + 1
     /\ Post_dislike liked w1 = (Ok restored, w2)
     /\ Post_objects_get (Some k) w2 = (Ok restored, w2)
     /\ Post_set_updated_at restored (updated_at self) = self
     /\ queue w2 = queue w
     /\ outbox w2 = outbox w)
  /\ (rating self = INTEGER_MAX ->
      Post_like self w = (Raise OverflowError, set_ticks w (S (ticks w))))
  /\ (rating self = INTEGER_MIN ->
      Post_dislike self w = (Raise OverflowError, set_ticks w (S (ticks w)))).
Proof.
  intros Hget Hfits.
  assert (Hstored : pk self = Some k /\
                    existsb (fun p => option_Z_eqb (pk p) (Some k))
                            (posts (db w)) = true).
  { unfold Post_objects_get, bind, gets in Hget.
    destruct (find _ (posts (db w))) as [p |] eqn:Hfind; [| discriminate].
    inversion Hget; subst p. split; [apply (find_some_pk _ _ _ Hfind) |].
    apply existsb_exists. apply find_some in Hfind. exists self. exact Hfind. }
  destruct Hstored as [Hpk Hex].
  apply fits_integer_column_iff in Hfits.
  split; [| split].
  - intros Hbelow. unfold INTEGER_MAX in Hbelow.
    change (2 ^ 63 - 1) with 9223372036854775807 in Hbelow.
    set (p1 := Post_set_rating self (rating self + 1)).
    set (liked := Post_set_updated_at p1 (clock (ticks w))).
    assert (Hfits1 : fits_integer_column (rating p1) = true).
    { apply fits_integer_column_iff. simpl. lia. }
    set (w1 := set_db (set_ticks w (S (ticks w)))
                 (set_posts (db w)
                    (map (fun p => if option_Z_eqb (pk p) (Some k)
                                   then liked else p)
                         (posts (db w))))).
    assert (E1 : Post_like self w = (Ok liked, w1)).
    { unfold Post_like. fold p1. rewrite (Post_save_rating_fits _ _ Hfits1).
      apply (Post_save_stored p1 k w Hpk Hex). }
    assert (Hex1 : existsb (fun p => option_Z_eqb (pk p) (Some k))
                           (posts (db w1)) = true)
      by (apply existsb_map_replace; [exact Hpk | exact Hex]).
    set (p2 := Post_set_rating liked (rating liked - 1)).
    set (restored := Post_set_updated_at p2 (clock (ticks w1))).
    assert (Hfits2 : fits_integer_column (rating p2) = true).
    { apply fits_integer_column_iff. simpl. lia. }
    set (w2 := set_db (set_ticks w1 (S (ticks w1)))
                 (set_posts (db w1)
                    (map (fun p => if option_Z_eqb (pk p) (Some k)
                                   then restored else p)
                         (posts (db w1))))).
    assert (E2 : Post_dislike liked w1 = (Ok restored, w2)).
    { unfold Post_dislike. fold p2. rewrite (Post_save_rating_fits _ _ Hfits2).
      apply (Post_save_stored p2 k w1 Hpk Hex1). }
    exists liked, w1, restored, w2.
    split; [exact E1 |].
    split.
    { unfold Post_objects_get, bind, gets.
      change (posts (db w1))
        with (map (fun p => if option_Z_eqb (pk p) (Some k) then liked else p)
                  (posts (db w))).
      rewrite find_map_replace; [reflexivity | exact Hpk | exact Hex]. }
    split; [reflexivity |].
    split; [exact E2 |].
    split.
    { unfold Post_objects_get, bind, gets.
      change (posts (db w2))
        with (map (fun p => if option_Z_eqb (pk p) (Some k) then restored else p)
                  (posts (db w1))).
      rewrite find_map_replace; [reflexivity | exact Hpk | exact Hex1]. }
    split.
    { unfold restored, p2, liked, p1, Post_set_updated_at, Post_set_rating.
      simpl. destruct self; simpl. f_equal. lia. }
    split; reflexivity.
  - intros Hmax. unfold INTEGER_MAX in Hmax.
    change (2 ^ 63 - 1) with 9223372036854775807 in Hmax.
    unfold Post_like.
    apply (Post_save_rating_overflow _ k); [exact Hpk |].
    apply not_true_is_false. intros H. apply fits_integer_column_iff in H.
    simpl in H. lia.
  - intros Hmin. unfold INTEGER_MIN in Hmin.
    change (- 2 ^ 63) with (- 9223372036854775808) in Hmin.
    unfold Post_dislike.
    apply (Post_save_rating_overflow _ k); [exact Hpk |].
    apply not_true_is_false. intros H. apply fits_integer_column_iff in H.
    simpl in H. lia.
Qed.

(** ** The daily limit, seen from a successful creation *)

Lemma today_start_le_now (now : datetime) : today_start now <= now.
Proof.
  unfold today_start, make_aware, datetime_combine_min, datetime_date,
    TIME_ZONE_utcoffset, MICROSECONDS_PER_HOUR, MICROSECONDS_PER_DAY.
  pose proof (Z.mul_div_le now 86400000000 ltac:(lia)). lia.
Qed.

(** X3.  With the clock at [now], whenever the creation of a NEWS post
    succeeds, its author has at most three NEWS posts counted from the
    instant the code calls the start of today, the new one included:
    the count grows by exactly one and stays within the limit. *)
Theorem news_count_after_creation
  (now : datetime) (self saved : Post) (w w' : World) :
  (forall i, clock i = now) ->
  post_type self = NEWS ->
  pk self = None ->
  Post_save self w = (Ok saved, w') ->
  news_count_since (author self) (today_start now) (db w')
  = S (news_count_since (author self) (today_start now) (db w))
  /\ (news_count_since (author self) (today_start now) (db w') <= 3)%nat
  /\ created_at saved = now
  /\ In saved (posts (db w')).
Proof.
  intros Hclock Htype Hpk Hsave.
  unfold Post_save in Hsave. unfold bind at 1 in Hsave.
  rewrite (Post_clean_new_news _ _ Htype Hpk) in Hsave.
  rewrite !Hclock in Hsave.
  destruct (Nat.ltb_spec
              (news_count_since (author self) (today_start now) (db w)) 3)
    as [Hlt | Hge]; [| discriminate].
  destruct (Model_save_Post_new self (set_ticks w (S (ticks w))) Hpk)
    as (w2 & E & Hdb & _ & _).
  rewrite E in Hsave. inversion Hsave; subst saved w'. clear Hsave.
  rewrite !Hclock in *.
  assert (Hcount :
            news_count_since (author self) (today_start now) (db w2)
            = S (news_count_since (author self) (today_start now) (db w))).
  { unfold news_count_since. rewrite Hdb. simpl posts.
    rewrite filter_app, length_app. simpl.
    unfold is_news_since at 2. simpl.
    rewrite Z.eqb_refl, Htype. simpl.
    replace (today_start now <=? now) with true
      by (symmetry; apply Z.leb_le; apply today_start_le_now).
    simpl. lia. }
  split; [exact Hcount |]. split; [lia |]. split; [reflexivity |].
  rewrite Hdb. simpl. apply in_or_app. right. left. reflexivity.
Qed.

(** ** The posts of the week *)

Lemma insert_by_created_at_desc_sorted p l :
  StronglySorted (fun a b => created_at b <= created_at a) l ->
  StronglySorted (fun a b => created_at b <= created_at a)
                 (insert_by_created_at_desc p l).
Proof.
  induction l as [| q rest IH]; intros Hs; simpl.
  - constructor; constructor.
  - inversion Hs as [| x l' Hrest Hall]; subst.
    destruct (Z.ltb_spec (created_at q) (created_at p)) as [Hlt | Hge].
    + constructor; [exact Hs |].
      constructor; [lia |].
      rewrite Forall_forall in *. intros r Hr. specialize (Hall r Hr). lia.
    + constructor; [apply IH; exact Hrest |].
      rewrite Forall_forall in *. intros r Hr.
      apply In_insert_by_created_at_desc in Hr. destruct Hr as [-> | Hr].
      * lia.
      * apply Hall. exact Hr.
Qed.

Lemma order_by_created_at_desc_sorted l :
  StronglySorted (fun a b => created_at b <= created_at a)
                 (order_by_created_at_desc l).
Proof.
  induction l as [| p rest IH]; simpl.
  - constructor.
  - apply insert_by_created_at_desc_sorted. exact IH.
Qed.

(** X4.  [Category.get_weekly_posts] returns exactly the ARTICLE posts
    attached to the category and created at or after the reading of
    the clock minus seven days, newest first; it is the list the weekly
    digest of the category shows for the same instant. *)
Theorem Category_get_weekly_posts_exact (self : Category) (w : World) :
  exists l,
    Category_get_weekly_posts self w = (Ok l, set_ticks w (S (ticks w)))
    /\ l = weekly_articles self (clock (ticks w) - timedelta_days 7) (db w)
    /\ (forall p, In p l <->
                  qualifying_article self
                    (clock (ticks w) - timedelta_days 7) (db w) p)
    /\ StronglySorted (fun a b => created_at b <= created_at a) l.
Proof.
  exists (weekly_articles self (clock (ticks w) - timedelta_days 7) (db w)).
  split; [reflexivity |]. split; [reflexivity |]. split.
  - intros p. apply weekly_articles_In.
  - apply order_by_created_at_desc_sorted.
Qed.

(** ** Sweeping expired tokens *)

Lemma filter_nil_forall {A} (f : A -> bool) (l : list A) :
  List.length (filter f l) = 0%nat -> forall x, In x l -> f x = false.
Proof.
  intros H x Hin. destruct (f x) eqn:E; [| reflexivity].
  assert (Hx : In x (filter f l)) by (apply filter_In; auto).
  destruct (filter f l); [contradiction | discriminate].
Qed.

(** X5.  [cleanup_expired_tokens] never raises.  It removes exactly the
    tokens that are not activated and were created more than seven days
    before the reading of the clock: a token stays if and only if it is
    activated or [created_at + 7 days] has not passed.  Posts,
    subscriptions, queue and mail are not touched. *)
Theorem cleanup_expired_tokens_exact (w : World) :
  exists w',
    cleanup_expired_tokens w = (Ok tt, w')
    /\ (forall r, In r (tokens (db w')) <->
                  In r (tokens (db w))
                  /\ (activated r = true
                      \/ clock (ticks w) <= token_created_at r + timedelta_days 7))
    /\ posts (db w') = posts (db w)
    /\ subscriptions (db w') = subscriptions (db w)
    /\ queue w' = queue w
    /\ outbox w' = outbox w.
Proof.
  unfold cleanup_expired_tokens, try_except.
  unfold bind at 1. unfold timezone_now at 1.
  unfold bind at 1. unfold gets at 1.
  set (now := clock (ticks w)).
  set (is_doomed := fun r : ActivationToken =>
         negb (activated r) && (token_created_at r <? now - timedelta_days 7)).
  assert (Hkeep : forall r, negb (is_doomed r) = true <->
                            activated r = true
                            \/ now <= token_created_at r + timedelta_days 7).
  { intros r. unfold is_doomed.
    destruct (activated r); cbn [negb andb].
    - split; [intros _; left; reflexivity | reflexivity].
    - destruct (Z.ltb_spec (token_created_at r) (now - timedelta_days 7));
        cbn [negb].
      + split; [discriminate |]. intros [H' | H']; [discriminate | lia].
      + split; [intros _; right; lia | reflexivity]. }
  change (db (set_ticks w (S (ticks w)))) with (db w).
  destruct (Nat.ltb_spec 0 (List.length (filter is_doomed (tokens (db w)))))
    as [Hsome | Hnone].
  - eexists. split; [reflexivity |]. simpl.
    split; [| repeat split].
    intros r. rewrite filter_In. apply and_iff_compat_l. exact (Hkeep r).
  - eexists. split; [reflexivity |]. simpl.
    split; [| repeat split].
    intros r. split.
    + intros Hin. split; [exact Hin |]. apply (proj1 (Hkeep r)).
      rewrite (filter_nil_forall is_doomed (tokens (db w)) ltac:(lia) r Hin).
      reflexivity.
    + intros [Hin _]. exact Hin.
Qed.

(** ** Creating tokens *)

Lemma filter_nil_of_forall {A} (f : A -> bool) (l : list A) :
  (forall x, In x l -> f x = false) -> filter f l = [].
Proof.
  induction l as [| a rest IH]; simpl; intros H; [reflexivity |].
  rewrite (H a (or_introl eq_refl)). apply IH. intros x Hx. apply H. right.
  exact Hx.
Qed.

Lemma NoDup_snoc {A} (l : list A) (x : A) :
  NoDup l -> ~ In x l -> NoDup (l ++ [x]).
Proof.
  induction l as [| a rest IH]; simpl; intros Hnd Hx.
  - constructor; [intros [] | constructor].
  - inversion Hnd as [| b l' Ha Hrest]; subst. constructor.
    + intros Hin. apply in_app_or in Hin. destruct Hin as [Hin | [-> | []]].
      * contradiction.
      * apply Hx. left. reflexivity.
    + apply IH; [exact Hrest |]. intros Hin. apply Hx. right. exact Hin.
Qed.

(** X6.  [create_token] keeps the token table well-formed: at most one
    row per user and pairwise distinct token strings, whether it
    succeeds or not.  For a user who already has a token it raises
    [IntegrityError] and leaves the database as it was. *)
Theorem ActivationToken_create_token_keeps_uniqueness (user : User) (w : World) :
  one_token_per_user (tokens (db w)) ->
  token_strings_distinct (tokens (db w)) ->
  one_token_per_user (tokens (db (snd (ActivationToken_create_token user w))))
  /\ token_strings_distinct
       (tokens (db (snd (ActivationToken_create_token user w))))
  /\ ((exists r, In r (tokens (db w))
                 /\ user_id (token_user r) = user_id user) ->
      fst (ActivationToken_create_token user w) = Raise IntegrityError
      /\ db (snd (ActivationToken_create_token user w)) = db w).
Proof.
  intros Hone Hdistinct.
  unfold ActivationToken_create_token, bind, get_random_string, timezone_now,
    gets, fresh_pk, modify_db, modify, handle_activation_token_save, ret, raise.
  cbn [db set_rng set_ticks rng ticks].
  destruct (existsb _ (tokens (db w))) eqn:Hex.
  - cbn. split; [exact Hone |]. split; [exact Hdistinct |].
    intros _. split; reflexivity.
  - cbn.
    assert (Hnone : forall r, In r (tokens (db w)) ->
                      user_id (token_user r) <> user_id user
                      /\ token r <> random_string (rng w)).
    { intros r Hin.
      assert (Hr : (user_id (token_user r) =? user_id user)
                   || String.eqb (token r) (random_string (rng w)) = false).
      { destruct ((user_id (token_user r) =? user_id user)
                  || String.eqb (token r) (random_string (rng w))) eqn:E;
          [| reflexivity].
        rewrite <- Hex. symmetry. apply existsb_exists. exists r. auto. }
      apply orb_false_iff in Hr. destruct Hr as [Hu Ht].
      split; [apply Z.eqb_neq; exact Hu | apply String.eqb_neq; exact Ht]. }
    split; [| split].
    + intros u. rewrite filter_app, length_app. simpl.
      destruct (Z.eqb_spec (user_id user) (user_id u)) as [Heq | Hneq]; simpl.
      * assert (Hempty : filter (fun r => user_id (token_user r) =? user_id u)
                                (tokens (db w)) = []).
        { apply filter_nil_of_forall.
          intros r Hin. apply Z.eqb_neq. rewrite <- Heq.
          apply (Hnone r Hin). }
        rewrite Hempty. simpl. lia.
      * specialize (Hone u). lia.
    + unfold token_strings_distinct in *. rewrite map_app. simpl.
      apply NoDup_snoc; [exact Hdistinct |].
      intros Hin. apply in_map_iff in Hin. destruct Hin as (r & Ht & Hr).
      apply (proj2 (Hnone r Hr)). exact Ht.
    + intros (r & Hin & Hu). exfalso. apply (proj1 (Hnone r Hin)). exact Hu.
Qed.

(** ** Resending to a user who has no token *)

(** X7.  A logged-in user without a token row asks for a resend: a
    token is created for them from the next random string and the first
    reading of the clock, whatever happens to the mail; and when the
    welcome mail is built, the user has an address and the transport
    accepts the message, it carries the link of that new token. *)
Theorem resend_activation_email_without_token (request_user : User) (w : World) :
  filter (fun r => user_id (token_user r) =? user_id request_user)
         (tokens (db w)) = [] ->
  (forall r, In r (tokens (db w)) -> token r <> random_string (rng w)) ->
  tokens (db (snd (resend_activation_email request_user w)))
  = tokens (db w)
    ++ [mkActivationToken (Some (next_pk (db w))) request_user
                          (random_string (rng w)) (clock (ticks w)) false]
  /\ forall m,
       welcome_mail_sent request_user
         (mkActivationToken (Some (next_pk (db w))) request_user
                            (random_string (rng w)) (clock (ticks w)) false) m ->
       exists w',
         resend_activation_email request_user w = (Ok redirect_profile, w')
         /\ outbox w' = outbox w ++ [m]
         /\ flash w' = flash w ++ [FlashActivationSent].
Proof.
  intros Hnone Hfresh.
  set (new := mkActivationToken (Some (next_pk (db w))) request_user
                (random_string (rng w)) (clock (ticks w)) false).
  assert (Hget : ActivationToken_objects_get request_user w
                 = (Raise DoesNotExist, w)).
  { unfold ActivationToken_objects_get, bind, gets. rewrite Hnone. reflexivity. }
  assert (Hex : existsb (fun r => (user_id (token_user r) =? user_id request_user)
                                  || String.eqb (token r) (random_string (rng w)))
                        (tokens (db w)) = false).
  { apply not_true_is_false. intros Hex. apply existsb_exists in Hex.
    destruct Hex as (r & Hin & Hr). apply orb_true_iff in Hr.
    destruct Hr as [Hu | Ht].
    - assert (Hr : In r []) by (rewrite <- Hnone; apply filter_In; auto).
      contradiction.
    - apply String.eqb_eq in Ht. exact (Hfresh r Hin Ht). }
  assert (Hcreate : exists w2,
             tokens (db w2) = tokens (db w) ++ [new]
             /\ outbox w2 = outbox w /\ flash w2 = flash w
             /\ forall B (k : ActivationToken -> M B),
                  bind (ActivationToken_create_token request_user) k w
                  = k new w2).
  { unfold ActivationToken_create_token, bind, get_random_string,
      timezone_now, gets, fresh_pk, modify_db, modify,
      handle_activation_token_save, ret.
    cbn [db set_rng set_ticks rng ticks]. rewrite Hex. cbn.
    eexists. split; [| split; [| split]]; [| | | intros B k; reflexivity];
      reflexivity. }
  destruct Hcreate as (w2 & Htoks & Hout & Hflash & Hk).
  destruct (EmailService_send_welcome_email_outcome request_user
              (activation_url_for new) w2)
    as (r & w3 & Esend & Hdb & Hr).
  assert (Hrun : resend_activation_email request_user w
                 = match r with
                   | Ok _ => (Ok redirect_profile,
                              set_flash w3 (flash w3 ++ [FlashActivationSent]))
                   | Raise e => (Raise e, w3)
                   end).
  { unfold resend_activation_email. unfold bind at 1. unfold try_except.
    rewrite (bind_Raise _ _ _ _ _ Hget).
    rewrite Hk. unfold bind at 1. rewrite Esend.
    destruct Hr as [-> | [-> | ->]]; reflexivity. }
  split.
  - rewrite Hrun, <- Htoks, <- Hdb.
    destruct Hr as [-> | [-> | ->]]; reflexivity.
  - intros m Hm.
    rewrite (EmailService_send_welcome_email_ok _ _ _ _ Hm) in Esend.
    inversion Esend; subst r w3. rewrite Hrun.
    eexists. split; [reflexivity |]. simpl. rewrite Hout, Hflash.
    split; reflexivity.
Qed.

(** ** Cache eviction on creation *)

Lemma CacheKey_eqb_eq a b : CacheKey_eqb a b = true <-> a = b.
Proof.
  destruct a as [| | [i |] | | i | i], b as [| | [j |] | | j | j]; simpl;
    try rewrite Z.eqb_eq;
    split; intros H; try discriminate; try congruence; reflexivity.
Qed.

Lemma In_cache_after_delete k k' c :
  In k' (filter (fun x => negb (CacheKey_eqb k x)) c) <-> In k' c /\ k' <> k.
Proof.
  rewrite filter_In. apply and_iff_compat_l.
  rewrite negb_true_iff. split.
  - intros H Heq. subst k'.
    rewrite (proj2 (CacheKey_eqb_eq k k) eq_refl) in H. discriminate.
  - intros H. destruct (CacheKey_eqb k k') eqn:E; [| reflexivity].
    apply CacheKey_eqb_eq in E. congruence.
Qed.

Lemma keeps_cache_Post_clean self : keeps cache (Post_clean self).
Proof.
  unfold Post_clean, Author_can_publish_news, Author_get_news_count_today.
  destruct (_ && _); [| apply keeps_ret].
  assert (Hcount : forall a, keeps cache
            (now <- timezone_now ;;
             ps <- gets (fun w => posts (db w)) ;;
             ret (List.length
                    (filter (is_news_since a
                               (make_aware (datetime_combine_min
                                              (datetime_date now)))) ps)))).
  { intros a. apply keeps_bind; [apply keeps_timezone_now; reflexivity |].
    intros now. apply keeps_bind; [apply keeps_gets | intros; apply keeps_ret]. }
  apply keeps_bind.
  - apply keeps_bind; [apply Hcount | intros; apply keeps_ret].
  - intros b. destruct (negb b); [| apply keeps_ret].
    apply keeps_bind; [apply Hcount | intros; apply keeps_raise].
Qed.

Lemma post_save_Post_created_cache obj w r w' :
  post_save_Post obj true w = (r, w') ->
  forall k, In k (cache w') <-> In k (cache w) /\ ~ In k (post_cache_keys (pk obj)).
Proof.
  unfold post_save_Post, handle_post_save.
  set (A := (has_categories <- Post_categories_exists obj ;;
             if true && has_categories
             then transaction_on_commit (hook_process_post_notifications obj)
             else ret tt)).
  assert (HA_ret : returns A).
  { unfold A, Post_categories_exists, Post_categories_all. returns_steps. }
  assert (HA_keep : keeps cache A).
  { unfold A, Post_categories_exists, Post_categories_all.
    apply keeps_bind.
    - apply keeps_bind; [apply keeps_gets | intros; apply keeps_ret].
    - intros b. destruct (true && b);
        [apply keeps_transaction_on_commit; reflexivity | apply keeps_ret]. }
  intros H k.
  unfold bind at 1 in H. unfold bind at 1 in H.
  destruct (HA_ret w) as (u & wa & EA). rewrite EA in H.
  pose proof (HA_keep _ _ _ EA) as Hca.
  cbn [for_each] in H. unfold bind at 1 2 3 4 in H.
  unfold cache_delete at 1 2 3 4, modify, ret in H.
  match type of H with
  | notify_subscribers_on_new_post _ _ ?wb = _ =>
      assert (Hcb : cache w' = cache wb)
  end.
  { unfold notify_subscribers_on_new_post in H.
    destruct (pk obj); inversion H; reflexivity. }
  rewrite Hcb. cbn [cache set_cache]. rewrite Hca.
  rewrite !In_cache_after_delete. unfold post_cache_keys. simpl In.
  intuition congruence.
Qed.

(** X8.  Creating a post evicts the four cache keys of the listings and
    of the post itself and nothing else: a key is cached after the
    creation if and only if it was cached before and is none of
    [latest_news], [news_list], [post_<pk>] and [categories_list]. *)
Theorem Post_save_evicts_cache (self saved : Post) (w w' : World) :
  pk self = None ->
  Post_save self w = (Ok saved, w') ->
  forall k, In k (cache w') <->
            In k (cache w) /\ ~ In k (post_cache_keys (pk saved)).
Proof.
  intros Hpk Hsave k.
  unfold Post_save in Hsave. unfold bind at 1 in Hsave.
  destruct (Post_clean self w) as [[u | e] w1] eqn:Eclean; [| discriminate].
  pose proof (keeps_cache_Post_clean self _ _ _ Eclean) as Hc1.
  unfold Model_save_Post in Hsave. rewrite Hpk in Hsave.
  unfold bind at 1 in Hsave. unfold timezone_now at 1 in Hsave.
  unfold bind at 1 in Hsave. unfold timezone_now at 1 in Hsave.
  unfold bind at 1 in Hsave. unfold fresh_pk at 1 in Hsave.
  unfold bind at 1 in Hsave. unfold modify_db at 1, modify at 1 in Hsave.
  unfold bind at 1 in Hsave.
  match type of Hsave with
  | context [post_save_Post ?obj true ?w3] =>
      destruct (post_save_Post obj true w3) as [[u' | e'] w4] eqn:Esig;
      [| discriminate];
      pose proof (post_save_Post_created_cache obj w3 _ _ Esig k) as Hcache
  end.
  inversion Hsave; subst saved w'. clear Hsave.
  rewrite Hcache. cbn [cache set_db set_ticks]. rewrite Hc1. reflexivity.
Qed.

(** ** Category changes and the notification job *)

(** X9.  The receiver of [m2m_changed] reacts to [post_add] only.  In
    autocommit mode it re-fetches the post and submits one job when the
    post is stored and nothing when it is not, and it never raises;
    inside an atomic block it only registers the callback and the queue
    stays as it is until the commit. *)
Theorem handle_post_categories_changed_cases
  (instance : Post) (action : string) (w : World) :
  (action <> "post_add"%string ->
   handle_post_categories_changed instance action w = (Ok tt, w))
  /\ (txn w = None ->
      forall k stored,
        pk instance = Some k ->
        find (fun p => option_Z_eqb (pk p) (Some k)) (posts (db w)) = Some stored ->
        handle_post_categories_changed instance "post_add" w
        = (Ok tt, set_queue w (queue w ++ [send_immediate_notification_job k])))
  /\ (txn w = None ->
      Post_objects_get (pk instance) w = (Raise DoesNotExist, w) ->
      handle_post_categories_changed instance "post_add" w = (Ok tt, w))
  /\ (forall snapshot hooks,
        txn w = Some (snapshot, hooks) ->
        handle_post_categories_changed instance "post_add" w
        = (Ok tt,
           set_txn w (Some (snapshot,
                            hooks ++ [hook_process_post_notifications instance])))).
Proof.
  unfold handle_post_categories_changed.
  split; [| split; [| split]].
  - intros Hne. apply String.eqb_neq in Hne. rewrite Hne. reflexivity.
  - intros Htxn k stored Hpk Hfind. rewrite String.eqb_refl.
    unfold transaction_on_commit. rewrite Htxn.
    unfold run_hook, process_post_notifications, try_except.
    assert (Hget : Post_objects_get (pk instance) w = (Ok stored, w)).
    { rewrite Hpk. unfold Post_objects_get, bind, gets. rewrite Hfind.
      reflexivity. }
    rewrite (bind_Ok _ _ _ _ _ Hget).
    rewrite (find_some_pk _ _ _ Hfind). reflexivity.
  - intros Htxn Hget. rewrite String.eqb_refl.
    unfold transaction_on_commit. rewrite Htxn.
    unfold run_hook, process_post_notifications, try_except.
    rewrite (bind_Raise _ _ _ _ _ Hget). reflexivity.
  - intros snapshot hooks Htxn. rewrite String.eqb_refl.
    unfold transaction_on_commit. rewrite Htxn. reflexivity.
Qed.

(** ** The counters of a digest run *)

Lemma Model_save_Subscription_outbox self w :
  exists w', Model_save_Subscription self w = (Ok tt, w')
             /\ outbox w' = outbox w.
Proof.
  unfold Model_save_Subscription, bind, gets.
  destruct (existsb _ (subscriptions (db w))).
  - unfold modify_db, modify, handle_new_subscription, ret.
    eexists. split; reflexivity.
  - destruct (subscription_id self);
      unfold ret, fresh_pk, modify_db, modify, handle_new_subscription,
        bind, cache_delete, modify;
      eexists; split; reflexivity.
Qed.

(** A digest is not handed to the transport only for a subscriber
    without an address. *)
Lemma digest_delivery_no_recipient s new_posts w :
  digest_delivery s new_posts w = no_recipient ->
  email (subscription_user s) = ""%string.
Proof.
  unfold digest_delivery.
  destruct (template "emails/weekly_digest.txt" _); [| discriminate].
  destruct (template "emails/weekly_digest.html" _); [| discriminate].
  rewrite message_delivery_one.
  destruct (String.eqb_spec (email (subscription_user s)) "") as [E | _];
    [intros _; exact E |].
  destruct (transport_up _); discriminate.
Qed.

(** Due, with articles, built and handed over without an exception,
    whether or not [s] is still a row of the table. *)
Lemma send_weekly_digest_body_handed week_ago counts s w p ps :
  digest_due_at s w = true ->
  weekly_articles (subscription_category s) week_ago (db w) = p :: ps ->
  delivery_failed (digest_delivery s (p :: ps) (due_check_world s w)) = false ->
  exists w',
    send_weekly_digest_body week_ago counts s w
    = (Ok (S (fst counts), snd counts), w')
    /\ outbox w'
       = outbox w
         ++ delivered_mail (digest_delivery s (p :: ps) (due_check_world s w)).
Proof.
  intros Hdue Hposts Hsent. unfold send_weekly_digest_body.
  destruct counts as [sc ec].
  rewrite (bind_Ok _ _ _ _ _ (Subscription_needs_weekly_digest_eq s w)).
  rewrite Hdue. unfold try_except. unfold bind at 1. unfold gets at 1.
  rewrite db_due_check_world, Hposts.
  unfold bind at 1. unfold timezone_now at 1.
  unfold bind at 1. unfold timezone_now at 1.
  unfold digest_delivery in Hsent |- *. simpl ticks.
  unfold bind at 1. unfold render_to_string at 1.
  destruct (template "emails/weekly_digest.txt" _) as [text |];
    [| discriminate].
  unfold ret at 1. unfold bind at 1. unfold render_to_string at 1.
  destruct (template "emails/weekly_digest.html" _) as [html |];
    [| discriminate].
  unfold ret at 1. unfold bind at 1. unfold send_mail at 1.
  rewrite EmailMessage_send_eq.
  destruct (message_delivery _) as [m | | m |] eqn:Hmd; try discriminate.
  - pose proof (message_delivery_same _ _ (or_introl Hmd)) as ->.
    unfold bind at 1. unfold timezone_now at 1. unfold bind at 1.
    match goal with
    | |- context [Model_save_Subscription ?s' ?w0] =>
        destruct (Model_save_Subscription_outbox s' w0) as (w' & E & Hout)
    end.
    rewrite E. eexists. split; [reflexivity |].
    rewrite Hout. cbn [outbox set_ticks set_outbox delivered_mail].
    rewrite outbox_due_check_world. reflexivity.
  - unfold bind at 1. unfold timezone_now at 1. unfold bind at 1.
    match goal with
    | |- context [Model_save_Subscription ?s' ?w0] =>
        destruct (Model_save_Subscription_outbox s' w0) as (w' & E & Hout)
    end.
    rewrite E. eexists. split; [reflexivity |].
    rewrite Hout. cbn [outbox set_ticks set_outbox delivered_mail].
    rewrite outbox_due_check_world, app_nil_r. reflexivity.
Qed.

(** The body adds at most one mail to the outbox, and only when it
    counts the subscription as sent; for a subscriber with an address
    it adds one exactly when it counts the subscription as sent. *)
Lemma send_weekly_digest_body_outbox week_ago counts s w :
  exists c' w',
    send_weekly_digest_body week_ago counts s w = (Ok c', w')
    /\ (List.length (outbox w') + fst counts
        <= List.length (outbox w) + fst c')%nat
    /\ (List.length (outbox w) <= List.length (outbox w'))%nat
    /\ (email (subscription_user s) <> ""%string ->
        (List.length (outbox w') + fst counts
         = List.length (outbox w) + fst c')%nat)
    /\ (fst c' + snd c' <= S (fst counts + snd counts))%nat.
Proof.
  destruct (digest_due_at s w) eqn:Hdue.
  - destruct (weekly_articles (subscription_category s) week_ago (db w))
      as [| p ps] eqn:Hposts.
    + rewrite (send_weekly_digest_body_quiet _ _ _ _ Hdue Hposts).
      eexists _, _. split; [reflexivity |].
      rewrite outbox_due_check_world. repeat split; lia.
    + destruct (delivery_failed
                  (digest_delivery s (p :: ps) (due_check_world s w)))
        eqn:Hdel.
      * destruct (send_weekly_digest_body_failed week_ago counts _ _ _ _
                    Hdue Hposts Hdel)
          as (w' & E & _ & Hout & _).
        eexists _, w'. split; [exact E |]. rewrite Hout. simpl.
        repeat split; lia.
      * destruct (send_weekly_digest_body_handed week_ago counts _ _ _ _
                    Hdue Hposts Hdel)
          as (w' & E & Hout).
        eexists _, w'. split; [exact E |]. rewrite Hout, length_app.
        cbn [fst snd].
        destruct (digest_delivery s (p :: ps) (due_check_world s w))
          as [m | | m |] eqn:Hd; try discriminate; simpl.
        -- repeat split; lia.
        -- split; [lia |]. split; [lia |]. split; [| lia].
           intros Haddress. destruct Haddress.
           apply (digest_delivery_no_recipient _ _ _ Hd).
  - rewrite (send_weekly_digest_body_not_due _ _ _ _ Hdue).
    eexists _, _. split; [reflexivity |].
    rewrite outbox_due_check_world. repeat split; lia.
Qed.

Lemma send_weekly_digest_loop_outbox week_ago subs :
  forall counts w,
  exists c' w',
    send_weekly_digest_loop week_ago counts subs w = (Ok c', w')
    /\ (List.length (outbox w') + fst counts
        <= List.length (outbox w) + fst c')%nat
    /\ (List.length (outbox w) <= List.length (outbox w'))%nat
    /\ (Forall (fun s => email (subscription_user s) <> ""%string) subs ->
        (List.length (outbox w') + fst counts
         = List.length (outbox w) + fst c')%nat)
    /\ (fst c' + snd c' <= fst counts + snd counts + List.length subs)%nat.
Proof.
  induction subs as [| s rest IH]; intros counts w; simpl.
  - exists counts, w. split; [reflexivity |]. repeat split; lia.
  - destruct (send_weekly_digest_body_outbox week_ago counts s w)
      as (c1 & w1 & E1 & Ho1 & Hm1 & He1 & Hc1).
    destruct (IH c1 w1) as (c2 & w2 & E2 & Ho2 & Hm2 & He2 & Hc2).
    exists c2, w2. rewrite (bind_Ok _ _ _ _ _ E1).
    split; [exact E2 |]. split; [lia |]. split; [lia |]. split; [| lia].
    intros Hall. inversion Hall as [| x l Hs Hrest]; subst.
    specialize (He1 Hs). specialize (He2 Hrest). lia.
Qed.

(** X10.  A digest run always returns its three counters.  The number
    of mails it adds to the outbox is at most [sent], and exactly
    [sent] when every subscriber of the table has an address: a
    subscription whose subscriber has none is counted as sent although
    nothing is handed to the transport.  [total] is [sent + errors]
    and never exceeds the number of subscriptions. *)
Theorem EmailService_send_weekly_digest_counters (w : World) :
  exists r w',
    EmailService_send_weekly_digest w = (Ok r, w')
    /\ (List.length (outbox w) <= List.length (outbox w')
        <= List.length (outbox w) + sent r)%nat
    /\ (Forall (fun s => email (subscription_user s) <> ""%string)
               (subscriptions (db w)) ->
        List.length (outbox w') = (List.length (outbox w) + sent r)%nat)
    /\ total r = (sent r + errors r)%nat
    /\ (total r <= List.length (subscriptions (db w)))%nat.
Proof.
  destruct (send_weekly_digest_loop_outbox
              (clock (ticks w) - timedelta_days 7) (subscriptions (db w))
              (0%nat, 0%nat) (set_ticks w (S (ticks w))))
    as (c & w' & E & Hout & Hmono & Hexact & Hcount).
  rewrite (EmailService_send_weekly_digest_eq _ _ _ E).
  eexists _, w'. split; [reflexivity |]. simpl in *.
  split; [lia |]. split; [| split; [reflexivity | lia]].
  intros Hall. specialize (Hexact Hall). lia.
Qed.

(** ** The fan-out *)

(** A loop whose body appends to the outbox and to the refused mail
    what [f] and [g] say for the current database, and leaves the
    database alone. *)
Lemma for_each_mail {A} (l : list A) (body : A -> M unit)
  (f g : DB -> A -> list Message) :
  (forall x w, exists w',
      body x w = (Ok tt, w')
      /\ outbox w' = outbox w ++ f (db w) x
      /\ refused w' = refused w ++ g (db w) x
      /\ db w' = db w) ->
  forall w, exists w',
    for_each l body w = (Ok tt, w')
    /\ outbox w' = outbox w ++ flat_map (f (db w)) l
    /\ refused w' = refused w ++ flat_map (g (db w)) l
    /\ db w' = db w.
Proof.
  intros Hbody. induction l as [| x rest IH]; intros w; simpl.
  - exists w. split; [reflexivity |]. rewrite !app_nil_r. repeat split.
  - destruct (Hbody x w) as (w1 & E1 & Ho1 & Hr1 & Hd1).
    destruct (IH w1) as (w2 & E2 & Ho2 & Hr2 & Hd2).
    exists w2. rewrite (bind_Ok _ _ _ _ _ E1).
    split; [exact E2 |].
    rewrite Ho2, Ho1, Hr2, Hr1, Hd2, Hd1, !app_assoc.
    repeat split.
Qed.

(** The two loops of a notification, over the categories of the post
    and the subscribers of each, for a body that makes one attempt. *)
Lemma fan_out_loops (post : Post) (body : User -> Category -> M unit)
  (outcome : User -> Category -> Delivery) :
  (forall subscriber category w, exists w',
      body subscriber category w = (Ok tt, w')
      /\ outbox w' = outbox w ++ delivered_mail (outcome subscriber category)
      /\ refused w' = refused w ++ refused_mail (outcome subscriber category)
      /\ db w' = db w) ->
  forall w, exists w',
    for_each (categories_of post (db w))
      (fun category =>
         subscribers <- Category_subscribers_all category ;;
         for_each subscribers (fun subscriber => body subscriber category)) w
    = (Ok tt, w')
    /\ outbox w'
       = outbox w
         ++ fan_out post (db w)
              (fun subscriber category =>
                 delivered_mail (outcome subscriber category))
    /\ refused w'
       = refused w
         ++ fan_out post (db w)
              (fun subscriber category =>
                 refused_mail (outcome subscriber category))
    /\ db w' = db w.
Proof.
  intros Hbody w. unfold fan_out.
  apply (for_each_mail (categories_of post (db w)) _
           (fun d category =>
              flat_map (fun subscriber =>
                          delivered_mail (outcome subscriber category))
                       (subscribers_of category d))
           (fun d category =>
              flat_map (fun subscriber =>
                          refused_mail (outcome subscriber category))
                       (subscribers_of category d))).
  intros category w0. unfold bind at 1.
  unfold Category_subscribers_all at 1, gets at 1.
  apply (for_each_mail (subscribers_of category (db w0)) _
           (fun _ subscriber => delivered_mail (outcome subscriber category))
           (fun _ subscriber => refused_mail (outcome subscriber category))).
  intros subscriber w00. apply Hbody.
Qed.

Lemma fan_out_ext {A} (post : Post) (d : DB)
  (per per' : User -> Category -> list A) :
  (forall subscriber category, per subscriber category = per' subscriber category) ->
  fan_out post d per = fan_out post d per'.
Proof.
  intros H. unfold fan_out. apply flat_map_ext. intros category.
  apply flat_map_ext. intros subscriber. apply H.
Qed.

(** One attempt of [Post._send_single_notification]. *)
Lemma Post__send_single_notification_mail self subscriber category w :
  exists w',
    Post__send_single_notification self subscriber category w = (Ok tt, w')
    /\ outbox w'
       = outbox w
         ++ delivered_mail (post_notification_delivery self subscriber category)
    /\ refused w'
       = refused w
         ++ refused_mail (post_notification_delivery self subscriber category)
    /\ db w' = db w.
Proof.
  unfold Post__send_single_notification, post_notification_delivery,
    try_except.
  destruct (PostType_eqb (post_type self) NEWS);
    unfold bind, render_to_string;
    (destruct (template _ _) as [text |];
     [| eexists; split; [reflexivity |]; simpl; rewrite !app_nil_r;
        repeat split]);
    unfold ret;
    (destruct (template _ _) as [html |];
     [| eexists; split; [reflexivity |]; simpl; rewrite !app_nil_r;
        repeat split]);
    unfold send_mail; rewrite EmailMessage_send_eq;
    (destruct (message_delivery _) as [m | | m |] eqn:Hmd;
     [ pose proof (message_delivery_same _ _ (or_introl Hmd)) as ->
     |
     | pose proof (message_delivery_same _ _ (or_intror Hmd)) as ->
     | ];
     eexists; (split; [reflexivity |]); simpl; rewrite ?app_nil_r;
     repeat split).
Qed.

(** One attempt of [send_immediate_article_notification]. *)
Lemma article_attempt_mail post subscriber category w :
  exists w',
    (if negb (String.eqb (email subscriber) "") then
       try_except
         (let subject := SubjectNewArticle (category_name category) in
          let context :=
            NotificationContext
              (username subscriber) (title post) (Post_preview post)
              (category_name category) (pk post)
              (username (author_user (author post))) (created_at post)
              (category_id category) in
          text_content <-
            render_to_string "emails/new_article_notification.txt" context ;;
          html_content <-
            render_to_string "emails/new_article_notification.html" context ;;
          send_mail (mkMessage subject text_content [email subscriber]
                               html_content) ;;
          ret tt)
         (fun _ => ret tt)
     else ret tt) w = (Ok tt, w')
    /\ outbox w'
       = outbox w
         ++ delivered_mail (article_notification_delivery post subscriber category)
    /\ refused w'
       = refused w
         ++ refused_mail (article_notification_delivery post subscriber category)
    /\ db w' = db w.
Proof.
  unfold article_notification_delivery, try_except.
  destruct (String.eqb (email subscriber) ""); cbn [negb].
  - eexists; split; [reflexivity |]; simpl; rewrite !app_nil_r;
      repeat split.
  - cbv zeta. unfold bind, render_to_string.
    (destruct (template _ _) as [text |];
     [| eexists; split; [reflexivity |]; simpl; rewrite !app_nil_r;
        repeat split]).
    unfold ret.
    (destruct (template _ _) as [html |];
     [| eexists; split; [reflexivity |]; simpl; rewrite !app_nil_r;
        repeat split]).
    unfold send_mail. rewrite EmailMessage_send_eq.
    destruct (message_delivery _) as [m | | m |] eqn:Hmd;
     [ pose proof (message_delivery_same _ _ (or_introl Hmd)) as ->
     |
     | pose proof (message_delivery_same _ _ (or_intror Hmd)) as ->
     | ];
     eexists; (split; [reflexivity |]); simpl; rewrite ?app_nil_r;
     repeat split.
Qed.

(** What the article path delivers, in the two ways of saying it. *)
Lemma article_notification_delivered_eq post subscriber category :
  delivered_mail (article_notification_delivery post subscriber category)
  = option_to_list (article_notification_delivered post subscriber category).
Proof.
  unfold article_notification_delivery, article_notification_delivered.
  destruct (String.eqb (email subscriber) "") eqn:E; [reflexivity |].
  cbv zeta.
  destruct (template "emails/new_article_notification.txt" _);
    [| reflexivity].
  destruct (template "emails/new_article_notification.html" _);
    [| reflexivity].
  rewrite message_delivery_one, E.
  destruct (transport_up _); reflexivity.
Qed.

Lemma post_notification_delivered_eq self subscriber category :
  delivered_mail (post_notification_delivery self subscriber category)
  = option_to_list (post_notification_delivered self subscriber category).
Proof.
  unfold post_notification_delivered.
  destruct (post_notification_delivery self subscriber category); reflexivity.
Qed.

(** A delivered notification has one address, and it is not empty. *)
Lemma post_notification_delivered_address self subscriber category m :
  post_notification_delivered self subscriber category = Some m ->
  recipient_list m = [email subscriber] /\ email subscriber <> ""%string.
Proof.
  unfold post_notification_delivered, post_notification_delivery.
  destruct (PostType_eqb (post_type self) NEWS); cbv beta iota zeta;
    (destruct (template _ _); [| discriminate]);
    (destruct (template _ _); [| discriminate]);
    rewrite message_delivery_one;
    (destruct (String.eqb_spec (email subscriber) "") as [E | E];
     [discriminate |]);
    (destruct (transport_up _); [| discriminate]);
    intros H; inversion H; subst m; (split; [reflexivity | exact E]).
Qed.

(** The whole of [Post.send_notifications_to_subscribers] on a stored
    post whose flag is clear. *)
Lemma Post_send_notifications_to_subscribers_mail
  (self : Post) (k : Z) (w : World) :
  pk self = Some k ->
  existsb (fun p => option_Z_eqb (pk p) (Some k)) (posts (db w)) = true ->
  notifications_sent self = false ->
  exists w' stored,
    Post_send_notifications_to_subscribers self w = (Ok tt, w')
    /\ outbox w'
       = outbox w
         ++ fan_out self (db w)
              (fun subscriber category =>
                 delivered_mail
                   (post_notification_delivery self subscriber category))
    /\ refused w'
       = refused w
         ++ fan_out self (db w)
              (fun subscriber category =>
                 refused_mail
                   (post_notification_delivery self subscriber category))
    /\ Post_objects_get (Some k) w' = (Ok stored, w')
    /\ notifications_sent stored = true
    /\ subscriptions (db w') = subscriptions (db w).
Proof.
  intros Hpk Hex Hflag.
  destruct (fan_out_loops self
              (fun subscriber category =>
                 Post__send_single_notification self subscriber category)
              (post_notification_delivery self)
              (fun subscriber category w0 =>
                 Post__send_single_notification_mail self subscriber category w0)
              w)
    as (w1 & Eloops & Hout1 & Href1 & Hdb1).
  set (flagged := Post_set_notifications_sent self true).
  assert (Hex1 : existsb (fun p => option_Z_eqb (pk p) (Some k))
                         (posts (db w1)) = true)
    by (rewrite Hdb1; exact Hex).
  pose proof (Post_save_stored flagged k w1 Hpk Hex1) as Esave.
  match type of Esave with _ = (Ok ?o, ?w2') =>
    set (obj := o) in *; set (w2 := w2') in * end.
  exists w2, obj.
  split.
  { unfold Post_send_notifications_to_subscribers. rewrite Hflag.
    assert (Ecats : Post_categories_all self w
                    = (Ok (categories_of self (db w)), w)) by reflexivity.
    rewrite (bind_Ok _ _ _ _ _ Ecats).
    rewrite (bind_Ok _ _ _ _ _ Eloops).
    fold flagged. rewrite (bind_Ok _ _ _ _ _ Esave). reflexivity. }
  split; [exact Hout1 |]. split; [exact Href1 |].
  split.
  { unfold Post_objects_get, bind, gets.
    change (posts (db w2))
      with (map (fun p => if option_Z_eqb (pk p) (Some k) then obj else p)
                (posts (db w1))).
    rewrite find_map_replace; [reflexivity | exact Hpk | exact Hex1]. }
  split; [reflexivity |].
  change (subscriptions (db w2)) with (subscriptions (db w1)).
  rewrite Hdb1. reflexivity.
Qed.

(** The whole of [send_immediate_article_notification] on an
    ARTICLE. *)
Lemma EmailService_send_immediate_article_notification_mail
  (post : Post) (w : World) :
  post_type post = ARTICLE ->
  exists w',
    EmailService_send_immediate_article_notification post w = (Ok tt, w')
    /\ outbox w'
       = outbox w
         ++ fan_out post (db w)
              (fun subscriber category =>
                 delivered_mail
                   (article_notification_delivery post subscriber category))
    /\ refused w'
       = refused w
         ++ fan_out post (db w)
              (fun subscriber category =>
                 refused_mail
                   (article_notification_delivery post subscriber category))
    /\ db w' = db w.
Proof.
  intros Htype. unfold EmailService_send_immediate_article_notification.
  rewrite Htype. cbn [PostType_eqb negb].
  assert (Ecats : Post_categories_all post w
                  = (Ok (categories_of post (db w)), w)) by reflexivity.
  rewrite (bind_Ok _ _ _ _ _ Ecats).
  apply (fan_out_loops post _ (article_notification_delivery post)).
  intros subscriber category w0. apply article_attempt_mail.
Qed.

(** X11.  [Post.send_notifications_to_subscribers] on a stored post
    whose flag is clear makes one attempt per category of the post and
    subscriber of that category, in that order: the outbox grows by
    exactly the mails that were built for a subscriber with an address
    and accepted by the transport, each with that one address, and the
    stored post ends with the flag set.  On a post whose flag is set it
    does nothing. *)
Theorem Post_send_notifications_to_subscribers_fan_out
  (self : Post) (k : Z) (w : World) :
  pk self = Some k ->
  existsb (fun p => option_Z_eqb (pk p) (Some k)) (posts (db w)) = true ->
  (notifications_sent self = true ->
   Post_send_notifications_to_subscribers self w = (Ok tt, w))
  /\ (notifications_sent self = false ->
      exists w' stored,
        Post_send_notifications_to_subscribers self w = (Ok tt, w')
        /\ outbox w'
           = outbox w
             ++ fan_out self (db w)
                  (fun subscriber category =>
                     option_to_list
                       (post_notification_delivered self subscriber category))
        /\ (forall m,
              In m (fan_out self (db w)
                      (fun subscriber category =>
                         option_to_list
                           (post_notification_delivered self subscriber
                                                        category))) ->
              exists address,
                recipient_list m = [address] /\ address <> ""%string)
        /\ Post_objects_get (Some k) w' = (Ok stored, w')
        /\ notifications_sent stored = true
        /\ subscriptions (db w') = subscriptions (db w)).
Proof.
  intros Hpk Hex. split.
  - intros Hflag. unfold Post_send_notifications_to_subscribers.
    rewrite Hflag. reflexivity.
  - intros Hflag.
    destruct (Post_send_notifications_to_subscribers_mail self k w
                Hpk Hex Hflag)
      as (w' & stored & E & Hout & _ & Hget & Hsent & Hsubs).
    exists w', stored. split; [exact E |].
    split.
    { rewrite Hout. f_equal. apply fan_out_ext. intros subscriber category.
      apply post_notification_delivered_eq. }
    split.
    { intros m Hm. unfold fan_out in Hm.
      apply in_flat_map in Hm. destruct Hm as (category & _ & Hm).
      apply in_flat_map in Hm. destruct Hm as (subscriber & _ & Hm).
      destruct (post_notification_delivered self subscriber category)
        as [m' |] eqn:Hd; [| destruct Hm].
      destruct Hm as [<- | []].
      exists (email subscriber).
      apply (post_notification_delivered_address _ _ _ _ Hd). }
    split; [exact Hget |]. split; [exact Hsent | exact Hsubs].
Qed.

(** X12.  [send_immediate_article_notification] does nothing for a
    post that is not an ARTICLE.  For an ARTICLE it makes one attempt
    per category and subscriber with a non-empty address: the outbox
    grows by exactly the mails built and accepted, no mail is ever
    addressed to an empty address, and the database (the sent flag
    included) is left as it was. *)
Theorem EmailService_send_immediate_article_notification_fan_out
  (post : Post) (w : World) :
  (post_type post <> ARTICLE ->
   EmailService_send_immediate_article_notification post w = (Ok tt, w))
  /\ (post_type post = ARTICLE ->
      exists w',
        EmailService_send_immediate_article_notification post w = (Ok tt, w')
        /\ outbox w'
           = outbox w
             ++ fan_out post (db w)
                  (fun subscriber category =>
                     option_to_list
                       (article_notification_delivered post subscriber category))
        /\ db w' = db w
        /\ forall m,
             In m (fan_out post (db w)
                     (fun subscriber category =>
                        option_to_list
                          (article_notification_delivered post subscriber
                                                          category))) ->
             exists address,
               recipient_list m = [address] /\ address <> ""%string).
Proof.
  split.
  - intros Hne. unfold EmailService_send_immediate_article_notification.
    destruct (post_type post); [contradiction | reflexivity].
  - intros Htype.
    destruct (EmailService_send_immediate_article_notification_mail post w Htype)
      as (w1 & Erun & Hout1 & _ & Hdb1).
    exists w1.
    split; [exact Erun |].
    split.
    { rewrite Hout1. f_equal. apply fan_out_ext. intros subscriber category.
      apply article_notification_delivered_eq. }
    split; [exact Hdb1 |].
    intros m Hm. unfold fan_out in Hm.
    apply in_flat_map in Hm. destruct Hm as (category & _ & Hm).
    apply in_flat_map in Hm. destruct Hm as (subscriber & _ & Hm).
    unfold article_notification_delivered in Hm.
    destruct (String.eqb_spec (email subscriber) "") as [Hempty | Hfull];
      [contradiction |].
    destruct (template "emails/new_article_notification.txt" _);
      [| contradiction].
    destruct (template "emails/new_article_notification.html" _);
      [| contradiction].
    destruct (transport_up _); [| contradiction].
    destruct Hm as [<- | []].
    exists (email subscriber). split; [reflexivity | exact Hfull].
Qed.

(** ** Mail failures and the job handlers, as the code has them *)

(** C5 (as the code has it).  A refusal by the transport never leaves
    a handler.  The weekly-digest task always returns normally; seen at
    any subscription [s] of the table, a digest for [s] that the
    transport refuses is recorded as refused and counted in the error
    count, nothing is written for [s], the subscriptions after [s] are
    processed from there and the error is still counted in the result.
    The notification task returns normally for every post that exists:
    it makes one attempt per category of the post and subscriber of the
    category, each mail is accepted or refused on its own, and the
    accepted ones go out whatever happened to the others (for NEWS with
    the flag already set there is no attempt at all).  The only
    exception the notification task lets through is [DoesNotExist],
    for a missing post. *)
Theorem mail_failures_stay_inside_handlers (post_id : Z) (w : World) :
  (exists r w', send_weekly_digest_task w = (Ok r, w'))
  /\ (forall before s after,
        subscriptions (db w) = before ++ s :: after ->
        exists c1 w1 c2 w2 c3 w3,
          send_weekly_digest_loop (clock (ticks w) - timedelta_days 7)
            (0%nat, 0%nat) before (set_ticks w (S (ticks w))) = (Ok c1, w1)
          /\ send_weekly_digest_body
               (clock (ticks w) - timedelta_days 7) c1 s w1 = (Ok c2, w2)
          /\ send_weekly_digest_loop (clock (ticks w) - timedelta_days 7)
               c2 after w2 = (Ok c3, w3)
          /\ send_weekly_digest_task w
             = (Ok (mkDigestResult (fst c3) (snd c3) (fst c3 + snd c3)), w3)
          /\ forall m,
               digest_due_at s w1 = true ->
               weekly_articles (subscription_category s)
                 (clock (ticks w) - timedelta_days 7) (db w1) <> [] ->
               digest_delivery s
                 (weekly_articles (subscription_category s)
                    (clock (ticks w) - timedelta_days 7) (db w1))
                 (due_check_world s w1) = refused_by_transport m ->
               c2 = (fst c1, S (snd c1))
               /\ refused w2 = refused w1 ++ [m]
               /\ outbox w2 = outbox w1
               /\ db w2 = db w1
               /\ (S (snd c1) <= snd c3)%nat)
  /\ ((exists post w',
         Post_objects_get (Some post_id) w = (Ok post, w)
         /\ send_immediate_notification_task post_id w = (Ok (title post), w')
         /\ (post_type post = NEWS -> notifications_sent post = true ->
             w' = w)
         /\ (post_type post = ARTICLE \/ notifications_sent post = false ->
             outbox w'
             = outbox w
               ++ fan_out post (db w)
                    (fun subscriber category =>
                       delivered_mail
                         (notification_delivery post subscriber category))
             /\ refused w'
                = refused w
                  ++ fan_out post (db w)
                       (fun subscriber category =>
                          refused_mail
                            (notification_delivery post subscriber category))))
      \/ (Post_objects_get (Some post_id) w = (Raise DoesNotExist, w)
          /\ send_immediate_notification_task post_id w
             = (Raise DoesNotExist, w))).
Proof.
  split; [| split].
  - unfold send_weekly_digest_task, try_except.
    destruct (returns_send_weekly_digest_loop
                (clock (ticks w) - timedelta_days 7) (subscriptions (db w))
                (0%nat, 0%nat) (set_ticks w (S (ticks w)))) as (c & w' & E).
    rewrite (EmailService_send_weekly_digest_eq _ _ _ E).
    eexists _, _. reflexivity.
  - intros before s after Htable.
    destruct (EmailService_send_weekly_digest_parts before s after w Htable)
      as (c1 & w1 & c2 & w2 & c3 & w3 & E1 & E2 & E3 & Erun & Hle).
    exists c1, w1, c2, w2, c3, w3.
    split; [exact E1 |]. split; [exact E2 |]. split; [exact E3 |].
    split.
    { unfold send_weekly_digest_task, try_except. rewrite Erun. reflexivity. }
    intros m Hdue Hposts Hrefused.
    destruct (weekly_articles (subscription_category s)
                (clock (ticks w) - timedelta_days 7) (db w1))
      as [| p ps] eqn:Hw; [contradiction |].
    assert (Hfail : delivery_failed
                      (digest_delivery s (p :: ps) (due_check_world s w1))
                    = true)
      by (rewrite Hrefused; reflexivity).
    destruct (send_weekly_digest_body_failed _ c1 _ _ _ _ Hdue Hw Hfail)
      as (w' & E & Hdb & Hout & Href).
    rewrite E in E2. inversion E2; subst c2 w2.
    rewrite Hrefused in Href. simpl in Hle.
    split; [reflexivity |]. split; [exact Href |].
    split; [exact Hout |]. split; [exact Hdb | exact Hle].
  - assert (Hget : (exists post, Post_objects_get (Some post_id) w = (Ok post, w)
                                 /\ pk post = Some post_id
                                 /\ existsb (fun p => option_Z_eqb (pk p)
                                                        (Some post_id))
                                            (posts (db w)) = true)
                   \/ Post_objects_get (Some post_id) w = (Raise DoesNotExist, w)).
    { unfold Post_objects_get, bind, gets.
      destruct (find _ (posts (db w))) as [post |] eqn:Hfind.
      - left. exists post. split; [reflexivity |].
        split; [apply (find_some_pk _ _ _ Hfind) |].
        apply existsb_exists. apply find_some in Hfind. exists post.
        exact Hfind.
      - right. reflexivity. }
    unfold send_immediate_notification_task, try_except.
    destruct Hget as [(post & Hget & Hpk & Hex) | Hget].
    + left. exists post.
      rewrite (bind_Ok _ _ _ _ _ Hget).
      destruct (post_type post) eqn:Htype; cbn [PostType_eqb].
      * destruct (EmailService_send_immediate_article_notification_mail
                    post w Htype)
          as (w' & E & Hout & Href & _).
        exists w'. split; [exact Hget |].
        rewrite (bind_Ok _ _ _ _ _ E).
        split; [reflexivity |]. split; [discriminate |].
        intros _. rewrite Hout, Href.
        split; f_equal; apply fan_out_ext; intros subscriber category;
          unfold notification_delivery; rewrite Htype; reflexivity.
      * unfold EmailService_send_new_post_notification.
        destruct (notifications_sent post) eqn:Hflag.
        -- exists w. split; [exact Hget |].
           unfold Post_send_notifications_to_subscribers. rewrite Hflag.
           split; [reflexivity |]. split; [reflexivity |].
           intros [H | H]; discriminate.
        -- destruct (Post_send_notifications_to_subscribers_mail
                       post post_id w Hpk Hex Hflag)
             as (w' & stored & E & Hout & Href & _).
           exists w'. split; [exact Hget |].
           rewrite (bind_Ok _ _ _ _ _ E).
           split; [reflexivity |]. split; [discriminate |].
           intros _. rewrite Hout, Href.
           split; f_equal; apply fan_out_ext; intros subscriber category;
             unfold notification_delivery; rewrite Htype; reflexivity.
    + right. split; [exact Hget |].
      rewrite (bind_Raise _ _ _ _ _ Hget). reflexivity.
Qed.

(** ** The limit in the form and in the model *)

(** X13.  With the clock at [now], the form of the news page and the
    model decide alike: [NewsCreateForm.clean] for a user with an
    author profile raises exactly when saving a new NEWS post of that
    author would be refused by [Post.clean], with the same count in the
    error; a form without a user, or whose user has no profile, is not
    checked. *)
Theorem NewsCreateForm_clean_agrees_with_Post_clean
  (now : datetime) (self : Post) (w : World) :
  (forall i, clock i = now) ->
  post_type self = NEWS ->
  pk self = None ->
  fst (NewsCreateForm_clean (Some (author self)) w) = fst (Post_clean self w)
  /\ (forall n, fst (NewsCreateForm_clean (Some (author self)) w)
                = Raise (ValidationError n) ->
                (3 <= n)%nat
                /\ n = news_count_since (author self) (today_start now) (db w))
  /\ NewsCreateForm_clean None w = (Ok tt, w).
Proof.
  intros Hclock Htype Hpk.
  rewrite (Post_clean_new_news _ _ Htype Hpk), !Hclock.
  unfold NewsCreateForm_clean, bind, timezone_now, gets. rewrite Hclock.
  fold (today_start now).
  change (List.length (filter (is_news_since (author self) (today_start now))
                              (posts (db (set_ticks w (S (ticks w)))))))
    with (news_count_since (author self) (today_start now) (db w)).
  set (n := news_count_since (author self) (today_start now) (db w)).
  destruct (Nat.leb_spec 3 n) as [Hge | Hlt];
    destruct (Nat.ltb_spec n 3) as [Hlt' | Hge']; try lia; simpl.
  - split; [reflexivity |]. split; [| reflexivity].
    intros m Hm. inversion Hm; subst. split; [exact Hge | reflexivity].
  - split; [reflexivity |]. split; [| reflexivity].
    intros m Hm. discriminate.
Qed.

(** ** The status in the text of a token *)

(** X14.  The text of a token is "Token for <username> - <status>",
    where the status is Activated, Expired or Pending; it is Activated
    exactly for an activated token, even an old one, and Pending
    exactly when [is_valid()] answers true at the same instant. *)
Theorem ActivationToken_str_status (self : ActivationToken) (w : World) :
  exists status w1 valid w2,
    ActivationToken_str self w
    = (Ok (String.append "Token for "
             (String.append (username (token_user self))
                (String.append " - " status))), w1)
    /\ ActivationToken_is_valid self w = (Ok valid, w2)
    /\ In status ["Activated"%string; "Expired"%string; "Pending"%string]
    /\ (status = "Activated"%string <-> activated self = true)
    /\ (status = "Pending"%string <-> valid = true).
Proof.
  unfold ActivationToken_str, ActivationToken_is_valid,
    ActivationToken_is_expired, bind, timezone_now, ret.
  destruct (activated self); cbn [negb].
  - exists "Activated"%string. eexists _, _, _.
    split; [reflexivity |]. split; [reflexivity |].
    split; [simpl; auto |]. split; split; intros H; try reflexivity;
      discriminate.
  - destruct (clock (ticks w) >? token_created_at self + timedelta_days 7).
    + exists "Expired"%string. eexists _, _, _.
      split; [reflexivity |]. split; [reflexivity |].
      split; [simpl; auto |]. split; split; intros H; discriminate.
    + exists "Pending"%string. eexists _, _, _.
      split; [reflexivity |]. split; [reflexivity |].
      split; [simpl; auto |]. split; split; intros H; try reflexivity;
        discriminate.
Qed.

(** ** Filters of the listings *)

(** X15.  The four rating bands of [filter_rating] are pairwise
    disjoint and together hold exactly the posts of the queryset whose
    rating is not negative: a post with a negative rating is in none of
    them.  Any other value returns the queryset as it is. *)
Theorem filter_rating_bands (queryset : list Post) (name : string) (p : Post) :
  ((In p (filter_rating queryset name "high")
    \/ In p (filter_rating queryset name "medium")
    \/ In p (filter_rating queryset name "low")
    \/ In p (filter_rating queryset name "zero"))
   <-> In p queryset /\ 0 <= rating p)
  /\ (forall v1 v2,
        In v1 ["high"%string; "medium"%string; "low"%string; "zero"%string] ->
        In v2 ["high"%string; "medium"%string; "low"%string; "zero"%string] ->
        v1 <> v2 ->
        In p (filter_rating queryset name v1) ->
        In p (filter_rating queryset name v2) -> False)
  /\ (forall value,
        ~ In value ["high"%string; "medium"%string; "low"%string; "zero"%string] ->
        filter_rating queryset name value = queryset).
Proof.
  assert (Hhigh : In p (filter_rating queryset name "high")
                  <-> In p queryset /\ 10 <= rating p).
  { unfold filter_rating. simpl. rewrite filter_In, Z.leb_le. reflexivity. }
  assert (Hmedium : In p (filter_rating queryset name "medium")
                    <-> In p queryset /\ 5 <= rating p <= 9).
  { unfold filter_rating. simpl.
    rewrite filter_In, andb_true_iff, !Z.leb_le. reflexivity. }
  assert (Hlow : In p (filter_rating queryset name "low")
                 <-> In p queryset /\ 1 <= rating p <= 4).
  { unfold filter_rating. simpl.
    rewrite filter_In, andb_true_iff, !Z.leb_le. reflexivity. }
  assert (Hzero : In p (filter_rating queryset name "zero")
                  <-> In p queryset /\ rating p = 0).
  { unfold filter_rating. simpl. rewrite filter_In, Z.eqb_eq. reflexivity. }
  split; [| split].
  - rewrite Hhigh, Hmedium, Hlow, Hzero. split.
    + intros [[H ?] | [[H ?] | [[H ?] | [H ?]]]]; split; try exact H; lia.
    + intros [H Hr].
      destruct (Z_le_gt_dec 10 (rating p)); [left; split; [exact H | lia] |].
      destruct (Z_le_gt_dec 5 (rating p));
        [right; left; split; [exact H | lia] |].
      destruct (Z_le_gt_dec 1 (rating p));
        [right; right; left; split; [exact H | lia] |].
      right; right; right. split; [exact H | lia].
  - intros v1 v2 H1 H2 Hne Hp1 Hp2. simpl in H1, H2.
    destruct H1 as [<- | [<- | [<- | [<- | []]]]];
      destruct H2 as [<- | [<- | [<- | [<- | []]]]];
      try (apply Hne; reflexivity);
      repeat match goal with
             | H : In p (filter_rating _ _ "high") |- _ => apply Hhigh in H
             | H : In p (filter_rating _ _ "medium") |- _ => apply Hmedium in H
             | H : In p (filter_rating _ _ "low") |- _ => apply Hlow in H
             | H : In p (filter_rating _ _ "zero") |- _ => apply Hzero in H
             end; lia.
  - intros value Hv. simpl in Hv. unfold filter_rating.
    destruct (String.eqb_spec value "high"); [exfalso; apply Hv; auto |].
    destruct (String.eqb_spec value "medium"); [exfalso; apply Hv; auto |].
    destruct (String.eqb_spec value "low"); [exfalso; apply Hv; auto |].
    destruct (String.eqb_spec value "zero"); [exfalso; apply Hv; auto 6 |].
    reflexivity.
Qed.

(** X16.  The periods of [filter_date_range] are nested: for one
    reading of the clock, every post kept by "today" is kept by "week",
    every post kept by "week" is kept by "month", and every post kept
    by "month" is kept by "year"; all are posts of the queryset. *)
Theorem filter_date_range_nested (queryset : list Post) (name : string) (w : World) :
  exists today week month year,
    filter_date_range queryset name "today" w
    = (Ok today, set_ticks w (S (ticks w)))
    /\ filter_date_range queryset name "week" w
       = (Ok week, set_ticks w (S (ticks w)))
    /\ filter_date_range queryset name "month" w
       = (Ok month, set_ticks w (S (ticks w)))
    /\ filter_date_range queryset name "year" w
       = (Ok year, set_ticks w (S (ticks w)))
    /\ incl today week /\ incl week month /\ incl month year
    /\ incl year queryset.
Proof.
  unfold filter_date_range, bind, timezone_now, ret. simpl String.eqb.
  cbv iota. eexists _, _, _, _.
  split; [reflexivity |]. split; [reflexivity |]. split; [reflexivity |].
  split; [reflexivity |].
  set (now := clock (ticks w)).
  unfold incl. repeat split; intros p Hp; apply filter_In in Hp;
    destruct Hp as [Hin Hp]; try (apply filter_In; split; [exact Hin |]).
  - apply Z.eqb_eq in Hp. apply Z.leb_le.
    unfold datetime_date, localtime, TIME_ZONE_utcoffset, timedelta_days,
      MICROSECONDS_PER_HOUR, MICROSECONDS_PER_DAY in *.
    pose proof (Z.mul_div_le (created_at p + 3 * 3600000000) 86400000000
                  ltac:(lia)) as H1.
    pose proof (Z.mod_pos_bound now 86400000000 ltac:(lia)) as H2.
    pose proof (Z.div_mod now 86400000000 ltac:(lia)) as H3.
    rewrite Hp in H1. lia.
  - apply Z.leb_le in Hp. apply Z.leb_le. unfold timedelta_days in *.
    unfold MICROSECONDS_PER_DAY in *. lia.
  - apply Z.leb_le in Hp. apply Z.leb_le. unfold timedelta_days in *.
    unfold MICROSECONDS_PER_DAY in *. lia.
  - exact Hin.
Qed.

(** ** The activation link *)

Lemma map_replace_absent (toks : list ActivationToken) id obj :
  ~ In id (map token_id toks) ->
  map (fun r => if option_Z_eqb (token_id r) id then obj else r) toks = toks.
Proof.
  induction toks as [| a toks IH]; intros Hnot; [reflexivity |].
  simpl in *. destruct (option_Z_eqb (token_id a) id) eqn:E.
  - apply option_Z_eqb_eq in E. exfalso. apply Hnot. left. exact E.
  - f_equal. apply IH. intros H. apply Hnot. right. exact H.
Qed.

Lemma filter_cons_singleton {A} (f : A -> bool) (a x : A) (l : list A) :
  filter f (a :: l) = [x] ->
  (f a = true /\ a = x /\ filter f l = [])
  \/ (f a = false /\ filter f l = [x]).
Proof.
  simpl. destruct (f a).
  - intros H. inversion H. left. auto.
  - intros H. right. auto.
Qed.

(** Updating the one row that carries a token string, by primary key,
    leaves it the one row with that string. *)
Lemma filter_token_map_replace (toks : list ActivationToken) t tok obj :
  NoDup (map token_id toks) ->
  filter (fun r => String.eqb (token r) t) toks = [tok] ->
  token obj = t ->
  filter (fun r => String.eqb (token r) t)
         (map (fun r => if option_Z_eqb (token_id r) (token_id tok)
                        then obj else r) toks)
  = [obj].
Proof.
  intros Hnodup Hone Hobj.
  induction toks as [| a toks IH]; [discriminate |].
  inversion Hnodup as [| ? ? Hnotin Hnodup']; subst.
  destruct (filter_cons_singleton _ _ _ _ Hone)
    as [(Hfa & -> & Hrest) | (Hfa & Hrest)].
  - cbn [map]. rewrite option_Z_eqb_refl.
    rewrite (map_replace_absent _ _ _ Hnotin).
    cbn [filter]. rewrite String.eqb_refl, Hrest. reflexivity.
  - assert (Hin : In tok toks).
    { assert (H : In tok (filter (fun r => String.eqb (token r) (token obj)) toks))
        by (rewrite Hrest; left; reflexivity).
      apply filter_In in H. exact (proj1 H). }
    cbn [map]. destruct (option_Z_eqb (token_id a) (token_id tok)) eqn:E.
    + apply option_Z_eqb_eq in E. exfalso. apply Hnotin. rewrite E.
      apply in_map. exact Hin.
    + cbn [filter]. rewrite Hfa. apply IH; assumption.
Qed.

Lemma ActivationToken_objects_get_by_token_one t tok w :
  filter (fun r => String.eqb (token r) t) (tokens (db w)) = [tok] ->
  ActivationToken_objects_get_by_token t w = (Ok tok, w).
Proof.
  intros H. unfold ActivationToken_objects_get_by_token, bind, gets.
  rewrite H. reflexivity.
Qed.

(** X17.  A link whose token string no row carries is reported invalid
    and nothing changes.  For the one row that carries it: after more
    than seven days the link is reported expired, whether or not the
    account was activated; within the seven days an activated token is
    reported as already activated; otherwise the row is marked
    activated, the user is switched to active, exactly one
    activation-success job is queued and no mail is sent by the view.
    A second visit within the seven days reports "already activated"
    and queues nothing. *)
Theorem ActivationView_get_activates_once (t : string) (w : World) :
  (filter (fun r => String.eqb (token r) t) (tokens (db w)) = [] ->
   ActivationView_get t w = (Ok (status_invalid, None), w))
  /\ forall tok,
       NoDup (map token_id (tokens (db w))) ->
       filter (fun r => String.eqb (token r) t) (tokens (db w)) = [tok] ->
       let deadline := token_created_at tok + timedelta_days 7 in
       let visited := fun w0 : World => set_ticks w0 (S (ticks w0)) in
       (clock (ticks w) > deadline ->
        ActivationView_get t w = (Ok (status_expired, None), visited w))
       /\ (clock (ticks w) <= deadline -> activated tok = true ->
           ActivationView_get t w
           = (Ok (status_already_activated, None), visited w))
       /\ (clock (ticks w) <= deadline -> activated tok = false ->
           exists w',
             ActivationView_get t w
             = (Ok (status_success (username (token_user tok)),
                    Some (token_user tok)), w')
             /\ tokens (db w')
                = map (fun r => if option_Z_eqb (token_id r) (token_id tok)
                                then ActivationToken_set_activated tok true
                                else r)
                      (tokens (db w))
             /\ filter (fun r => String.eqb (token r) t) (tokens (db w'))
                = [ActivationToken_set_activated tok true]
             /\ queue w'
                = queue w ++ [send_activation_success_job (user_id (token_user tok))]
             /\ outbox w' = outbox w
             /\ (clock (ticks w') <= deadline ->
                 ActivationView_get t w'
                 = (Ok (status_already_activated, None), visited w'))).
Proof.
  split.
  - intros Hnone.
    unfold ActivationView_get, try_except, ActivationToken_objects_get_by_token,
      bind, gets.
    rewrite Hnone. reflexivity.
  - intros tok Hnodup Hone deadline visited.
    assert (Hin : In tok (tokens (db w))).
    { assert (H : In tok (filter (fun r => String.eqb (token r) t) (tokens (db w))))
        by (rewrite Hone; left; reflexivity).
      apply filter_In in H. exact (proj1 H). }
    assert (Htok : token tok = t).
    { assert (H : In tok (filter (fun r => String.eqb (token r) t) (tokens (db w))))
        by (rewrite Hone; left; reflexivity).
      apply filter_In in H. apply String.eqb_eq. exact (proj2 H). }
    assert (Hhead : forall w0 tok0,
               filter (fun r => String.eqb (token r) t) (tokens (db w0)) = [tok0] ->
               token_created_at tok0 = token_created_at tok ->
               (clock (ticks w0) >? deadline) = false ->
               activated tok0 = true ->
               ActivationView_get t w0
               = (Ok (status_already_activated, None), visited w0)).
    { intros w0 tok0 H0 Hc Hle Hact.
      unfold ActivationView_get, try_except.
      rewrite (bind_Ok _ _ _ _ _ (ActivationToken_objects_get_by_token_one _ _ _ H0)).
      unfold ActivationToken_is_expired, bind, timezone_now, ret.
      rewrite Hc. fold deadline. rewrite Hle, Hact. reflexivity. }
    split; [| split].
    + intros Hgt.
      unfold ActivationView_get, try_except.
      rewrite (bind_Ok _ _ _ _ _ (ActivationToken_objects_get_by_token_one _ _ _ Hone)).
      unfold ActivationToken_is_expired, bind, timezone_now, ret.
      fold deadline.
      destruct (Z.gtb_spec (clock (ticks w)) deadline) as [_ | Hle]; [| lia].
      reflexivity.
    + intros Hle Hact. apply (Hhead w tok Hone eq_refl); [| exact Hact].
      destruct (Z.gtb_spec (clock (ticks w)) deadline); [lia | reflexivity].
    + intros Hle Hact.
      assert (Hex : existsb (fun r => option_Z_eqb (token_id r) (token_id tok))
                            (tokens (db w)) = true).
      { apply existsb_exists. exists tok. split; [exact Hin |].
        apply option_Z_eqb_refl. }
      assert (Hngt : (clock (ticks w) >? deadline) = false).
      { destruct (Z.gtb_spec (clock (ticks w)) deadline); [lia | reflexivity]. }
      set (done := ActivationToken_set_activated tok true).
      set (w' := set_queue
                   (set_db (visited w)
                      (set_tokens (db w)
                         (map (fun r => if option_Z_eqb (token_id r) (token_id tok)
                                        then done else r)
                              (tokens (db w)))))
                   (queue w ++ [send_activation_success_job (user_id (token_user tok))])).
      assert (Hrun : ActivationView_get t w
                     = (Ok (status_success (username (token_user tok)),
                            Some (token_user tok)), w')).
      { unfold ActivationView_get, try_except.
        rewrite (bind_Ok _ _ _ _ _ (ActivationToken_objects_get_by_token_one _ _ _ Hone)).
        unfold ActivationToken_is_expired, bind, timezone_now, ret.
        fold deadline. rewrite Hngt, Hact.
        unfold Model_save_ActivationToken, bind, gets.
        cbn [ActivationToken_set_activated token_id db visited set_ticks].
        rewrite Hex.
        unfold modify_db, modify, handle_activation_token_save, try_except,
          delay, modify.
        reflexivity. }
      assert (Hfilter : filter (fun r => String.eqb (token r) t) (tokens (db w'))
                        = [done]).
      { apply filter_token_map_replace; [exact Hnodup | exact Hone | exact Htok]. }
      exists w'. split; [exact Hrun |]. split; [reflexivity |].
      split; [exact Hfilter |]. split; [reflexivity |]. split; [reflexivity |].
      intros Hle'. apply (Hhead w' done Hfilter eq_refl); [| reflexivity].
      destruct (Z.gtb_spec (clock (ticks w')) deadline); [lia | reflexivity].
Qed.

(** ** Unsubscribing *)

Lemma filter_all {A} (f : A -> bool) (l : list A) :
  (forall x, In x l -> f x = true) -> filter f l = l.
Proof.
  induction l as [| a l IH]; intros H; [reflexivity |].
  simpl. rewrite (H a (or_introl eq_refl)). f_equal.
  apply IH. intros x Hx. apply H. right. exact Hx.
Qed.

(** With distinct primary keys, removing the collected rows by key
    removes the rows of the pair and no other. *)
Lemma delete_by_pk_is_delete_by_pair user category (subs : list Subscription) :
  NoDup (map subscription_id subs) ->
  filter (fun r =>
            negb (existsb (fun c => option_Z_eqb (subscription_id r)
                                                 (subscription_id c))
                          (filter (same_pair user category) subs)))
         subs
  = filter (fun r => negb (same_pair user category r)) subs.
Proof.
  intros Hnodup. apply filter_ext_in. intros r Hr. f_equal.
  destruct (same_pair user category r) eqn:E.
  - apply existsb_exists. exists r. split.
    + apply filter_In. split; assumption.
    + apply option_Z_eqb_refl.
  - destruct (existsb _ _) eqn:Hex; [| reflexivity].
    apply existsb_exists in Hex. destruct Hex as (c & Hc & Hid).
    apply filter_In in Hc. destruct Hc as [Hc Hpair].
    apply option_Z_eqb_eq in Hid.
    rewrite (NoDup_map_eq _ _ _ _ Hnodup Hr Hc Hid) in E. congruence.
Qed.

(** The [post_delete] receivers of the collected rows evict the two
    keys of the pair, when there is a row at all. *)
Lemma for_each_handle_subscription_removed user category l w :
  Forall (fun s => same_pair user category s = true) l ->
  exists c,
    for_each l handle_subscription_removed w = (Ok tt, set_cache w c)
    /\ forall k,
         In k c <->
         In k (cache w)
         /\ (l = []
             \/ (k <> key_user_subscriptions (user_id user)
                 /\ k <> key_category_subscribers_count (category_id category))).
Proof.
  intros Hall. revert w. induction Hall as [| a l Ha Hall IH]; intros w.
  - exists (cache w). split; [destruct w; reflexivity |].
    intros k. split; [intros H; split; [exact H | left; reflexivity] |].
    intros [H _]. exact H.
  - apply same_pair_true in Ha. destruct Ha as [Hu Hc].
    set (w1 := set_cache w
                 (filter (fun k' => negb (CacheKey_eqb
                            (key_category_subscribers_count (category_id category)) k'))
                    (filter (fun k' => negb (CacheKey_eqb
                               (key_user_subscriptions (user_id user)) k'))
                       (cache w)))).
    assert (Hstep : handle_subscription_removed a w = (Ok tt, w1)).
    { unfold handle_subscription_removed, bind, cache_delete, modify.
      rewrite Hu, Hc. reflexivity. }
    cbn [for_each]. rewrite (bind_Ok _ _ _ _ _ Hstep).
    destruct (IH w1) as (c & E & Hcache).
    rewrite E. exists c. split; [reflexivity |].
    intros k. rewrite Hcache. unfold w1. cbn [cache set_cache].
    rewrite !In_cache_after_delete. split.
    + intros [[[Hin H1] H2] _]. split; [exact Hin |]. right. split; assumption.
    + intros [Hin [Habs | [H1 H2]]]; [discriminate |].
      split; [split; [split |] |]; try assumption.
      right. split; assumption.
Qed.

Lemma Subscription_objects_filter_delete_effect user category w :
  NoDup (map subscription_id (subscriptions (db w))) ->
  exists w',
    Subscription_objects_filter_delete user category w
    = (Ok (List.length (filter (same_pair user category) (subscriptions (db w)))),
       w')
    /\ db w'
       = set_subscriptions (db w)
           (filter (fun r => negb (same_pair user category r))
                   (subscriptions (db w)))
    /\ (forall k,
          In k (cache w') <->
          In k (cache w)
          /\ (filter (same_pair user category) (subscriptions (db w)) = []
              \/ (k <> key_user_subscriptions (user_id user)
                  /\ k <> key_category_subscribers_count (category_id category))))
    /\ txn w' = txn w /\ outbox w' = outbox w /\ queue w' = queue w
    /\ flash w' = flash w /\ ticks w' = ticks w.
Proof.
  intros Hnodup.
  assert (Hall : Forall (fun s => same_pair user category s = true)
                        (filter (same_pair user category) (subscriptions (db w)))).
  { apply Forall_forall. intros s Hs. apply filter_In in Hs. exact (proj2 Hs). }
  unfold Subscription_objects_filter_delete, transaction_atomic.
  destruct (txn w) as [[snapshot hooks] |] eqn:Etxn.
  - unfold bind at 1. unfold gets at 1. unfold bind at 1.
    unfold modify_db, modify. unfold bind at 1.
    match goal with
    | |- context [for_each _ _ ?w1] =>
        destruct (for_each_handle_subscription_removed user category _ w1 Hall)
          as (c & E & Hcache)
    end.
    rewrite E. unfold ret. eexists. split; [reflexivity |].
    cbn [db set_db set_cache cache txn outbox queue flash ticks].
    rewrite (delete_by_pk_is_delete_by_pair _ _ _ Hnodup).
    split; [reflexivity |]. split; [exact Hcache |].
    repeat split. exact Etxn.
  - unfold bind at 1. unfold gets at 1. unfold bind at 1.
    unfold modify_db, modify. unfold bind at 1.
    cbn [db set_txn].
    match goal with
    | |- context [for_each _ handle_subscription_removed ?w1] =>
        destruct (for_each_handle_subscription_removed user category _ w1 Hall)
          as (c & E & Hcache)
    end.
    rewrite E. unfold ret. cbn [txn set_cache set_db set_txn for_each].
    unfold ret. eexists. split; [reflexivity |].
    cbn [db set_db set_cache set_txn cache txn outbox queue flash ticks].
    rewrite (delete_by_pk_is_delete_by_pair _ _ _ Hnodup).
    split; [reflexivity |]. split; [exact Hcache |].
    repeat split.
Qed.

(** X18.  A request to unsubscribe from a category that does not exist
    raises [Http404] and changes nothing.  Otherwise, with distinct
    primary keys in the table, it returns the redirect; no row of the
    (user, category) pair remains and every other row stays, in order;
    the notice says "unsubscribed" exactly when a row was there, and
    then the two cache keys of the pair are gone; when no row was there
    the table and the cache are as before.  Posts, the queue and the
    outbox are not touched. *)
Theorem unsubscribe_from_category_effect
  (request_user : User) (cid : Z) (w : World) :
  (get_category_or_404 cid w = (Raise Http404, w) ->
   unsubscribe_from_category request_user cid w = (Raise Http404, w))
  /\ forall category,
       get_category_or_404 cid w = (Ok category, w) ->
       NoDup (map subscription_id (subscriptions (db w))) ->
       exists notice w',
         unsubscribe_from_category request_user cid w
         = (Ok (redirect_category_posts cid, notice), w')
         /\ subscriptions (db w')
            = filter (fun r => negb (same_pair request_user category r))
                     (subscriptions (db w))
         /\ (forall s, In s (subscriptions (db w')) ->
                       same_pair request_user category s = false)
         /\ (existsb (same_pair request_user category) (subscriptions (db w)) = true ->
             notice = notice_unsubscribed (category_name category)
             /\ ~ In (key_user_subscriptions (user_id request_user)) (cache w')
             /\ ~ In (key_category_subscribers_count (category_id category))
                     (cache w'))
         /\ (existsb (same_pair request_user category) (subscriptions (db w)) = false ->
             notice = notice_not_subscribed (category_name category)
             /\ subscriptions (db w') = subscriptions (db w)
             /\ forall k, In k (cache w') <-> In k (cache w))
         /\ posts (db w') = posts (db w)
         /\ queue w' = queue w /\ outbox w' = outbox w.
Proof.
  split.
  - intros H404. unfold unsubscribe_from_category.
    apply (bind_Raise _ _ _ _ _ H404).
  - intros category Hcat Hnodup.
    destruct (Subscription_objects_filter_delete_effect request_user category w Hnodup)
      as (w' & E & Hdb & Hcache & _ & Hout & Hq & _ & _).
    unfold unsubscribe_from_category.
    rewrite (bind_Ok _ _ _ _ _ Hcat). rewrite (bind_Ok _ _ _ _ _ E).
    unfold ret. eexists _, w'. split; [reflexivity |].
    assert (Hsubs : subscriptions (db w')
                    = filter (fun r => negb (same_pair request_user category r))
                             (subscriptions (db w))).
    { rewrite Hdb. reflexivity. }
    split; [exact Hsubs |]. split; [| split; [| split; [| split]]].
    + intros s Hs. rewrite Hsubs in Hs. apply filter_In in Hs.
      apply negb_true_iff. exact (proj2 Hs).
    + intros Hex. apply existsb_exists in Hex. destruct Hex as (s & Hs & Hpair).
      assert (Hne : filter (same_pair request_user category) (subscriptions (db w))
                    <> []).
      { intros Hnil.
        assert (H : In s (filter (same_pair request_user category)
                                 (subscriptions (db w))))
          by (apply filter_In; split; assumption).
        rewrite Hnil in H. destruct H. }
      split; [| split].
      * destruct (filter (same_pair request_user category) (subscriptions (db w)));
          [congruence | reflexivity].
      * intros Hin. apply Hcache in Hin.
        destruct Hin as [_ [Hnil | [H1 _]]]; [exact (Hne Hnil) | congruence].
      * intros Hin. apply Hcache in Hin.
        destruct Hin as [_ [Hnil | [_ H2]]]; [exact (Hne Hnil) | congruence].
    + intros Hex.
      assert (Hall : forall x, In x (subscriptions (db w)) ->
                               same_pair request_user category x = false).
      { intros x Hx. destruct (same_pair request_user category x) eqn:Ex;
          [| reflexivity].
        rewrite <- Hex. symmetry. apply existsb_exists. exists x. auto. }
      pose proof (filter_nil_of_forall _ _ Hall) as Hnil.
      split; [| split].
      * rewrite Hnil. reflexivity.
      * rewrite Hsubs. apply filter_all. intros x Hx. rewrite (Hall x Hx).
        reflexivity.
      * intros k. rewrite Hcache. split; [intros [H _]; exact H |].
        intros H. split; [exact H | left; exact Hnil].
    + rewrite Hdb. reflexivity.
    + split; [exact Hq | exact Hout].
Qed.

(** ** Subscribing and unsubscribing together *)

Lemma get_category_or_404_find cid w category :
  get_category_or_404 cid w = (Ok category, w) ->
  find (fun c => category_id c =? cid) (categories (db w)) = Some category.
Proof.
  unfold get_category_or_404, bind, gets.
  destruct (find _ (categories (db w))) as [c |]; intros H; inversion H.
  reflexivity.
Qed.

Lemma get_category_or_404_of_find cid w category :
  find (fun c => category_id c =? cid) (categories (db w)) = Some category ->
  get_category_or_404 cid w = (Ok category, w).
Proof.
  intros H. unfold get_category_or_404, bind, gets. rewrite H. reflexivity.
Qed.

(** The row a first subscription inserts. *)
Lemma Subscription_objects_get_or_create_new_row user category w :
  filter (same_pair user category) (subscriptions (db w)) = [] ->
  exists obj w',
    Subscription_objects_get_or_create user category w = (Ok (obj, true), w')
    /\ subscriptions (db w') = subscriptions (db w) ++ [obj]
    /\ subscription_id obj = Some (next_pk (db w))
    /\ subscription_user obj = user
    /\ subscription_category obj = category
    /\ categories (db w') = categories (db w)
    /\ posts (db w') = posts (db w)
    /\ flash w' = flash w.
Proof.
  intros Hnone.
  pose proof (existsb_false_of_filter_nil _ _ Hnone) as Hex.
  unfold Subscription_objects_get_or_create, try_except,
    Subscription_objects_get, bind, gets.
  rewrite Hnone. unfold raise.
  unfold transaction_atomic, Subscription_objects_create, bind, gets,
    timezone_now, fresh_pk, modify_db, modify, handle_new_subscription,
    cache_delete, modify, ret.
  destruct (txn w) as [[snapshot hooks] |] eqn:Etxn; simpl;
    rewrite Hex; simpl; eexists _, _; repeat split.
Qed.

Lemma existsb_false_forall {A} (f : A -> bool) (l : list A) :
  existsb f l = false -> forall x, In x l -> f x = false.
Proof.
  intros Hex x Hx. destruct (f x) eqn:E; [| reflexivity].
  rewrite <- Hex. symmetry. apply existsb_exists. exists x. auto.
Qed.

(** X19.  Subscribing to a category one is not subscribed to and then
    unsubscribing brings the table of subscriptions back to what it
    was: the first request adds one row and reports the subscription,
    the second removes that row and no other and reports that the user
    unsubscribed.  The primary keys of the table are distinct and the
    sequence has not handed out its next value. *)
Theorem subscribe_then_unsubscribe_round_trip
  (request_user : User) (cid : Z) (category : Category) (w : World) :
  get_category_or_404 cid w = (Ok category, w) ->
  NoDup (map subscription_id (subscriptions (db w))) ->
  ~ In (Some (next_pk (db w))) (map subscription_id (subscriptions (db w))) ->
  existsb (same_pair request_user category) (subscriptions (db w)) = false ->
  exists w1 w2,
    subscribe_to_category request_user cid w
    = (Ok (redirect_category_posts cid), w1)
    /\ List.length (subscriptions (db w1))
       = S (List.length (subscriptions (db w)))
    /\ existsb (same_pair request_user category) (subscriptions (db w1)) = true
    /\ flash w1 = flash w ++ [FlashSubscribed (category_name category)]
    /\ unsubscribe_from_category request_user cid w1
       = (Ok (redirect_category_posts cid,
              notice_unsubscribed (category_name category)), w2)
    /\ subscriptions (db w2) = subscriptions (db w)
    /\ flash w2 = flash w1.
Proof.
  intros Hcat Hnodup Hfresh Hex.
  pose proof (existsb_false_forall _ _ Hex) as Hall.
  pose proof (filter_nil_of_forall _ _ Hall) as Hnone.
  destruct (Subscription_objects_get_or_create_new_row _ _ _ Hnone)
    as (obj & w0 & E & Hsubs & Hid & Hu & Hc & Hcats & _ & Hflash).
  set (w1 := set_flash w0 (flash w0 ++ [FlashSubscribed (category_name category)])).
  assert (Hrun : subscribe_to_category request_user cid w
                 = (Ok (redirect_category_posts cid), w1)).
  { unfold subscribe_to_category.
    rewrite (bind_Ok _ _ _ _ _ Hcat). rewrite (bind_Ok _ _ _ _ _ E).
    reflexivity. }
  assert (Hsubs1 : subscriptions (db w1) = subscriptions (db w) ++ [obj])
    by exact Hsubs.
  assert (Hpair : same_pair request_user category obj = true).
  { apply same_pair_true. rewrite Hu, Hc. split; reflexivity. }
  assert (Hcat1 : get_category_or_404 cid w1 = (Ok category, w1)).
  { apply get_category_or_404_of_find.
    change (categories (db w1)) with (categories (db w0)).
    rewrite Hcats. apply get_category_or_404_find. exact Hcat. }
  assert (Hnodup1 : NoDup (map subscription_id (subscriptions (db w1)))).
  { rewrite Hsubs1, map_app. cbn [map]. rewrite Hid.
    apply NoDup_snoc; assumption. }
  destruct (Subscription_objects_filter_delete_effect request_user category w1 Hnodup1)
    as (w2 & E2 & Hdb2 & _ & _ & _ & _ & Hflash2 & _).
  assert (Hcount : List.length (filter (same_pair request_user category)
                                       (subscriptions (db w1))) = 1%nat).
  { rewrite Hsubs1, filter_app, Hnone. cbn [filter]. rewrite Hpair.
    reflexivity. }
  exists w1, w2. split; [exact Hrun |]. split; [| split; [| split; [| split; [| split]]]].
  - rewrite Hsubs1, length_app. simpl. lia.
  - rewrite Hsubs1, existsb_app. cbn [existsb]. rewrite Hpair.
    rewrite orb_true_r. reflexivity.
  - unfold w1. cbn [flash set_flash]. rewrite Hflash. reflexivity.
  - unfold unsubscribe_from_category.
    rewrite (bind_Ok _ _ _ _ _ Hcat1). rewrite (bind_Ok _ _ _ _ _ E2).
    rewrite Hcount. reflexivity.
  - rewrite Hdb2. cbn [subscriptions set_subscriptions].
    rewrite Hsubs1, filter_app. cbn [filter]. rewrite Hpair. cbn [negb].
    rewrite app_nil_r. apply filter_all. intros x Hx. rewrite (Hall x Hx).
    reflexivity.
  - exact Hflash2.
Qed.

(** X20.  With at most one row per (user, category) pair, a subscribe
    request raises the subscriber count of the category by one when the
    user was not subscribed and leaves it when the user was; the count
    of every other category stays. *)
Theorem Category_get_subscribers_count_after_subscribe
  (request_user : User) (cid : Z) (category c : Category) (w : World) :
  get_category_or_404 cid w = (Ok category, w) ->
  at_most_one_per_pair (subscriptions (db w)) ->
  exists n w1,
    Category_get_subscribers_count c w = (Ok n, w)
    /\ snd (subscribe_to_category request_user cid w) = w1
    /\ Category_get_subscribers_count c w1
       = (Ok (n + (if (category_id c =? category_id category)%Z
                      && negb (existsb (same_pair request_user category)
                                       (subscriptions (db w)))
                   then 1 else 0))%nat, w1).
Proof.
  intros Hcat Hinv.
  exists (List.length (subscribers_of c (db w))).
  eexists. split; [reflexivity |]. split; [reflexivity |].
  unfold subscribe_to_category.
  rewrite (bind_Ok _ _ _ _ _ Hcat).
  destruct (filter (same_pair request_user category) (subscriptions (db w)))
    as [| a [| b rest]] eqn:Hf.
  - destruct (Subscription_objects_get_or_create_new_row _ _ _ Hf)
      as (obj & w0 & E & Hsubs & _ & _ & Hc & _ & _ & _).
    rewrite (bind_Ok _ _ _ _ _ E).
    rewrite (existsb_false_of_filter_nil _ _ Hf). cbn [negb].
    rewrite andb_true_r.
    unfold Category_get_subscribers_count, Category_subscribers_all, bind,
      gets, ret, messages_add, modify.
    cbn [snd db set_flash]. rewrite Hsubs, filter_app, map_app, length_app.
    cbn [filter]. rewrite Hc. rewrite (Z.eqb_sym (category_id category)).
    unfold subscribers_of.
    destruct (category_id c =? category_id category); reflexivity.
  - rewrite (bind_Ok _ _ _ _ _
               (Subscription_objects_get_or_create_existing _ _ _ _ Hf)).
    assert (Hex : existsb (same_pair request_user category) (subscriptions (db w))
                  = true).
    { assert (Hin : In a (filter (same_pair request_user category)
                                 (subscriptions (db w))))
        by (rewrite Hf; left; reflexivity).
      apply filter_In in Hin. apply existsb_exists. exists a. exact Hin. }
    rewrite Hex. cbn [negb]. rewrite andb_false_r, Nat.add_0_r.
    reflexivity.
  - specialize (Hinv request_user category). rewrite Hf in Hinv.
    simpl in Hinv. lia.
Qed.

End Properties.


(** * The scenarios, run *)

(** C1.  At 00:30 Moscow time on 2 January no news of anna dates from
    the local day, yet her first news of the day is rejected: the code
    counts from local midnight of the UTC date, which is still
    1 January, finds the three news of the day before and reports 3.
    Nothing is written. *)
Theorem news_refused_after_local_midnight :
  news_count_since anna_author (start_of_local_day half_past_midnight_2_jan)
                   db_three_news = 0%nat
  /\ today_start half_past_midnight_2_jan
     = start_of_local_day half_past_midnight_2_jan - MICROSECONDS_PER_DAY
  /\ Post_save (env := scenario half_past_midnight_2_jan transport_working)
               fourth_news (world_of db_three_news)
     = (Raise (ValidationError 3), set_ticks (world_of db_three_news) 2).
Proof. repeat split. Qed.

(** C2.  For an ARTICLE post the handler neither reads nor writes
    [notifications_sent].  With the flag already true the subscriber is
    mailed all the same; with the flag false the mail goes out, the
    stored post is left as it was (flag false), and a second run mails
    the subscriber again. *)
Theorem article_dispatch_ignores_sent_flag :
  dispatch transport_working 1 (world_of (db_article true None))
  = (Ok "article"%string,
     set_outbox (world_of (db_article true None)) [article_mail])
  /\ dispatch transport_working 1 (world_of (db_article false None))
     = (Ok "article"%string,
        set_outbox (world_of (db_article false None)) [article_mail])
  /\ dispatch transport_working 1
       (set_outbox (world_of (db_article false None)) [article_mail])
     = (Ok "article"%string,
        set_outbox (world_of (db_article false None))
                   [article_mail; article_mail]).
Proof. repeat split. Qed.

(** C4.  A post is created inside an atomic block that then fails.
    The transaction is rolled back, so no post is stored, yet the job
    for post 1 is in the queue: [notify_subscribers_on_new_post] called
    [delay] from the [post_save] signal, before any commit.  The worker
    that takes the job does not find the post. *)
Theorem job_submitted_for_rolled_back_post :
  fst (create_then_fail (world_of db_no_posts)) = Raise RuntimeError
  /\ posts (db (snd (create_then_fail (world_of db_no_posts)))) = []
  /\ queue (snd (create_then_fail (world_of db_no_posts)))
     = [send_immediate_notification_job 1]
  /\ fst (dispatch transport_working 1
            (snd (create_then_fail (world_of db_no_posts))))
     = Raise DoesNotExist.
Proof. repeat split. Qed.

(** The sibling path: a category attached inside an atomic block that
    then fails leaves no job behind, because the receiver of
    [m2m_changed] goes through [transaction.on_commit]. *)
Lemma no_job_for_rolled_back_attachment :
  fst (attach_then_fail (world_of (db_article false None))) = Raise RuntimeError
  /\ queue (snd (attach_then_fail (world_of (db_article false None)))) = []
  /\ db (snd (attach_then_fail (world_of (db_article false None))))
     = db_article false None.
Proof. repeat split. Qed.

(** A refused mail does not leave the handlers.  With the transport
    down, the digest for boris and the notifications for boris (about
    an article, about a news) are refused, and the tasks return
    normally: the digest task reports one error, the notification task
    reports success, and for the news it even stores the sent flag. *)
Lemma mail_failure_not_propagated :
  send_weekly_digest_task (env := scenario noon_1_jan transport_down)
                          (world_of (db_article false None))
  = (Ok (mkDigestResult 0 1 1),
     set_refused (set_ticks (world_of (db_article false None)) 3) [digest_mail])
  /\ dispatch transport_down 1 (world_of (db_article false None))
     = (Ok "article"%string,
        set_refused (world_of (db_article false None)) [article_mail])
  /\ fst (dispatch transport_down 1 (world_of db_news)) = Ok "news"%string
  /\ refused (snd (dispatch transport_down 1 (world_of db_news))) = [news_mail]
  /\ outbox (snd (dispatch transport_down 1 (world_of db_news))) = []
  /\ map notifications_sent
         (posts (db (snd (dispatch transport_down 1 (world_of db_news)))))
     = [true].
Proof. repeat split. Qed.

(** A subscriber without an address.  Nothing is handed to the
    transport and nothing is raised: the digest run counts the
    subscription as sent and writes its cursor, and the notification of
    a news stores the sent flag, with the outbox empty and no mail
    refused. *)
Lemma blank_address_is_not_a_failure :
  fst (EmailService_send_weekly_digest
         (env := scenario noon_1_jan transport_down)
         (world_of db_blank_address))
  = Ok (mkDigestResult 1 0 1)
  /\ outbox (snd (EmailService_send_weekly_digest
                    (env := scenario noon_1_jan transport_down)
                    (world_of db_blank_address))) = []
  /\ refused (snd (EmailService_send_weekly_digest
                     (env := scenario noon_1_jan transport_down)
                     (world_of db_blank_address))) = []
  /\ map last_weekly_sent
         (subscriptions
            (db (snd (EmailService_send_weekly_digest
                        (env := scenario noon_1_jan transport_down)
                        (world_of db_blank_address)))))
     = [Some noon_1_jan]
  /\ fst (dispatch transport_working 2 (world_of db_blank_address))
     = Ok "news"%string
  /\ outbox (snd (dispatch transport_working 2 (world_of db_blank_address)))
     = []
  /\ map notifications_sent
         (posts (db (snd (dispatch transport_working 2
                            (world_of db_blank_address)))))
     = [false; true].
Proof. repeat split. Qed.

(** * Instances of the conditional theorems *)

(** boris, already subscribed to Tech, subscribes to Tech again. *)
Lemma subscribe_to_category_unique_pair_witness :
  at_most_one_per_pair
    (subscriptions
       (db (snd (subscribe_to_category
                   (env := scenario noon_1_jan transport_working)
                   boris 1 (world_of (db_article false None))))))
  /\ subscribe_to_category (env := scenario noon_1_jan transport_working)
       boris 1 (world_of (db_article false None))
     = (Ok (redirect_category_posts 1),
        set_flash (world_of (db_article false None))
                  [FlashAlreadySubscribed "Tech"]).
Proof.
  assert (Hinv : at_most_one_per_pair
                   (subscriptions (db (world_of (db_article false None))))).
  { intros user category. simpl.
    destruct (same_pair user category (boris_tech None)); simpl; lia. }
  destruct (subscribe_to_category_unique_pair
              (env := scenario noon_1_jan transport_working)
              boris 1 (world_of (db_article false None)) Hinv)
    as [Hkept Hexisting].
  split; [exact Hkept |].
  destruct (Hexisting tech (boris_tech None) eq_refl (or_introl eq_refl) eq_refl)
    as [_ E].
  exact E.
Defined.

(** boris asks for a resend with an activated token, with a token
    created 23 days ago, and with a token created the day before. *)
Lemma resend_activation_email_cases_witness :
  (* activated: only the informational message *)
  resend_activation_email (env := scenario noon_1_jan transport_working) boris
    (world_of (db_token (at_utc 19700 0 0) true))
  = (Ok redirect_profile,
     set_flash (world_of (db_token (at_utc 19700 0 0) true))
               [FlashAlreadyActivated])
  (* expired: the old row is gone, a new one is there *)
  /\ tokens (db (snd (resend_activation_email
                       (env := scenario noon_1_jan transport_working) boris
                       (world_of (db_token (at_utc 19700 0 0) false)))))
     = [mkActivationToken (Some 2) boris "abc" noon_1_jan false]
  (* still valid: the mail with the existing link, tokens untouched *)
  /\ exists w',
       resend_activation_email (env := scenario noon_1_jan transport_working)
         boris (world_of (db_token (at_utc 19722 0 0) false))
       = (Ok redirect_profile, w')
       /\ tokens (db w') = [boris_token (at_utc 19722 0 0) false]
       /\ outbox w' = [welcome_mail]
       /\ flash w' = [FlashActivationSent].
Proof.
  split; [| split].
  - apply (proj1 (resend_activation_email_cases
                    (env := scenario noon_1_jan transport_working) boris
                    (boris_token (at_utc 19700 0 0) true)
                    (world_of (db_token (at_utc 19700 0 0) true)) eq_refl)).
    reflexivity.
  - apply (proj1 (proj2 (resend_activation_email_cases
                    (env := scenario noon_1_jan transport_working) boris
                    (boris_token (at_utc 19700 0 0) false)
                    (world_of (db_token (at_utc 19700 0 0) false)) eq_refl))).
    + reflexivity.
    + vm_compute. reflexivity.
    + intros r Hin. simpl in Hin. contradiction.
  - apply (proj2 (proj2 (resend_activation_email_cases
                    (env := scenario noon_1_jan transport_working) boris
                    (boris_token (at_utc 19722 0 0) false)
                    (world_of (db_token (at_utc 19722 0 0) false)) eq_refl))).
    + reflexivity.
    + vm_compute. discriminate.
    + exists "emails/welcome_email.txt"%string,
             "emails/welcome_email.html"%string.
      split; [reflexivity |]. split; [reflexivity |].
      split; [discriminate |]. split; reflexivity.
Defined.

(** boris has no cursor and Tech has an article from the day before:
    the digest goes out and the cursor is set to the time of the run. *)
Lemma weekly_digest_cursor_policy_witness :
  exists w',
    EmailService_send_weekly_digest
      (env := scenario noon_1_jan transport_working)
      (world_of (db_article false None))
    = (Ok (mkDigestResult 1 0 1), w')
    /\ outbox w' = [digest_mail]
    /\ subscriptions (db w') = [boris_tech (Some noon_1_jan)].
Proof.
  assert (Hnodup : NoDup (map subscription_id
                            (subscriptions (db (world_of (db_article false None)))))).
  { constructor; [simpl; tauto | constructor]. }
  destruct (weekly_digest_cursor_policy
              (env := scenario noon_1_jan transport_working)
              [] (boris_tech None) []
              (world_of (db_article false None)) eq_refl Hnodup)
    as (c1 & w1 & c2 & w2 & c3 & w3 & E1 & E2 & E3 & Erun & _ & _ & _ & _
        & Hsent & _).
  cbn [send_weekly_digest_loop] in E1, E3. unfold ret in E1, E3.
  inversion E1; subst c1 w1. clear E1.
  inversion E3; subst c3 w3. clear E3.
  assert (Hq : exists p,
             qualifying_article (subscription_category (boris_tech None))
               (noon_1_jan - timedelta_days 7)
               (db (world_of (db_article false None))) p).
  { exists (article 1 (at_utc 19722 9 0) false).
    split; [left; reflexivity |].
    split; [reflexivity |].
    split; [vm_compute; discriminate |].
    exists (mkPostCategory 1 tech).
    split; [left; reflexivity |]. split; reflexivity. }
  destruct (Hsent I Hq digest_mail eq_refl) as (Hc & Hout & Hsubs).
  exists w2. rewrite Erun, Hc. split; [reflexivity |].
  split; [exact Hout | exact Hsubs].
Defined.

(** The transport refuses boris and accepts anna: the run returns,
    with at least one error counted. *)
Lemma weekly_digest_failure_is_isolated_witness :
  exists r w',
    EmailService_send_weekly_digest
      (env := scenario noon_1_jan transport_refusing_boris)
      (world_of db_two_subscribers) = (Ok r, w')
    /\ total r = (sent r + errors r)%nat
    /\ (1 <= errors r)%nat.
Proof.
  destruct (weekly_digest_failure_is_isolated
              (env := scenario noon_1_jan transport_refusing_boris)
              [] (boris_tech None) [anna_tech]
              (world_of db_two_subscribers) eq_refl)
    as (c1 & w1 & c2 & w2 & c3 & w3 & E1 & E2 & E3 & Erun & Hle & Hfail).
  simpl in E1. inversion E1; subst c1 w1. clear E1.
  destruct (Hfail eq_refl ltac:(discriminate) eq_refl) as (Hc2 & _ & _).
  subst c2. simpl in Hle.
  eexists _, _. split; [exact Erun |]. split; [reflexivity | exact Hle].
Defined.

(** One hundred Cyrillic letters are two hundred bytes and one hundred
    characters: the content is its own preview. *)
Lemma Post_preview_bounds_witness :
  String.length (content russian_article) = 200%nat
  /\ Post_preview russian_article = content russian_article.
Proof.
  split; [reflexivity |].
  apply (proj1 (proj2 (Post_preview_bounds russian_article))).
  apply Nat.leb_le. reflexivity.
Defined.

(** The stored article is liked and then disliked; an article whose
    rating is the largest the column holds cannot be liked. *)
Lemma Post_like_then_dislike_witness :
  (exists liked w1 restored w2,
     Post_like (env := scenario noon_1_jan transport_working)
       (article 1 (at_utc 19722 9 0) false) (world_of (db_article false None))
     = (Ok liked, w1)
     /\ rating liked = 1
     /\ Post_dislike (env := scenario noon_1_jan transport_working) liked w1
        = (Ok restored, w2)
     /\ Post_objects_get (Some 1) w2 = (Ok restored, w2)
     /\ rating restored = 0
     /\ queue w2 = [])
  /\ Post_like (env := scenario noon_1_jan transport_working)
       top_rated_article (world_of db_top_rated)
     = (Raise OverflowError, set_ticks (world_of db_top_rated) 1).
Proof.
  split.
  - destruct (proj1 (Post_like_then_dislike
                (env := scenario noon_1_jan transport_working)
                (article 1 (at_utc 19722 9 0) false) 1
                (world_of (db_article false None)) eq_refl eq_refl) eq_refl)
      as (liked & w1 & restored & w2 & E1 & _ & Hr & E2 & Hget & Hback & Hq & _).
    exists liked, w1, restored, w2.
    split; [exact E1 |]. split; [exact Hr |]. split; [exact E2 |].
    split; [exact Hget |]. split; [| exact Hq].
    transitivity (rating (Post_set_updated_at restored
                            (updated_at (article 1 (at_utc 19722 9 0) false))));
      [reflexivity | rewrite Hback; reflexivity].
  - apply (proj1 (proj2 (Post_like_then_dislike
                (env := scenario noon_1_jan transport_working)
                top_rated_article 1 (world_of db_top_rated)
                eq_refl eq_refl)) eq_refl).
Defined.

(** anna, with one news from the day before, publishes a news at noon
    on 1 January. *)
Lemma news_count_after_creation_witness :
  news_count_since anna_author (today_start noon_1_jan)
    (db (snd (Post_save (env := scenario noon_1_jan transport_working)
                        fourth_news (world_of db_news))))
  = 1%nat
  /\ news_count_since anna_author (today_start noon_1_jan) db_news = 0%nat.
Proof.
  destruct (news_count_after_creation
              (env := scenario noon_1_jan transport_working)
              noon_1_jan fourth_news
              (mkPost (Some 2) anna_author NEWS "fourth" "text" 0
                      noon_1_jan noon_1_jan false)
              (world_of db_news)
              (snd (Post_save (env := scenario noon_1_jan transport_working)
                              fourth_news (world_of db_news)))
              (fun _ => eq_refl) eq_refl eq_refl eq_refl)
    as (Hcount & _).
  split; [exact Hcount | reflexivity].
Defined.

(** boris already has a token: a second [create_token] is refused and
    the table stays well-formed. *)
Lemma ActivationToken_create_token_keeps_uniqueness_witness :
  fst (ActivationToken_create_token
         (env := scenario noon_1_jan transport_working) boris
         (world_of (db_token (at_utc 19722 0 0) false)))
  = Raise IntegrityError
  /\ token_strings_distinct
       (tokens (db (snd (ActivationToken_create_token
                           (env := scenario noon_1_jan transport_working) boris
                           (world_of (db_token (at_utc 19722 0 0) false)))))).
Proof.
  assert (Hone : one_token_per_user
                   (tokens (db (world_of (db_token (at_utc 19722 0 0) false))))).
  { intros user. cbn [tokens db world_of db_token filter].
    destruct (_ =? _); simpl; lia. }
  assert (Hdistinct : token_strings_distinct
                        (tokens (db (world_of (db_token (at_utc 19722 0 0) false))))).
  { constructor; [simpl; tauto | constructor]. }
  destruct (ActivationToken_create_token_keeps_uniqueness
              (env := scenario noon_1_jan transport_working) boris
              (world_of (db_token (at_utc 19722 0 0) false)) Hone Hdistinct)
    as (_ & Hkept & Hrefused).
  split; [| exact Hkept].
  apply Hrefused. exists (boris_token (at_utc 19722 0 0) false).
  split; [left; reflexivity | reflexivity].
Defined.

(** anna has no token row and asks for a resend. *)
Lemma resend_activation_email_without_token_witness :
  tokens (db (snd (resend_activation_email
                     (env := scenario noon_1_jan transport_working) anna
                     (world_of (db_token (at_utc 19722 0 0) false)))))
  = [boris_token (at_utc 19722 0 0) false;
     mkActivationToken (Some 2) anna "abc" noon_1_jan false].
Proof.
  apply (proj1 (resend_activation_email_without_token
                  (env := scenario noon_1_jan transport_working) anna
                  (world_of (db_token (at_utc 19722 0 0) false)) eq_refl
                  (fun r Hin =>
                     match Hin with
                     | or_introl Heq =>
                         eq_ind (boris_token (at_utc 19722 0 0) false)
                                (fun r0 => token r0 <> "abc"%string)
                                ltac:(discriminate) r Heq
                     | or_intror Hnil => match Hnil with end
                     end))).
Defined.

(** A post is created while two keys are cached: the key of the latest
    news goes, the key of a user's subscriptions stays. *)
Lemma Post_save_evicts_cache_witness :
  In (key_user_subscriptions 2)
     (cache (snd (Post_save (env := scenario noon_1_jan transport_working)
                    new_article
                    (set_cache (world_of db_no_posts)
                               [key_latest_news; key_user_subscriptions 2]))))
  /\ ~ In key_latest_news
       (cache (snd (Post_save (env := scenario noon_1_jan transport_working)
                      new_article
                      (set_cache (world_of db_no_posts)
                                 [key_latest_news; key_user_subscriptions 2])))).
Proof.
  pose proof (Post_save_evicts_cache
                (env := scenario noon_1_jan transport_working)
                new_article
                (mkPost (Some 1) anna_author ARTICLE "draft" "text" 0
                        noon_1_jan noon_1_jan false)
                (set_cache (world_of db_no_posts)
                           [key_latest_news; key_user_subscriptions 2])
                (snd (Post_save (env := scenario noon_1_jan transport_working)
                        new_article
                        (set_cache (world_of db_no_posts)
                                   [key_latest_news; key_user_subscriptions 2])))
                eq_refl eq_refl) as Hcache.
  split.
  - apply (proj2 (Hcache (key_user_subscriptions 2))). split.
    + right. left. reflexivity.
    + simpl. intros [H | [H | [H | [H | []]]]]; discriminate.
  - intros Hin. apply (proj1 (Hcache key_latest_news)) in Hin.
    apply (proj2 Hin). left. reflexivity.
Defined.

(** A category is attached to the stored article outside any atomic
    block: one job for post 1. *)
Lemma handle_post_categories_changed_cases_witness :
  handle_post_categories_changed (article 1 (at_utc 19722 9 0) false)
    "post_add" (world_of (db_article false None))
  = (Ok tt,
     set_queue (world_of (db_article false None))
               [send_immediate_notification_job 1]).
Proof.
  apply (proj1 (proj2 (handle_post_categories_changed_cases
                         (article 1 (at_utc 19722 9 0) false) "post_add"
                         (world_of (db_article false None))))
           eq_refl 1 (article 1 (at_utc 19722 9 0) false) eq_refl eq_refl).
Defined.

(** The news in Tech is announced to boris. *)
Lemma Post_send_notifications_to_subscribers_fan_out_witness :
  exists w',
    Post_send_notifications_to_subscribers
      (env := scenario noon_1_jan transport_working)
      (news_at 1 (at_utc 19722 9 0)) (world_of db_news)
    = (Ok tt, w')
    /\ outbox w' = [news_mail]
    /\ map notifications_sent (posts (db w')) = [true].
Proof.
  destruct (proj2 (Post_send_notifications_to_subscribers_fan_out
                     (env := scenario noon_1_jan transport_working)
                     (news_at 1 (at_utc 19722 9 0)) 1 (world_of db_news)
                     eq_refl eq_refl) eq_refl)
    as (w' & stored & E & Hout & _ & _ & _ & _).
  exists w'. split; [exact E |]. split; [exact Hout |].
  inversion E. reflexivity.
Defined.

(** The article in Tech is announced to boris and the database stays
    as it was. *)
Lemma EmailService_send_immediate_article_notification_fan_out_witness :
  exists w',
    EmailService_send_immediate_article_notification
      (env := scenario noon_1_jan transport_working)
      (article 1 (at_utc 19722 9 0) false) (world_of (db_article false None))
    = (Ok tt, w')
    /\ outbox w' = [article_mail]
    /\ db w' = db_article false None.
Proof.
  destruct (proj2 (EmailService_send_immediate_article_notification_fan_out
                     (env := scenario noon_1_jan transport_working)
                     (article 1 (at_utc 19722 9 0) false)
                     (world_of (db_article false None))) eq_refl)
    as (w' & E & Hout & Hdb & _).
  exists w'. split; [exact E |]. split; [exact Hout | exact Hdb].
Defined.

(** anna has three news since the start the code computes: the form
    and the model refuse alike. *)
Lemma NewsCreateForm_clean_agrees_with_Post_clean_witness :
  fst (NewsCreateForm_clean (env := scenario noon_1_jan transport_working)
         (Some anna_author) (world_of db_three_news))
  = fst (Post_clean (env := scenario noon_1_jan transport_working)
           fourth_news (world_of db_three_news))
  /\ fst (Post_clean (env := scenario noon_1_jan transport_working)
            fourth_news (world_of db_three_news))
     = Raise (ValidationError 3).
Proof.
  split; [| reflexivity].
  apply (proj1 (NewsCreateForm_clean_agrees_with_Post_clean
                  (env := scenario noon_1_jan transport_working)
                  noon_1_jan fourth_news (world_of db_three_news)
                  (fun _ => eq_refl) eq_refl eq_refl)).
Defined.

(** A value that names no band leaves the queryset as it is. *)
Lemma filter_rating_bands_witness :
  filter_rating (posts db_three_news) "rating" "all" = posts db_three_news.
Proof.
  apply (proj2 (proj2 (filter_rating_bands (posts db_three_news) "rating"
                         (news_at 1 (at_utc 19723 7 0))))).
  simpl. intros [H | [H | [H | [H | []]]]]; discriminate.
Defined.

(** boris follows his link the day after the token was created. *)
Lemma ActivationView_get_activates_once_witness :
  exists w',
    ActivationView_get (env := scenario noon_1_jan transport_working) "old"
      (world_of (db_token (at_utc 19722 0 0) false))
    = (Ok (status_success "boris", Some boris), w')
    /\ tokens (db w') = [boris_token (at_utc 19722 0 0) true]
    /\ queue w' = [send_activation_success_job 2]
    /\ ActivationView_get (env := scenario noon_1_jan transport_working) "old" w'
       = (Ok (status_already_activated, None), set_ticks w' (S (ticks w'))).
Proof.
  assert (Hnodup : NoDup (map token_id
                            (tokens (db (world_of (db_token (at_utc 19722 0 0) false)))))).
  { constructor; [simpl; tauto | constructor]. }
  assert (Hle : noon_1_jan <= at_utc 19722 0 0 + timedelta_days 7)
    by (vm_compute; discriminate).
  destruct (proj2 (proj2 (proj2 (ActivationView_get_activates_once
                     (env := scenario noon_1_jan transport_working) "old"
                     (world_of (db_token (at_utc 19722 0 0) false)))
                     (boris_token (at_utc 19722 0 0) false) Hnodup eq_refl))
              Hle eq_refl)
    as (w' & E & Htoks & _ & Hq & _ & Hagain).
  exists w'. split; [exact E |]. split; [exact Htoks |]. split; [exact Hq |].
  exact (Hagain Hle).
Defined.

(** boris, subscribed to Tech, unsubscribes. *)
Lemma unsubscribe_from_category_effect_witness :
  exists w',
    unsubscribe_from_category boris 1 (world_of (db_article false None))
    = (Ok (redirect_category_posts 1, notice_unsubscribed "Tech"), w')
    /\ subscriptions (db w') = [].
Proof.
  assert (Hnodup : NoDup (map subscription_id
                            (subscriptions (db (world_of (db_article false None)))))).
  { constructor; [simpl; tauto | constructor]. }
  destruct (proj2 (unsubscribe_from_category_effect boris 1 (world_of (db_article false None)))
              tech eq_refl Hnodup)
    as (notice & w' & E & Hsubs & _ & Hwas & _).
  destruct (Hwas eq_refl) as (Hnotice & _).
  rewrite Hnotice in E.
  exists w'. split; [exact E | exact Hsubs].
Defined.

(** anna subscribes to Tech and unsubscribes: boris's row is all that
    is left, as before. *)
Lemma subscribe_then_unsubscribe_round_trip_witness :
  exists w1 w2,
    subscribe_to_category (env := scenario noon_1_jan transport_working)
      anna 1 (world_of (db_article false None))
    = (Ok (redirect_category_posts 1), w1)
    /\ unsubscribe_from_category anna 1 w1
       = (Ok (redirect_category_posts 1, notice_unsubscribed "Tech"), w2)
    /\ subscriptions (db w2) = [boris_tech None].
Proof.
  assert (Hnodup : NoDup (map subscription_id
                            (subscriptions (db (world_of (db_article false None)))))).
  { constructor; [simpl; tauto | constructor]. }
  assert (Hfresh : ~ In (Some (next_pk (db (world_of (db_article false None)))))
                        (map subscription_id
                           (subscriptions (db (world_of (db_article false None)))))).
  { simpl. intros [H | []]. discriminate. }
  destruct (subscribe_then_unsubscribe_round_trip
              (env := scenario noon_1_jan transport_working)
              anna 1 tech (world_of (db_article false None))
              eq_refl Hnodup Hfresh eq_refl)
    as (w1 & w2 & E1 & _ & _ & _ & E2 & Hback & _).
  exists w1, w2. split; [exact E1 |]. split; [exact E2 | exact Hback].
Defined.

(** Tech has one subscriber; after anna subscribes it has two. *)
Lemma Category_get_subscribers_count_after_subscribe_witness :
  exists w1,
    Category_get_subscribers_count tech (world_of (db_article false None))
    = (Ok 1%nat, world_of (db_article false None))
    /\ Category_get_subscribers_count tech w1 = (Ok 2%nat, w1).
Proof.
  assert (Hinv : at_most_one_per_pair
                   (subscriptions (db (world_of (db_article false None))))).
  { intros user category. simpl.
    destruct (same_pair user category (boris_tech None)); simpl; lia. }
  destruct (Category_get_subscribers_count_after_subscribe
              (env := scenario noon_1_jan transport_working)
              anna 1 tech tech (world_of (db_article false None))
              eq_refl Hinv)
    as (n & w1 & E0 & _ & E1).
  exists w1. split; [reflexivity |].
  assert (Hn : n = 1%nat) by (inversion E0; reflexivity).
  rewrite Hn in E1. exact E1.
Defined.

(** The transport refuses boris and accepts anna.  The digest for boris
    is recorded as refused and counted as an error, and the task
    returns; the notification about the article is refused for boris
    and goes out to anna. *)
Lemma mail_failures_stay_inside_handlers_witness :
  (exists c w',
     send_weekly_digest_task
       (env := scenario noon_1_jan transport_refusing_boris)
       (world_of db_two_subscribers)
     = (Ok (mkDigestResult (fst c) (snd c) (fst c + snd c)), w')
     /\ (1 <= snd c)%nat)
  /\ exists w',
       dispatch transport_refusing_boris 1 (world_of db_two_subscribers)
       = (Ok "article"%string, w')
       /\ outbox w'
          = [mkMessage (SubjectNewArticle "Tech")
                       "emails/new_article_notification.txt"
                       ["anna@example.com"%string]
                       "emails/new_article_notification.html"]
       /\ refused w' = [article_mail].
Proof.
  destruct (mail_failures_stay_inside_handlers
              (env := scenario noon_1_jan transport_refusing_boris)
              1 (world_of db_two_subscribers))
    as (_ & Hdigest & Hnotify).
  split.
  - destruct (Hdigest [] (boris_tech None) [anna_tech] eq_refl)
      as (c1 & w1 & c2 & w2 & c3 & w3 & E1 & E2 & E3 & Erun & Hrefused).
    cbn [send_weekly_digest_loop] in E1. unfold ret in E1.
    inversion E1; subst c1 w1. clear E1.
    destruct (Hrefused digest_mail eq_refl ltac:(discriminate) eq_refl)
      as (_ & _ & _ & _ & Hle).
    exists c3, w3. split; [exact Erun | exact Hle].
  - destruct Hnotify as [(post & w' & Hget & Erun & _ & Hmail) | [Hget _]];
      [| discriminate].
    inversion Hget; subst post. clear Hget.
    destruct (Hmail (or_introl eq_refl)) as [Hout Href].
    exists w'. split; [exact Erun |]. split; [exact Hout | exact Href].
Defined.

(** One subscriber with an address and a working transport: one digest
    counted as sent, one mail in the outbox. *)
Lemma EmailService_send_weekly_digest_counters_witness :
  exists r w',
    EmailService_send_weekly_digest
      (env := scenario noon_1_jan transport_working)
      (world_of (db_article false None)) = (Ok r, w')
    /\ List.length (outbox w') = sent r
    /\ total r = (sent r + errors r)%nat.
Proof.
  destruct (EmailService_send_weekly_digest_counters
              (env := scenario noon_1_jan transport_working)
              (world_of (db_article false None)))
    as (r & w' & E & _ & Hexact & Htotal & _).
  exists r, w'. split; [exact E |]. split; [| exact Htotal].
  apply Hexact. constructor; [discriminate | constructor].
Defined.
